(** * File management system: record lifecycle and query/export engine

    A shallow embedding of the backend's file controller
    (controllers/fileController.js), the FileRecord schema
    (models/FileRecord.js) and the upload middleware
    (middlewares/uploadMiddleware.js), with the pieces of the JavaScript
    runtime, of Node's [path] and [fs] modules and of the document store
    that the controller calls; then of the authentication middleware
    (middlewares/authMiddleware.js), the file router (routes/fileRoutes.js)
    and the error middleware (middlewares/errorMiddleware.js).

    Conventions of the embedding:
    - a JavaScript string is a [string] of 8-bit characters; [trim] and
      [toLowerCase] act on the ASCII range, and what depends on the
      characters of a text is stated for text in that range ([JS.isAscii]);
    - a [Date] is its time value in milliseconds since the epoch, [None]
      standing for [Invalid Date]; the date strings that are read are the
      calendar dates [YYYY-MM-DD];
    - a number is an integer of unbounded size: the rounding of doubles
      beyond 2^53 is not part of the model, and what depends on the value
      of a number is stated for the safe integers ([JS.isSafeInteger]);
    - an [undefined] request field is [None];
    - the handlers run in a state-and-exception monad over a [World] holding
      the uploads directory, the collection and the emitted socket events. *)

From Stdlib Require Import ZArith Ascii String DecimalString DecimalNat Lia.
From stdpp Require Import base decidable option list strings gmap.

Local Open Scope Z_scope.

(** ** JavaScript strings *)

Module JS.

(** Truthiness of a possibly-undefined string: [undefined] and the empty
    string are falsy. *)
Definition truthyStr (s : string) : bool := negb (String.eqb s "").

Definition truthy (o : option string) : bool :=
  match o with
  | Some s => truthyStr s
  | None => false
  end.

(** [a || b] on strings with [null] as the fallback. *)
Definition orNull (o : option string) : option string :=
  match o with
  | Some s => if truthyStr s then Some s else None
  | None => None
  end.

Definition isWhiteSpace (c : ascii) : bool :=
  match c with
  | "009" | "010" | "011" | "012" | "013" | " " => true
  | _ => false
  end%char.

Fixpoint trimStart (s : string) : string :=
  match s with
  | EmptyString => EmptyString
  | String c s' => if isWhiteSpace c then trimStart s' else s
  end.

(** [trimEnd] keeps a character when it is not white space or when
    something survives to its right. *)
Fixpoint trimEnd (s : string) : string :=
  match s with
  | EmptyString => EmptyString
  | String c s' =>
      match trimEnd s' with
      | EmptyString => if isWhiteSpace c then EmptyString else String c EmptyString
      | t => String c t
      end
  end.

Definition trim (s : string) : string := trimEnd (trimStart s).

Definition lowerChar (c : ascii) : ascii :=
  let n := nat_of_ascii c in
  if ((65 <=? n) && (n <=? 90))%nat then ascii_of_nat (n + 32) else c.

Fixpoint toLowerCase (s : string) : string :=
  match s with
  | EmptyString => EmptyString
  | String c s' => String (lowerChar c) (toLowerCase s')
  end.

Definition charAt (s : string) (i : nat) : ascii :=
  match String.get i s with
  | Some c => c
  | None => "000"%char
  end.

(** [s.slice(a, b)] for indices already clamped by the caller. *)
Definition slice (s : string) (a b : Z) : string :=
  String.substring (Z.to_nat a) (Z.to_nat (b - a)) s.

Definition isDigit (c : ascii) : bool :=
  let n := nat_of_ascii c in ((48 <=? n) && (n <=? 57))%nat.

Definition digitVal (c : ascii) : Z := Z.of_nat (nat_of_ascii c) - 48.

(** [String(n)] for a natural number. *)
Definition String_ (n : nat) : string := NilZero.string_of_uint (Nat.to_uint n).

(** [String(z)] for an integer. *)
Definition StringZ (z : Z) : string := NilZero.string_of_int (Z.to_int z).

Fixpoint repeatChar (c : ascii) (n : nat) : string :=
  match n with
  | O => EmptyString
  | S k => String c (repeatChar c k)
  end.

(** [s.padStart(targetLength, fill)] for a one-character fill string. *)
Definition padStart (s : string) (targetLength : nat) (fill : ascii) : string :=
  repeatChar fill (targetLength - String.length s) +:+ s.

(** The longest prefix of decimal digits, read as a number; [None] when
    the prefix is empty. *)
Fixpoint digitsPrefix (s : string) (acc : option Z) : option Z :=
  match s with
  | EmptyString => acc
  | String c s' =>
      if isDigit c
      then digitsPrefix s' (Some (10 * default 0 acc + digitVal c))
      else acc
  end.

(** [parseInt(s, 10)]; [None] is [NaN]. *)
Definition parseInt (s : string) : option Z :=
  match trimStart s with
  | String "-" s' => Z.opp <$> digitsPrefix s' None
  | String "+" s' => digitsPrefix s' None
  | s' => digitsPrefix s' None
  end.

Definition isHexDigit (c : ascii) : bool :=
  let n := nat_of_ascii c in
  ((48 <=? n) && (n <=? 57) || (65 <=? n) && (n <=? 70)
   || (97 <=? n) && (n <=? 102))%nat.

Definition hexVal (c : ascii) : Z :=
  let n := Z.of_nat (nat_of_ascii c) in
  if n <=? 57 then n - 48 else if n <=? 70 then n - 55 else n - 87.

(** The longest prefix of hexadecimal digits, read as a number. *)
Fixpoint hexPrefix (s : string) (acc : option Z) : option Z :=
  match s with
  | EmptyString => acc
  | String c s' =>
      if isHexDigit c
      then hexPrefix s' (Some (16 * default 0 acc + hexVal c))
      else acc
  end.

(** The digits that [parseInt] reads when it is given no radix: base 16
    after [0x] or [0X], base 10 otherwise. *)
Definition digitsOfAnyRadix (s : string) : option Z :=
  match s with
  | String "0" (String "x" s') => hexPrefix s' None
  | String "0" (String "X" s') => hexPrefix s' None
  | _ => digitsPrefix s None
  end.

(** [parseInt(s)], without a radix; [None] is [NaN]. *)
Definition parseIntNoRadix (s : string) : option Z :=
  match trimStart s with
  | String "-" s' => Z.opp <$> digitsOfAnyRadix s'
  | String "+" s' => digitsOfAnyRadix s'
  | s' => digitsOfAnyRadix s'
  end.

(** [Number.MAX_SAFE_INTEGER]: the integers up to it, in absolute value,
    are numbers of the runtime, and so are their sums, differences and
    products that stay in that range. *)
Definition MAX_SAFE_INTEGER : Z := 2 ^ 53 - 1.


(** Whether every character of a string is in the ASCII range.  On such
    strings [trim], [toLowerCase], [length] and the white space that
    [parseInt] skips are those of the runtime, character for character. *)
Fixpoint isAscii (s : string) : bool :=
  match s with
  | EmptyString => true
  | String c s' => (nat_of_ascii c <? 128)%nat && isAscii s'
  end.

Definition isAsciiOpt (o : option string) : bool :=
  match o with
  | Some s => isAscii s
  | None => true
  end.

(** [n || d] on numbers: [NaN] and [0] are falsy. *)
Definition orNum (n : option Z) (d : Z) : Z :=
  match n with
  | Some v => if v =? 0 then d else v
  | None => d
  end.

(** [Math.ceil(a / b)] for integers [a] and [b <> 0]. *)
Definition ceilDiv (a b : Z) : Z := - ((- a) / b).

(** [s.replace(/[^a-zA-Z0-9]/g, '_')]. *)
Definition isAlnum (c : ascii) : bool :=
  let n := nat_of_ascii c in
  ((48 <=? n) && (n <=? 57) || (65 <=? n) && (n <=? 90)
   || (97 <=? n) && (n <=? 122))%nat.

Fixpoint sanitize (s : string) : string :=
  match s with
  | EmptyString => EmptyString
  | String c s' => String (if isAlnum c then c else "_"%char) (sanitize s')
  end.

(** [s.split(sep)[0]]: the part before the first occurrence of [sep]. *)
Fixpoint beforeChar (sep : ascii) (s : string) : string :=
  match s with
  | EmptyString => EmptyString
  | String c s' => if Ascii.eqb c sep then EmptyString else String c (beforeChar sep s')
  end.

(** [s.replace(a, b)] for one-character strings: the first occurrence only. *)
Fixpoint replaceFirst (a b : ascii) (s : string) : string :=
  match s with
  | EmptyString => EmptyString
  | String c s' => if Ascii.eqb c a then String b s' else String c (replaceFirst a b s')
  end.

(** [a.includes(x)] on an array of strings. *)
Definition includes (a : list string) (x : string) : bool :=
  existsb (String.eqb x) a.

End JS.

(** ** JavaScript dates *)

Module JSDate.

(** A [Date] object: its time value, or [None] for [Invalid Date]. *)
Definition t := option Z.

Definition msPerDay : Z := 86400000.

(** Days from 1970-01-01 to the given proleptic Gregorian date, the day
    being allowed to overflow the month as in [MakeDay]. *)
Definition daysFromCivil (y m d : Z) : Z :=
  let y' := if m <=? 2 then y - 1 else y in
  let era := y' / 400 in
  let yoe := y' - era * 400 in
  let mp := if 2 <? m then m - 3 else m + 9 in
  let doy := (153 * mp + 2) / 5 + d - 1 in
  let doe := yoe * 365 + yoe / 4 - yoe / 100 + doy in
  era * 146097 + doe - 719468.

(** The inverse: year, month (1-12) and day of a day number. *)
Definition civilFromDays (z : Z) : Z * Z * Z :=
  let z := z + 719468 in
  let era := z / 146097 in
  let doe := z - era * 146097 in
  let yoe := (doe - doe / 1460 + doe / 36524 - doe / 146096) / 365 in
  let doy := doe - (365 * yoe + yoe / 4 - yoe / 100) in
  let mp := (5 * doy + 2) / 153 in
  let d := doy - (153 * mp + 2) / 5 + 1 in
  let m := if mp <? 10 then mp + 3 else mp - 9 in
  let y := yoe + era * 400 in
  (if m <=? 2 then y + 1 else y, m, d).

Definition allDigits (s : string) : bool :=
  forallb JS.isDigit (list_ascii_of_string s).

Definition number (s : string) : Z := default 0 (JS.digitsPrefix s None).

(** [new Date(s)] for the date-only form [YYYY-MM-DD] sent by the date
    inputs of the client, which is read as midnight UTC; a month outside
    1-12 or a day outside 1-31 gives [Invalid Date].  Other strings are
    outside this model and are reported as [Invalid Date]. *)
Definition parse (s : string) : t :=
  let y := String.substring 0 4 s in
  let m := String.substring 5 2 s in
  let d := String.substring 8 2 s in
  if (String.length s =? 10)%nat
     && Ascii.eqb (JS.charAt s 4) "-" && Ascii.eqb (JS.charAt s 7) "-"
     && allDigits y && allDigits m && allDigits d
     && (1 <=? number m) && (number m <=? 12)
     && (1 <=? number d) && (number d <=? 31)
  then Some (daysFromCivil (number y) (number m) (number d) * msPerDay)
  else None.

(** [d.setHours(h, m, s, ms)]: the local calendar day of [d] is kept and
    the local time of day is replaced.  [tz] is the offset of local time
    from UTC in minutes (positive east of Greenwich). *)
Definition setHours (tz : Z) (h m s ms : Z) (d : t) : t :=
  match d with
  | None => None
  | Some v =>
      let localDay := (v + tz * 60000) / msPerDay in
      Some (localDay * msPerDay + ((h * 60 + m) * 60 + s) * 1000 + ms
            - tz * 60000)
  end.

Definition pad (width : nat) (n : Z) : string :=
  JS.padStart (JS.StringZ n) width "0".

(** [d.toISOString()] of a valid date. *)
Definition toISOString (v : Z) : string :=
  let day := v / msPerDay in
  let r := v mod msPerDay in
  let '(y, m, d) := civilFromDays day in
  let year :=
    if (0 <=? y) && (y <=? 9999) then pad 4 y
    else (if y <? 0 then "-" else "+") +:+ pad 6 (Z.abs y) in
  year +:+ "-" +:+ pad 2 m +:+ "-" +:+ pad 2 d +:+ "T"
  +:+ pad 2 (r / 3600000) +:+ ":" +:+ pad 2 (r / 60000 mod 60) +:+ ":"
  +:+ pad 2 (r / 1000 mod 60) +:+ "." +:+ pad 3 (r mod 1000) +:+ "Z".

End JSDate.




(** ** Node's [path] module (POSIX flavour) *)

Module Path.

Record ExtState := mkExt {
  startDot : Z;
  startPart : Z;
  extEnd : Z;
  matchedSlash : bool;
  preDotState : Z
}.

(** The backwards scan of [path.extname]: [n] is the number of characters
    still to visit, the one visited next has index [n - 1]. *)
Fixpoint extnameScan (p : string) (n : nat) (st : ExtState) : ExtState :=
  match n with
  | O => st
  | S i =>
      let code := JS.charAt p i in
      if Ascii.eqb code "/" then
        if negb (matchedSlash st)
        then mkExt (startDot st) (Z.of_nat i + 1) (extEnd st)
                   (matchedSlash st) (preDotState st)
        else extnameScan p i st
      else
        let st1 :=
          if extEnd st =? -1
          then mkExt (startDot st) (startPart st) (Z.of_nat i + 1)
                     false (preDotState st)
          else st in
        let st2 :=
          if Ascii.eqb code "."
          then if startDot st1 =? -1
               then mkExt (Z.of_nat i) (startPart st1) (extEnd st1)
                          (matchedSlash st1) (preDotState st1)
               else if negb (preDotState st1 =? 1)
                    then mkExt (startDot st1) (startPart st1) (extEnd st1)
                               (matchedSlash st1) 1
                    else st1
          else if negb (startDot st1 =? -1)
               then mkExt (startDot st1) (startPart st1) (extEnd st1)
                          (matchedSlash st1) (-1)
               else st1 in
        extnameScan p i st2
  end.

Definition extname (p : string) : string :=
  let st := extnameScan p (String.length p) (mkExt (-1) 0 (-1) true 0) in
  if (startDot st =? -1)
     || (extEnd st =? -1)
     || (preDotState st =? 0)
     || ((preDotState st =? 1)
         && (startDot st =? extEnd st - 1)
         && (startDot st =? startPart st + 1))
  then ""
  else JS.slice p (startDot st) (extEnd st).

Record BaseState := mkBase {
  bStart : Z;
  bEnd : Z;
  bMatchedSlash : bool;
  extIdx : Z;
  firstNonSlashEnd : Z
}.

(** The scan of [path.basename(p, suffix)] when a non-empty suffix no
    longer than [p] is given. *)
Fixpoint basenameSuffixScan (p suffix : string) (n : nat) (st : BaseState)
  : BaseState :=
  match n with
  | O => st
  | S i =>
      let code := JS.charAt p i in
      if Ascii.eqb code "/" then
        if negb (bMatchedSlash st)
        then mkBase (Z.of_nat i + 1) (bEnd st) (bMatchedSlash st)
                    (extIdx st) (firstNonSlashEnd st)
        else basenameSuffixScan p suffix i st
      else
        let st1 :=
          if firstNonSlashEnd st =? -1
          then mkBase (bStart st) (bEnd st) false (extIdx st) (Z.of_nat i + 1)
          else st in
        let st2 :=
          if 0 <=? extIdx st1 then
            if Ascii.eqb code (JS.charAt suffix (Z.to_nat (extIdx st1)))
            then
              let e := extIdx st1 - 1 in
              if e =? -1
              then mkBase (bStart st1) (Z.of_nat i) (bMatchedSlash st1) e
                          (firstNonSlashEnd st1)
              else mkBase (bStart st1) (bEnd st1) (bMatchedSlash st1) e
                          (firstNonSlashEnd st1)
            else mkBase (bStart st1) (firstNonSlashEnd st1) (bMatchedSlash st1)
                        (-1) (firstNonSlashEnd st1)
          else st1 in
        basenameSuffixScan p suffix i st2
  end.

(** The scan of [path.basename(p)] without a usable suffix; the state is
    [(start, end, matchedSlash)]. *)
Fixpoint basenameScan (p : string) (n : nat) (st : Z * Z * bool) : Z * Z * bool :=
  match n with
  | O => st
  | S i =>
      let '(start, end_, matched) := st in
      if Ascii.eqb (JS.charAt p i) "/" then
        if negb matched then (Z.of_nat i + 1, end_, matched)
        else basenameScan p i st
      else if end_ =? -1 then basenameScan p i (start, Z.of_nat i + 1, false)
      else basenameScan p i st
  end.

Definition basename (p suffix : string) : string :=
  if (0 <? String.length suffix)%nat && (String.length suffix <=? String.length p)%nat
  then
    if String.eqb suffix p then ""
    else
      let st := basenameSuffixScan p suffix (String.length p)
                  (mkBase 0 (-1) true (Z.of_nat (String.length suffix) - 1) (-1)) in
      let end_ :=
        if bStart st =? bEnd st then firstNonSlashEnd st
        else if bEnd st =? -1 then Z.of_nat (String.length p)
        else bEnd st in
      JS.slice p (bStart st) end_
  else
    let '(start, end_, _) := basenameScan p (String.length p) (0, -1, true) in
    if end_ =? -1 then "" else JS.slice p start end_.

(** [path.join(dir, name)] for a directory without trailing separator and
    a plain file name. *)
Definition join (dir name : string) : string := dir +:+ "/" +:+ name.

End Path.

(** ** The FileRecord schema *)

Inductive FileType := PDF | DOCX | XLSX | Image | Other.

#[export] Instance FileType_eq_dec : EqDecision FileType.
Proof. solve_decision. Defined.

Definition FILE_TYPE_CHOICES : list string :=
  ["PDF"; "DOCX"; "XLSX"; "Image"; "Other"].

Definition fileTypeName (t : FileType) : string :=
  match t with
  | PDF => "PDF"
  | DOCX => "DOCX"
  | XLSX => "XLSX"
  | Image => "Image"
  | Other => "Other"
  end.

Record FileRecord := mkFileRecord {
  _id : nat;
  description : string;
  fileName : string;
  originalName : string;
  filePath : string;
  fileType : FileType;
  fileSize : Z;
  mimeType : string;
  fileDate : option Z;
  letterReferenceNumber : option string;
  uploadedBy : string;
  uploadDateTime : Z
}.

#[export] Instance FileRecord_eq_dec : EqDecision FileRecord.
Proof. solve_decision. Defined.

(** A document in memory: the field values, whether it has been stored yet,
    and the paths whose assigned value could not be cast to the schema type.
    The [timestamps] option of the schema ([createdAt], [updatedAt]) is not
    part of the model. *)
Record Document := mkDocument {
  fields : FileRecord;
  isNew : bool;
  castErrors : list string
}.

Module Schema.

Definition onFields (f : FileRecord -> FileRecord) (d : Document) : Document :=
  mkDocument (f (fields d)) (isNew d) (castErrors d).

(** Assignments to schema paths; string paths declared with [trim: true]
    trim what they are given. *)
Definition setDescription (v : string) : Document -> Document :=
  onFields (fun r =>
    mkFileRecord (_id r) (JS.trim v) (fileName r) (originalName r) (filePath r)
      (fileType r) (fileSize r) (mimeType r) (fileDate r)
      (letterReferenceNumber r) (uploadedBy r) (uploadDateTime r)).

Definition setFileName (v : string) : Document -> Document :=
  onFields (fun r =>
    mkFileRecord (_id r) (description r) (JS.trim v) (originalName r) (filePath r)
      (fileType r) (fileSize r) (mimeType r) (fileDate r)
      (letterReferenceNumber r) (uploadedBy r) (uploadDateTime r)).

Definition setOriginalName (v : string) : Document -> Document :=
  onFields (fun r =>
    mkFileRecord (_id r) (description r) (fileName r) (JS.trim v) (filePath r)
      (fileType r) (fileSize r) (mimeType r) (fileDate r)
      (letterReferenceNumber r) (uploadedBy r) (uploadDateTime r)).

Definition setFilePath (v : string) : Document -> Document :=
  onFields (fun r =>
    mkFileRecord (_id r) (description r) (fileName r) (originalName r) v
      (fileType r) (fileSize r) (mimeType r) (fileDate r)
      (letterReferenceNumber r) (uploadedBy r) (uploadDateTime r)).

Definition setFileType (v : FileType) (r : FileRecord) : FileRecord :=
  mkFileRecord (_id r) (description r) (fileName r) (originalName r) (filePath r)
    v (fileSize r) (mimeType r) (fileDate r)
    (letterReferenceNumber r) (uploadedBy r) (uploadDateTime r).

Definition setFileSize (v : Z) : Document -> Document :=
  onFields (fun r =>
    mkFileRecord (_id r) (description r) (fileName r) (originalName r) (filePath r)
      (fileType r) v (mimeType r) (fileDate r)
      (letterReferenceNumber r) (uploadedBy r) (uploadDateTime r)).

Definition setMimeType (v : string) : Document -> Document :=
  onFields (fun r =>
    mkFileRecord (_id r) (description r) (fileName r) (originalName r) (filePath r)
      (fileType r) (fileSize r) (JS.trim v) (fileDate r)
      (letterReferenceNumber r) (uploadedBy r) (uploadDateTime r)).

(** A [Date] path: [null] is stored as is, a string is cast with
    [new Date]; an invalid date leaves the field alone and records a cast
    error that makes validation fail. *)
Definition setFileDate (v : option string) (d : Document) : Document :=
  let put x r :=
    mkFileRecord (_id r) (description r) (fileName r) (originalName r) (filePath r)
      (fileType r) (fileSize r) (mimeType r) x
      (letterReferenceNumber r) (uploadedBy r) (uploadDateTime r) in
  match v with
  | None => onFields (put None) d
  | Some s =>
      match JSDate.parse s with
      | Some t => onFields (put (Some t)) d
      | None => mkDocument (fields d) (isNew d) ("fileDate" :: castErrors d)
      end
  end.

Definition setLetterReferenceNumber (v : option string) : Document -> Document :=
  onFields (fun r =>
    mkFileRecord (_id r) (description r) (fileName r) (originalName r) (filePath r)
      (fileType r) (fileSize r) (mimeType r) (fileDate r)
      (JS.trim <$> v) (uploadedBy r) (uploadDateTime r)).

(** The validators declared in the schema: [required] on four string
    paths, [maxlength] on two, and the recorded cast errors. *)
Definition validate (d : Document) : bool :=
  let r := fields d in
  match castErrors d with
  | [] =>
      JS.truthyStr (description r)
      && (String.length (description r) <=? 2000)%nat
      && JS.truthyStr (fileName r)
      && JS.truthyStr (originalName r)
      && JS.truthyStr (filePath r)
      && match letterReferenceNumber r with
         | Some s => (String.length s <=? 255)%nat
         | None => true
         end
  | _ :: _ => false
  end.

(** The [switch] of the pre-save middleware. *)
Definition fileTypeForExt (ext : string) : FileType :=
  if String.eqb ext ".pdf" then PDF
  else if String.eqb ext ".docx" || String.eqb ext ".doc" then DOCX
  else if String.eqb ext ".xlsx" || String.eqb ext ".xls" then XLSX
  else if String.eqb ext ".jpg" || String.eqb ext ".jpeg"
          || String.eqb ext ".png" || String.eqb ext ".gif"
          || String.eqb ext ".bmp" || String.eqb ext ".webp" then Image
  else Other.

(** [FileRecordSchema.pre('save', ...)]. *)
Definition preSave (r : FileRecord) : FileRecord :=
  if JS.truthyStr (fileName r) then
    let ext := JS.toLowerCase (Path.extname (fileName r)) in
    setFileType (fileTypeForExt ext) r
  else r.

Definition getFileTypeChoices : list string := FILE_TYPE_CHOICES.

End Schema.

(** ** The world the handlers run in *)

Inductive Event :=
  | FileCreated (record : FileRecord)
  | FileUpdated (record : FileRecord)
  | FileDeleted (recordId : nat).

(** [disk] is the set of paths that exist; [locked] the paths whose removal
    the operating system refuses (permissions, a directory, a busy file).
    [faultAfter = Some n] lets the next [n] store operations succeed and
    fails every later one; [None] is a store that never fails. *)
Record World := mkWorld {
  disk : gset string;
  locked : gset string;
  collection : list FileRecord;
  nextId : nat;
  now : Z;
  faultAfter : option nat;
  io : bool;
  emitted : list Event
}.

Definition withDisk (d : gset string) (w : World) : World :=
  mkWorld d (locked w) (collection w) (nextId w) (now w) (faultAfter w) (io w) (emitted w).

Definition withCollection (c : list FileRecord) (w : World) : World :=
  mkWorld (disk w) (locked w) c (nextId w) (now w) (faultAfter w) (io w) (emitted w).

Definition withNextId (n : nat) (w : World) : World :=
  mkWorld (disk w) (locked w) (collection w) n (now w) (faultAfter w) (io w) (emitted w).

Definition withFaultAfter (f : option nat) (w : World) : World :=
  mkWorld (disk w) (locked w) (collection w) (nextId w) (now w) f (io w) (emitted w).

Definition withEmitted (e : list Event) (w : World) : World :=
  mkWorld (disk w) (locked w) (collection w) (nextId w) (now w) (faultAfter w) (io w) e.

(** Two worlds with the same files, the same protected paths, the same
    documents and the same socket. *)
Definition sameState (w w' : World) : Prop :=
  disk w' = disk w /\ locked w' = locked w
  /\ collection w' = collection w /\ io w' = io w.

Inductive Error :=
  | ENOENT (p : string)
  | EPERM (p : string)
  | ValidationError
  | CastError
  | DocumentNotFoundError
  | MongoError
  | SortFieldError.

Inductive Outcome (A : Type) :=
  | Ok (a : A)
  | Throw (e : Error).
Arguments Ok {A} a.
Arguments Throw {A} e.

(** Computations that read and change the world and may throw. *)
Definition M (A : Type) : Type := World -> Outcome A * World.

#[export] Instance M_ret : MRet M := fun A a w => (Ok a, w).

#[export] Instance M_bind : MBind M := fun A B f m w =>
  match m w with
  | (Ok a, w') => f a w'
  | (Throw e, w') => (Throw e, w')
  end.

Definition throw {A} (e : Error) : M A := fun w => (Throw e, w).

(** [try { body } catch (error) { handler }]. *)
Definition tryCatch {A} (body : M A) (handler : Error -> M A) : M A := fun w =>
  match body w with
  | (Ok a, w') => (Ok a, w')
  | (Throw e, w') => handler e w'
  end.

(** [if (io) io.emit(...)]. *)
Definition emit (e : Event) : M unit := fun w =>
  (Ok tt, if io w then withEmitted (emitted w ++ [e]) w else w).

(** ** Node's [fs] module *)

Module Fs.

Definition existsSync (p : string) : M bool := fun w =>
  (Ok (bool_decide (p ∈ disk w)), w).

Definition unlinkSync (p : string) : M unit := fun w =>
  if bool_decide (p ∈ disk w) then
    if bool_decide (p ∈ locked w) then (Throw (EPERM p), w)
    else (Ok tt, withDisk (disk w ∖ {[p]}) w)
  else (Throw (ENOENT p), w).

End Fs.

(** ** The platform: time zone, regular expressions, configuration *)

(** [tzOffset] is the offset of the server's local time from UTC in minutes;
    [regexCompile pattern] is the case-insensitive matcher of the store for
    a pattern, or [None] when the pattern is not a regular expression;
    [uploadsDir] is the uploads directory and [MAX_FILE_SIZE] the
    environment variable of that name. *)
Class Platform := {
  tzOffset : Z;
  regexCompile : string -> option (string -> bool);
  uploadsDir : string;
  MAX_FILE_SIZE : option string
}.

(** ** The document store *)

Inductive Bson :=
  | BNull
  | BNum (z : Z)
  | BStr (s : string)
  | BOid (n : nat)
  | BDate (z : Z).

Record DateRange := mkRange {
  gte : option JSDate.t;
  lte : option JSDate.t
}.

(** A filter as the controller builds it: [description: {$regex, $options: 'i'}],
    [fileType], and [uploadDateTime: {$gte, $lte}]. *)
Record Query := mkQuery {
  q_description : option string;
  q_fileType : option string;
  q_uploadDateTime : option DateRange
}.

Module Store.

Definition bsonRank (v : Bson) : Z :=
  match v with
  | BNull => 0
  | BNum _ => 1
  | BStr _ => 2
  | BOid _ => 3
  | BDate _ => 4
  end.

(** The comparison order of values: by type first, then by value. *)
Definition bsonLeb (a b : Bson) : bool :=
  match a, b with
  | BNum x, BNum y => x <=? y
  | BStr x, BStr y => String.leb x y
  | BOid x, BOid y => (x <=? y)%nat
  | BDate x, BDate y => x <=? y
  | _, _ => bsonRank a <=? bsonRank b
  end.

(** The value of a document at a path of the schema; any other path
    compares as [null].  The time stamps [createdAt] and [updatedAt] that
    the schema adds are not part of [FileRecord], and nothing is stated
    of a sort by them. *)
Definition fieldValue (path : string) (r : FileRecord) : Bson :=
  if String.eqb path "_id" then BOid (_id r)
  else if String.eqb path "description" then BStr (description r)
  else if String.eqb path "fileName" then BStr (fileName r)
  else if String.eqb path "originalName" then BStr (originalName r)
  else if String.eqb path "filePath" then BStr (filePath r)
  else if String.eqb path "fileType" then BStr (fileTypeName (fileType r))
  else if String.eqb path "fileSize" then BNum (fileSize r)
  else if String.eqb path "mimeType" then BStr (mimeType r)
  else if String.eqb path "fileDate"
    then match fileDate r with Some t => BDate t | None => BNull end
  else if String.eqb path "letterReferenceNumber"
    then match letterReferenceNumber r with Some s => BStr s | None => BNull end
  else if String.eqb path "uploadedBy" then BStr (uploadedBy r)
  else if String.eqb path "uploadDateTime" then BDate (uploadDateTime r)
  else BNull.

Fixpoint insertBy {A} (le : A -> A -> bool) (x : A) (l : list A) : list A :=
  match l with
  | [] => [x]
  | y :: l' => if le x y then x :: l else y :: insertBy le x l'
  end.

(** [.sort({path: direction})].  Documents with equal keys are left in
    collection order; the store promises no order among them, and what is
    stated of an order either holds of every sorted arrangement or is
    stated for keys that are pairwise different. *)
Definition sortDocs (sortOptions : string * Z) (l : list FileRecord)
  : list FileRecord :=
  let '(path, direction) := sortOptions in
  let le a b :=
    if direction =? 1
    then bsonLeb (fieldValue path a) (fieldValue path b)
    else bsonLeb (fieldValue path b) (fieldValue path a) in
  foldr (insertBy le) [] l.

Definition boundOk (b : option JSDate.t) : bool :=
  match b with
  | Some None => false
  | _ => true
  end.

(** Whether the filter can be sent at all: every date is valid. *)
Definition castable (q : Query) : bool :=
  match q_uploadDateTime q with
  | Some r => boundOk (gte r) && boundOk (lte r)
  | None => true
  end.

Definition inRange (r : DateRange) (t : Z) : bool :=
  match gte r with Some (Some lo) => lo <=? t | _ => true end
  && match lte r with Some (Some hi) => t <=? hi | _ => true end.

(** Whether a document satisfies the filter, the pattern of the filter
    being compiled to [test]. *)
Definition matches (test : string -> bool) (q : Query) (r : FileRecord) : bool :=
  match q_description q with Some _ => test (description r) | None => true end
  && match q_fileType q with
     | Some t => String.eqb (fileTypeName (fileType r)) t
     | None => true
     end
  && match q_uploadDateTime q with
     | Some rg => inRange rg (uploadDateTime r)
     | None => true
     end.

(** One round trip to the store under the fault model of [World]. *)
Definition dbOp {A} (f : M A) : M A := fun w =>
  match faultAfter w with
  | Some O => (Throw MongoError, w)
  | Some (S n) => f (withFaultAfter (Some n) w)
  | None => f w
  end.

(** The matcher of the filter's pattern; a filter without a pattern lets
    every description through. *)
Definition compile {P : Platform} (q : Query) : option (string -> bool) :=
  match q_description q with
  | Some pattern => regexCompile pattern
  | None => Some (fun _ => true)
  end.

(** The documents selected by a filter, in collection order. *)
Definition select {P : Platform} (q : Query) : M (list FileRecord) := fun w =>
  if negb (castable q) then (Throw CastError, w)
  else
    match compile q with
    | Some test => (Ok (filter (fun r => matches test q r = true) (collection w)), w)
    | None => (Throw MongoError, w)
    end.

(** [FileRecord.find(q).sort(s)], with [.skip(n).limit(k)] when a window
    is given.  An empty sort field is refused before anything is sent;
    the store refuses a negative skip; a negative limit is read as its
    absolute value and a limit of zero as no limit. *)
Definition find {P : Platform} (q : Query) (sortOptions : string * Z)
    (window : option (Z * Z)) : M (list FileRecord) :=
  if String.eqb sortOptions.1 "" then throw SortFieldError
  else
    dbOp (
      docs ← select q;
      let sorted := sortDocs sortOptions docs in
      match window with
      | None => mret sorted
      | Some (skip, limit) =>
          if skip <? 0 then throw MongoError
          else
            let rest := drop (Z.to_nat skip) sorted in
            mret (if limit =? 0 then rest else take (Z.to_nat (Z.abs limit)) rest)
      end).

Definition countDocuments {P : Platform} (q : Query) : M Z :=
  dbOp (docs ← select q; mret (Z.of_nat (length docs))).

Definition lookup (id : nat) (c : list FileRecord) : option FileRecord :=
  List.find (fun r => (_id r =? id)%nat) c.

(** [FileRecord.findById(id)] for an identifier that is an ObjectId.  A
    route parameter that is no ObjectId makes the lookup throw and the
    handlers answer 500; such a parameter is not a value of [id], and what
    is stated of identifiers that the collection does not hold allows for
    that answer. *)
Definition findById (id : nat) : M (option Document) :=
  dbOp (fun w => (Ok ((fun r => mkDocument r false []) <$> lookup id (collection w)), w)).

Definition findByIdAndDelete (id : nat) : M unit :=
  dbOp (fun w =>
    (Ok tt, withCollection (filter (fun r => _id r ≠ id) (collection w)) w)).

(** [new FileRecord({...})]: a fresh identifier, the schema defaults
    ([fileType: 'Other'], [uploadDateTime: Date.now]) and the setters of
    the paths that are given. *)
Definition create (description fileName originalName filePath : string)
    (fileSize : Z) (mimeType : string) (fileDate letterReferenceNumber : option string)
    (uploadedBy : string) : M Document := fun w =>
  let blank :=
    mkDocument
      (mkFileRecord (nextId w) "" "" "" "" Other 0 "" None None uploadedBy (now w))
      true [] in
  (Ok (Schema.setLetterReferenceNumber letterReferenceNumber
         (Schema.setFileDate fileDate
            (Schema.setMimeType mimeType
               (Schema.setFileSize fileSize
                  (Schema.setFilePath filePath
                     (Schema.setOriginalName originalName
                        (Schema.setFileName fileName
                           (Schema.setDescription description blank)))))))),
   withNextId (S (nextId w)) w).

(** [doc.save()]: validation, then the pre-save middleware, then the
    write, an insert for a new document and a replacement of the stored
    one otherwise. *)
Definition save (d : Document) : M Document :=
  if negb (Schema.validate d) then throw ValidationError
  else
    let r := Schema.preSave (fields d) in
    dbOp (fun w =>
      if isNew d
      then (Ok (mkDocument r false []), withCollection (collection w ++ [r]) w)
      else
        match lookup (_id r) (collection w) with
        | Some _ =>
            (Ok (mkDocument r false []),
             withCollection
               (map (fun x => if (_id x =? _id r)%nat then r else x) (collection w)) w)
        | None => (Throw DocumentNotFoundError, w)
        end).

End Store.

(** ** Requests and responses *)

Module Req.

(** [req.file] as the upload middleware leaves it. *)
Record File := mkFile {
  filename : string;
  originalname : string;
  path : string;
  size : Z;
  mimetype : string
}.

(** [req.body] of the multipart form. *)
Record Body := mkBody {
  description : option string;
  fileDate : option string;
  letterReferenceNumber : option string
}.

(** [req.query] of the list and export routes. *)
Record Query := mkQuery {
  search : option string;
  fileType : option string;
  startDate : option string;
  endDate : option string;
  sortBy : option string;
  sortOrder : option string;
  page : option string;
  limit : option string
}.

Record t := mkReq {
  id : nat;
  body : Body;
  file : option File;
  user : string;
  query : Query
}.

End Req.

Record Pagination := mkPagination {
  currentPage : Z;
  totalPages : Z;
  totalRecords : Z;
  recordsPerPage : Z;
  hasNextPage : bool;
  hasPrevPage : bool
}.

(** A row of the worksheet. *)
Record Row := mkRow {
  row_id : nat;
  row_description : string;
  row_fileDate : string;
  row_letterRef : string;
  row_fileName : string;
  row_fileType : string;
  row_uploadDateTime : string
}.

(** An entry of the archive: a buffer under a name, or a file of the disk
    under a name. *)
Inductive ZipEntry :=
  | Appended (name : string) (rows : list Row)
  | FromDisk (name : string) (source : string).

Definition entryName (e : ZipEntry) : string :=
  match e with
  | Appended name _ => name
  | FromDisk name _ => name
  end.

Inductive Data :=
  | NoData
  | OneRecord (record : FileRecord)
  | Listing (records : list FileRecord) (pagination : Pagination) (fileTypes : list string).

(** What the handler sends: a JSON body with its status, or the zip
    stream.  The [error] detail added in development builds is left out. *)
Inductive Response :=
  | Json (status : Z) (success : bool) (message : option string) (data : Data)
  | Zip (entries : list ZipEntry).

Definition statusOf (r : Response) : Z :=
  match r with
  | Json status _ _ _ => status
  | Zip _ => 200
  end.

(** ** The file controller *)

Module Controller.

Definition unlinkUploaded (f : option Req.File) : M unit :=
  match f with
  | Some file => Fs.unlinkSync (Req.path file)
  | None => mret tt
  end.

(** The first guard of [createFileRecord]:
    [!description || !description.trim()]. *)
Definition isBlank (description : option string) : bool :=
  negb (JS.truthy description)
  || negb (JS.truthyStr (JS.trim (default "" description))).

(** [if (req.file && fs.existsSync(req.file.path)) fs.unlinkSync(req.file.path)]. *)
Definition cleanUp (f : option Req.File) : M unit :=
  match f with
  | Some file =>
      Fs.existsSync (Req.path file) ≫= fun present : bool =>
      if present then Fs.unlinkSync (Req.path file) else mret tt
  | None => mret tt
  end.

(** [if (p && fs.existsSync(p)) fs.unlinkSync(p)]. *)
Definition unlinkIfExists (p : string) : M unit :=
  if JS.truthyStr p then
    Fs.existsSync p ≫= fun present : bool =>
    if present then Fs.unlinkSync p else mret tt
  else mret tt.

(** The filter that [getFileRecords] builds from [req.query]. *)
Definition listQuery {P : Platform} (q : Req.Query) : Query :=
  let search := Req.search q in
  let fileType := Req.fileType q in
  let startDate := Req.startDate q in
  let endDate := Req.endDate q in
  (* Build query *)
  let query := mkQuery None None None in
  let query :=
    if JS.truthy search
    then mkQuery search (q_fileType query) (q_uploadDateTime query)
    else query in
  let query :=
    if JS.truthy fileType && negb (String.eqb (default "" fileType) "All")
    then mkQuery (q_description query) fileType (q_uploadDateTime query)
    else query in
  let query :=
    if JS.truthy startDate || JS.truthy endDate then
      let range := mkRange None None in
      let range :=
        if JS.truthy startDate
        then mkRange (Some (JSDate.parse (default "" startDate))) (lte range)
        else range in
      let range :=
        if JS.truthy endDate then
          let end_ := JSDate.parse (default "" endDate) in
          let end_ := JSDate.setHours tzOffset 23 59 59 999 end_ in
          mkRange (gte range) (Some end_)
        else range in
      mkQuery (q_description query) (q_fileType query) (Some range)
    else query in
  query.

(** The sort object that [getFileRecords] builds from [req.query]. *)
Definition listSortOptions (q : Req.Query) : string * Z :=
  let sortBy := default "uploadDateTime" (Req.sortBy q) in
  let sortOrder := default "desc" (Req.sortOrder q) in
  let validSortFields := ["uploadDateTime"; "description"; "fileType"; "fileDate"] in
  let sortField :=
    if JS.includes validSortFields sortBy then sortBy else "uploadDateTime" in
  (sortField, if String.eqb sortOrder "asc" then 1 else -1).

(** [parseInt(page, 10) || 1] with [page = 1] by default. *)
Definition pageNum (q : Req.Query) : Z :=
  JS.orNum (match Req.page q with Some s => JS.parseInt s | None => Some 1 end) 1.

(** [parseInt(limit, 10) || 10] with [limit = 10] by default. *)
Definition limitNum (q : Req.Query) : Z :=
  JS.orNum (match Req.limit q with Some s => JS.parseInt s | None => Some 10 end) 10.

(** [populate('uploadedBy', ...)] only replaces the uploader's identifier
    by the user document in the answer; it has no part in the filter, the
    order or the counts, and the model answers with the stored records. *)
Definition getFileRecords {P : Platform} (req : Req.t) : M Response :=
  tryCatch
    (let query := listQuery (Req.query req) in
     let sortOptions := listSortOptions (Req.query req) in
     (* Pagination *)
     let pageNum := pageNum (Req.query req) in
     let limitNum := limitNum (Req.query req) in
     let skip := (pageNum - 1) * limitNum in
     (* Execute query *)
     records ← Store.find query sortOptions (Some (skip, limitNum));
     totalCount ← Store.countDocuments query;
     (* Calculate pagination info *)
     let totalPages := JS.ceilDiv totalCount limitNum in
     mret (Json 200 true None
             (Listing records
                (mkPagination pageNum totalPages totalCount limitNum
                   (pageNum <? totalPages) (1 <? pageNum))
                Schema.getFileTypeChoices)))
    (fun error =>
       mret (Json 500 false (Some "Error fetching file records") NoData)).

Definition createFileRecord (req : Req.t) : M Response :=
  tryCatch
    (let description := Req.description (Req.body req) in
     let fileDate := Req.fileDate (Req.body req) in
     let letterReferenceNumber := Req.letterReferenceNumber (Req.body req) in
     (* Validate required fields *)
     if isBlank description
     then
       unlinkUploaded (Req.file req);;
       mret (Json 400 false (Some "Description is required") NoData)
     else
       match Req.file req with
       | None => mret (Json 400 false (Some "Please upload a file") NoData)
       | Some file =>
           (* Create file record *)
           fileRecord ← Store.create
             (JS.trim (default "" description))
             (Req.filename file) (Req.originalname file) (Req.path file)
             (Req.size file) (Req.mimetype file)
             (JS.orNull fileDate) (JS.orNull letterReferenceNumber)
             (Req.user req);
           fileRecord ← Store.save fileRecord;
           emit (FileCreated (fields fileRecord));;
           mret (Json 201 true (Some "File uploaded successfully")
                   (OneRecord (fields fileRecord)))
       end)
    (fun error =>
       (* Clean up uploaded file on error *)
       cleanUp (Req.file req);;
       mret (Json 500 false (Some "Error uploading file") NoData)).

Definition updateFileRecord (req : Req.t) : M Response :=
  tryCatch
    (let description := Req.description (Req.body req) in
     let fileDate := Req.fileDate (Req.body req) in
     let letterReferenceNumber := Req.letterReferenceNumber (Req.body req) in
     found ← Store.findById (Req.id req);
     match found with
     | None =>
         (* Remove uploaded file if record not found *)
         unlinkUploaded (Req.file req);;
         mret (Json 404 false (Some "File record not found") NoData)
     | Some record =>
         (* Update fields *)
         let record :=
           if JS.truthy description
           then Schema.setDescription (JS.trim (default "" description)) record
           else record in
         let record :=
           match fileDate with
           | Some _ => Schema.setFileDate (JS.orNull fileDate) record
           | None => record
           end in
         let record :=
           match letterReferenceNumber with
           | Some _ => Schema.setLetterReferenceNumber (JS.orNull letterReferenceNumber) record
           | None => record
           end in
         (* If new file is uploaded, replace old file *)
         record ←
           match Req.file req with
           | Some file =>
               (* Delete old file *)
               unlinkIfExists (filePath (fields record));;
               (* Update file info *)
               mret (Schema.setMimeType (Req.mimetype file)
                      (Schema.setFileSize (Req.size file)
                        (Schema.setFilePath (Req.path file)
                          (Schema.setOriginalName (Req.originalname file)
                            (Schema.setFileName (Req.filename file) record)))))
           | None => mret record
           end;
         record ← Store.save record;
         emit (FileUpdated (fields record));;
         mret (Json 200 true (Some "File record updated successfully")
                 (OneRecord (fields record)))
     end)
    (fun error =>
       (* Clean up uploaded file on error *)
       cleanUp (Req.file req);;
       mret (Json 500 false (Some "Error updating file record") NoData)).

Definition deleteFileRecord (req : Req.t) : M Response :=
  tryCatch
    (found ← Store.findById (Req.id req);
     match found with
     | None => mret (Json 404 false (Some "File record not found") NoData)
     | Some record =>
         (* Delete physical file *)
         unlinkIfExists (filePath (fields record));;
         (* Store record id before deletion *)
         let deletedId := Req.id req in
         (* Delete record from database *)
         Store.findByIdAndDelete (Req.id req);;
         emit (FileDeleted deletedId);;
         mret (Json 200 true (Some "File record deleted successfully") NoData)
     end)
    (fun error =>
       mret (Json 500 false (Some "Error deleting file record") NoData)).

(** The argument of [worksheet.addRow] for the record at [index]. *)
Definition addRow (index : nat) (record : FileRecord) : Row :=
  mkRow (index + 1)
    (description record)
    (match fileDate record with
     | Some d => JS.beforeChar "T" (JSDate.toISOString d)
     | None => "—"
     end)
    (match letterReferenceNumber record with
     | Some s => if JS.truthyStr s then s else "—"
     | None => "—"
     end)
    (originalName record)
    (fileTypeName (fileType record))
    (String.substring 0 19
       (JS.replaceFirst "T" " " (JSDate.toISOString (uploadDateTime record)))).

(** The name of the archive entry of the record at index [i]. *)
Definition uniqueFilename (i : nat) (record : FileRecord) : string :=
  let ext := Path.extname (originalName record) in
  let nameWithoutExt := Path.basename (originalName record) ext in
  JS.padStart (JS.String_ (i + 1)) 3 "0" +:+ "_" +:+ nameWithoutExt +:+ ext.

(** The loop that adds the files to the archive, from index [i] on. *)
Fixpoint addFiles (i : nat) (records : list FileRecord) : M (list ZipEntry) :=
  match records with
  | [] => mret []
  | record :: rest =>
      (if JS.truthyStr (filePath record)
       then Fs.existsSync (filePath record)
       else mret false) ≫= fun present : bool =>
      others ← addFiles (S i) rest;
      if present
      then mret (FromDisk ("files/" +:+ uniqueFilename i record) (filePath record)
                 :: others)
      else mret others
  end.

(** The filter that [exportToExcel] builds from [req.query]. *)
Definition exportQuery {P : Platform} (q : Req.Query) : Query :=
  let search := Req.search q in
  let fileType := Req.fileType q in
  let startDate := Req.startDate q in
  let endDate := Req.endDate q in
  (* Build query (same as getFileRecords) *)
  let query := mkQuery None None None in
  let query :=
    if JS.truthy search
    then mkQuery search (q_fileType query) (q_uploadDateTime query)
    else query in
  let query :=
    if JS.truthy fileType && negb (String.eqb (default "" fileType) "All")
    then mkQuery (q_description query) fileType (q_uploadDateTime query)
    else query in
  let query :=
    if JS.truthy startDate || JS.truthy endDate then
      let range := mkRange None None in
      let range :=
        if JS.truthy startDate
        then mkRange (Some (JSDate.parse (default "" startDate))) (lte range)
        else range in
      let range :=
        if JS.truthy endDate then
          let end_ := JSDate.parse (default "" endDate) in
          let end_ := JSDate.setHours tzOffset 23 59 59 999 end_ in
          mkRange (gte range) (Some end_)
        else range in
      mkQuery (q_description query) (q_fileType query) (Some range)
    else query in
  query.

(** The sort object that [exportToExcel] builds from [req.query]. *)
Definition exportSortOptions (q : Req.Query) : string * Z :=
  let sortBy := default "uploadDateTime" (Req.sortBy q) in
  let sortOrder := default "desc" (Req.sortOrder q) in
  (sortBy, if String.eqb sortOrder "asc" then 1 else -1).

Definition exportToExcel {P : Platform} (req : Req.t) : M Response :=
  tryCatch
    (let query := exportQuery (Req.query req) in
     let sortOptions := exportSortOptions (Req.query req) in
     (* Get all matching records (no pagination for export) *)
     records ← Store.find query sortOptions None;
     (* Add data rows *)
     let worksheet := imap addRow records in
     (* Add Excel file to archive, then the actual files *)
     files ← addFiles 0 records;
     mret (Zip (Appended "records.xlsx" worksheet :: files)))
    (fun error =>
       mret (Json 500 false (Some "Error exporting records") NoData)).

End Controller.

(** ** The upload middleware *)

Module Upload.

(** The part of a multipart request in the field [file] as it arrives:
    the fields multer reads, the random suffix drawn for it, and whether
    writing it to the uploads directory fails. *)
Record Part := mkPart {
  originalname : string;
  mimetype : string;
  size : Z;
  uuid : string;
  writeFails : bool
}.

Inductive UploadError :=
  | MulterError (code message : string)
  | PlainError (message : string).

(** [storage.filename]. *)
Definition filename (now : Z) (part : Part) : string :=
  let uniqueSuffix := uuid part in
  let ext := Path.extname (originalname part) in
  let baseName :=
    String.substring 0 50 (JS.sanitize (Path.basename (originalname part) ext)) in
  JS.StringZ now +:+ "_" +:+ baseName +:+ "_" +:+ uniqueSuffix +:+ ext.

Definition allowedMimeTypes : list string :=
  [ "application/pdf";
    "application/msword";
    "application/vnd.openxmlformats-officedocument.wordprocessingml.document";
    "application/vnd.ms-excel";
    "application/vnd.openxmlformats-officedocument.spreadsheetml.sheet";
    "application/vnd.ms-powerpoint";
    "application/vnd.openxmlformats-officedocument.presentationml.presentation";
    "text/plain";
    "text/csv";
    "image/jpeg";
    "image/png";
    "image/gif";
    "image/bmp";
    "image/webp";
    "image/svg+xml";
    "application/zip";
    "application/x-rar-compressed";
    "application/x-7z-compressed";
    "application/json";
    "application/xml";
    "text/xml" ].

Definition fileFilter (part : Part) : option UploadError :=
  if JS.includes allowedMimeTypes (mimetype part) then None
  else Some (PlainError ("File type '" +:+ mimetype part +:+ "' is not allowed")).

(** [parseInt(process.env.MAX_FILE_SIZE) || 10 * 1024 * 1024]. *)
Definition fileSizeLimit {P : Platform} : Z :=
  JS.orNum (MAX_FILE_SIZE ≫= JS.parseIntNoRadix) (10 * 1024 * 1024).

(** [upload.single('file')]: without a file part, or with a part that
    names no file, [req.file] stays undefined; a part that the filter
    refuses, that reaches the size limit or that cannot be written leaves
    nothing on disk and passes an error on. *)
Definition single {P : Platform} (part : option Part) (w : World)
  : (UploadError + option Req.File) * World :=
  match part with
  | None => (inr None, w)
  | Some f =>
      if negb (JS.truthyStr (originalname f)) then (inr None, w)
      else
        match fileFilter f with
        | Some err => (inl err, w)
        | None =>
            if fileSizeLimit <=? size f
            then (inl (MulterError "LIMIT_FILE_SIZE" "File too large"), w)
            else if writeFails f
            then (inl (PlainError "write failed"), w)
            else
              let name := filename (now w) f in
              let dest := Path.join uploadsDir name in
              (inr (Some (Req.mkFile name (originalname f) dest (size f) (mimetype f))),
               withDisk (disk w ∪ {[dest]}) w)
        end
  end.


Definition handleMulterError (err : UploadError) : Response :=
  match err with
  | MulterError code message =>
      if String.eqb code "LIMIT_FILE_SIZE"
      then Json 400 false (Some "File size exceeds the maximum limit of 10MB") NoData
      else Json 400 false (Some ("Upload error: " +:+ message)) NoData
  | PlainError message =>
      Json 400 false
        (Some (if JS.truthyStr message then message else "Error uploading file")) NoData
  end.

End Upload.

(** ** The routes *)

Module Routes.

Definition noQuery : Req.Query :=
  Req.mkQuery None None None None None None None None.

(** [router.route('/').post(upload.single('file'), handleMulterError, createFileRecord)]. *)
Definition postFiles {P : Platform} (user : string) (body : Req.Body)
    (part : option Upload.Part) : M Response := fun w =>
  match Upload.single part w with
  | (inl err, w') => (Ok (Upload.handleMulterError err), w')
  | (inr file, w') =>
      Controller.createFileRecord (Req.mkReq 0 body file user noQuery) w'
  end.

(** [router.route('/:id').put(upload.single('file'), handleMulterError, updateFileRecord)]. *)
Definition putFile {P : Platform} (id : nat) (user : string) (body : Req.Body)
    (part : option Upload.Part) : M Response := fun w =>
  match Upload.single part w with
  | (inl err, w') => (Ok (Upload.handleMulterError err), w')
  | (inr file, w') =>
      Controller.updateFileRecord (Req.mkReq id body file user noQuery) w'
  end.

End Routes.

(** ** Concrete platforms and worlds for running the model *)

Module Sample.

(** Case-insensitive containment, which is what a pattern without
    metacharacters asks for. *)
Fixpoint contains (needle hay : string) : bool :=
  String.prefix needle hay
  || match hay with
     | EmptyString => false
     | String _ rest => contains needle rest
     end.

Definition literalRegex (pattern : string) : option (string -> bool) :=
  Some (fun s => contains (JS.toLowerCase pattern) (JS.toLowerCase s)).

(** A server whose local time is UTC. *)
Definition utc : Platform :=
  Build_Platform 0 literalRegex "/app/uploads" None.


(** A server whose local time is UTC+05:30. *)
Definition kolkata : Platform :=
  Build_Platform 330 literalRegex "/app/uploads" None.

Definition record1 : FileRecord :=
  mkFileRecord 1 "Annual report" "1700000000000_report_u1.pdf" "report.pdf"
    "/app/uploads/1700000000000_report_u1.pdf" PDF 2048 "application/pdf"
    None (Some "REF-001") "admin" 1705363199999.

Definition record2 : FileRecord :=
  mkFileRecord 2 "Budget" "1700000000001_budget_u2.xlsx" "budget.xlsx"
    "/app/uploads/1700000000001_budget_u2.xlsx" XLSX 1024
    "application/vnd.ms-excel" (Some 1704067200000) None "admin" 1705363200000.

Definition world0 : World :=
  mkWorld {[ filePath record1; filePath record2 ]} ∅ [record1; record2]
    3 1705400000000 None true [].

(** Uploaded at 00:30 on 2024-01-15 by the clock of a server at UTC+05:30,
    which is 19:00 UTC of the day before. *)
Definition record3 : FileRecord :=
  mkFileRecord 3 "Minutes" "1700000000002_minutes_u3.pdf" "minutes.pdf"
    "/app/uploads/1700000000002_minutes_u3.pdf" PDF 512 "application/pdf"
    None None "admin" 1705258800000.

Definition datedWorld : World :=
  mkWorld {[ filePath record1; filePath record2; filePath record3 ]} ∅
    [record1; record2; record3] 4 1705400000000 None true [].

(** The blob of [record1] cannot be removed. *)
Definition lockedWorld : World :=
  mkWorld {[ filePath record1; filePath record2 ]} {[ filePath record1 ]}
    [record1; record2] 3 1705400000000 None true [].

(** The store answers one more request and then fails. *)
Definition failingWorld : World :=
  mkWorld {[ filePath record1; filePath record2 ]} ∅ [record1; record2]
    3 1705400000000 (Some 1%nat) true [].

(** The store is down. *)
Definition downWorld : World :=
  mkWorld {[ filePath record1; filePath record2 ]} ∅ [record1; record2]
    3 1705400000000 (Some 0%nat) true [].

(** The blob of [record2] was removed behind the application's back. *)
Definition brokenWorld : World :=
  mkWorld {[ filePath record1 ]} ∅ [record1; record2]
    3 1705400000000 None true [].

Definition replacement : Upload.Part :=
  Upload.mkPart "report-v2.pdf" "application/pdf" 4096 "3f2a" false.

Definition noBody : Req.Body := Req.mkBody None None None.

Definition request (id : nat) (body : Req.Body) (file : option Req.File)
    (query : Req.Query) : Req.t :=
  Req.mkReq id body file "admin" query.

End Sample.

(** ** The other handlers of the file controller *)

(** One group of the [$group] stage of [getStats]: [_id] is the file type,
    [count] the number of its documents and [totalSize] the sum of their
    sizes. *)
Record StatGroup := mkStat {
  stat_id : string;
  stat_count : Z;
  stat_totalSize : Z
}.

(** What the handlers that do not answer with a record or a listing send:
    a plain answer, [res.download(path, filename)], or the statistics. *)
Inductive Reply :=
  | Answer (r : Response)
  | Download (path filename : string)
  | Statistics (totalRecords totalSize : Z) (byFileType : list StatGroup).

Module Aggregate.

(** The [$group] stage: the document joins the group of its file type, or
    opens a new one. *)
Fixpoint addToGroups (r : FileRecord) (groups : list StatGroup) : list StatGroup :=
  match groups with
  | [] => [mkStat (fileTypeName (fileType r)) 1 (fileSize r)]
  | g :: rest =>
      if String.eqb (stat_id g) (fileTypeName (fileType r))
      then mkStat (stat_id g) (stat_count g + 1) (stat_totalSize g + fileSize r) :: rest
      else g :: addToGroups r rest
  end.

(** Groups come in the order in which their types are first met; the
    store promises no order here, and none is relied on. *)
Definition group (c : list FileRecord) : list StatGroup :=
  fold_left (fun groups r => addToGroups r groups) c [].

(** The [$sort: {count: -1}] stage; the order among equal counts is the
    one the insertion leaves. *)
Definition sortByCount (groups : list StatGroup) : list StatGroup :=
  foldr (Store.insertBy (fun a b => stat_count b <=? stat_count a)) [] groups.

(** [FileRecord.aggregate([{$group: ...}, {$sort: {count: -1}}])]. *)
Definition byFileType : M (list StatGroup) :=
  Store.dbOp (fun w => (Ok (sortByCount (group (collection w))), w)).

End Aggregate.

Module Reads.

(** As in the listing, [populate('uploadedBy', 'userId name')] replaces
    the uploader's identifier by the user document in the answer; the
    model answers with the stored record, and what is stated of this
    answer leaves [uploadedBy] aside. *)
Definition getFileRecord (req : Req.t) : M Response :=
  tryCatch
    (found ← Store.findById (Req.id req);
     match found with
     | None => mret (Json 404 false (Some "File record not found") NoData)
     | Some record => mret (Json 200 true None (OneRecord (fields record)))
     end)
    (fun error =>
       mret (Json 500 false (Some "Error fetching file record") NoData)).

Definition downloadFile (req : Req.t) : M Reply :=
  tryCatch
    (found ← Store.findById (Req.id req);
     match found with
     | None => mret (Answer (Json 404 false (Some "File record not found") NoData))
     | Some record =>
         (if JS.truthyStr (filePath (fields record))
          then Fs.existsSync (filePath (fields record))
          else mret false) ≫= fun present : bool =>
         if negb present
         then mret (Answer (Json 404 false (Some "File not found on server") NoData))
         else
           (* Send file for download *)
           mret (Download (filePath (fields record)) (originalName (fields record)))
     end)
    (fun error =>
       mret (Answer (Json 500 false (Some "Error downloading file") NoData))).

Definition getStats {P : Platform} : M Reply :=
  tryCatch
    (stats ← Aggregate.byFileType;
     totalRecords ← Store.countDocuments (mkQuery None None None);
     let totalSize := fold_left (fun acc s => acc + stat_totalSize s) stats 0 in
     mret (Statistics totalRecords totalSize stats))
    (fun error =>
       mret (Answer (Json 500 false (Some "Error fetching statistics") NoData))).

End Reads.

(** ** Characters of a name, and the scan of its extension *)

(** [s.includes(c)] for a character. *)
Fixpoint hasChar (c : ascii) (s : string) : bool :=
  match s with
  | EmptyString => false
  | String x s' => Ascii.eqb x c || hasChar c s'
  end.

(** What the scan of [path.extname] has established once the characters
    from index [n] on are visited: no separator from [n] up to the end of
    the last component, and the dot it holds is the last one of that
    stretch. *)
Definition scanned (p : string) (n : nat) (st : Path.ExtState) : Prop :=
  (Path.extEnd st = -1 -> Path.startDot st = -1)
  /\ (Path.extEnd st <> -1 ->
      Path.matchedSlash st = false
      /\ Z.of_nat n <= Path.extEnd st
      /\ forall j : nat, (n <= j)%nat -> Z.of_nat j < Path.extEnd st ->
           JS.charAt p j <> "/"%char)
  /\ (Path.startDot st <> -1 ->
      Z.of_nat n <= Path.startDot st < Path.extEnd st
      /\ JS.charAt p (Z.to_nat (Path.startDot st)) = "."%char
      /\ forall j : nat, Path.startDot st < Z.of_nat j < Path.extEnd st ->
           JS.charAt p j <> "."%char)
  /\ (Path.startDot st = -1 ->
      forall j : nat, (n <= j)%nat -> Z.of_nat j < Path.extEnd st ->
        JS.charAt p j <> "."%char).

(** The state of that scan after a stretch of characters that are neither
    dots nor separators, the last of them just below index [top]. *)
Definition afterPlain (top : nat) (st : Path.ExtState) : Path.ExtState :=
  Path.mkExt (Path.startDot st) (Path.startPart st)
    (if Path.extEnd st =? -1 then Z.of_nat top else Path.extEnd st)
    (if Path.extEnd st =? -1 then false else Path.matchedSlash st)
    (if Path.startDot st =? -1 then Path.preDotState st else -1).

(** ** The authentication middleware and the file router *)

Module Auth.

Record User := mkUser {
  user_id : nat;
  userId : string;
  role : string;
  isActive : bool
}.

(** What [jwt.verify(token, secret)] does with a token: it returns the
    payload, whose [id] is read, or throws one of its two named errors, or
    something else. *)
Inductive Verified :=
  | Decoded (id : nat)
  | JsonWebTokenError
  | TokenExpiredError
  | OtherError.

(** What [User.findById] does: a user, [null], or an exception. *)
Inductive Found :=
  | FoundUser (u : User)
  | NoUser
  | LookupThrows.

(** The token library with the configured secret, and the user collection. *)
Class Keys := {
  jwtVerify : string -> Verified;
  findUser : nat -> Found
}.

(** [s.split(sep)[1]]: what stands between the first and the second
    separator, [undefined] when there is no separator. *)
Fixpoint afterChar (sep : ascii) (s : string) : option string :=
  match s with
  | EmptyString => None
  | String c s' => if Ascii.eqb c sep then Some s' else afterChar sep s'
  end.

Definition splitSecond (sep : ascii) (s : string) : option string :=
  JS.beforeChar sep <$> afterChar sep s.

Definition denied (message : string) : Response :=
  Json 401 false (Some message) NoData.

(** The token that [protect] reads from the request. *)
Definition tokenOf (authorization cookieToken : option string) : option string :=
  if JS.truthy authorization && String.prefix "Bearer" (default "" authorization)
  then splitSecond " " (default "" authorization)
  else if JS.truthy cookieToken then cookieToken
  else None.

(** [protect]: the answer it sends, or the user it attaches to the request
    before calling [next()]. *)
Definition protect {K : Keys} (authorization cookieToken : option string)
  : Response + User :=
  let token := tokenOf authorization cookieToken in
  (* Check if token exists *)
  if negb (JS.truthy token)
  then inl (denied "Not authorized to access this route. Please login.")
  else
    match jwtVerify (default "" token) with
    | Decoded id =>
        match findUser id with
        | FoundUser user =>
            if negb (isActive user)
            then inl (denied "Account is deactivated. Please contact administrator.")
            else inr user
        | NoUser => inl (denied "User not found. Token may be invalid.")
        | LookupThrows => inl (denied "Not authorized to access this route")
        end
    | JsonWebTokenError => inl (denied "Invalid token. Please login again.")
    | TokenExpiredError => inl (denied "Token expired. Please login again.")
    | OtherError => inl (denied "Not authorized to access this route")
    end.

End Auth.

Module Router.

(** The requests that the file router serves. *)
Inductive Route :=
  | GetExport (query : Req.Query)
  | GetStats
  | GetFiles (query : Req.Query)
  | PostFiles (body : Req.Body) (part : option Upload.Part)
  | GetFile (id : nat)
  | PutFile (id : nat) (body : Req.Body) (part : option Upload.Part)
  | DeleteFile (id : nat)
  | GetDownload (id : nat).

Definition noBody : Req.Body := Req.mkBody None None None.

(** The router of [fileRoutes.js]: [router.use(protect)] first, then the
    route's own chain.  [req.user.id] is the user's identifier in decimal. *)
Definition fileRoutes {P : Platform} {K : Auth.Keys}
    (authorization cookieToken : option string) (route : Route) : M Reply := fun w =>
  match Auth.protect authorization cookieToken with
  | inl resp => (Ok (Answer resp), w)
  | inr user =>
      let uid := JS.String_ (Auth.user_id user) in
      let plain (m : M Response) : Outcome Reply * World :=
        (m ≫= fun r : Response => mret (Answer r)) w in
      match route with
      | GetExport q =>
          plain (Controller.exportToExcel (Req.mkReq 0 noBody None uid q))
      | GetStats => Reads.getStats w
      | GetFiles q =>
          plain (Controller.getFileRecords (Req.mkReq 0 noBody None uid q))
      | PostFiles body part => plain (Routes.postFiles uid body part)
      | GetFile id =>
          plain (Reads.getFileRecord (Req.mkReq id noBody None uid Routes.noQuery))
      | PutFile id body part => plain (Routes.putFile id uid body part)
      | DeleteFile id =>
          plain (Controller.deleteFileRecord (Req.mkReq id noBody None uid Routes.noQuery))
      | GetDownload id =>
          Reads.downloadFile (Req.mkReq id noBody None uid Routes.noQuery) w
      end
  end.

End Router.

(** A token library that knows one token and a user collection that
    holds one user, for running the router. *)
Module SampleAuth.

Definition admin : Auth.User := Auth.mkUser 1 "admin" "admin" true.

Definition keys : Auth.Keys :=
  Auth.Build_Keys
    (fun token => if String.eqb token "eyJhbGciOi.eyJpZCI6MX0.c2ln"
                  then Auth.Decoded 1 else Auth.JsonWebTokenError)
    (fun id => if (id =? 1)%nat then Auth.FoundUser admin else Auth.NoUser).

End SampleAuth.

(** ** The error middleware *)

Module ErrorMiddleware.

(** The error object as [errorHandler] reads it. *)
Record Err := mkErr {
  err_name : string;
  err_code : option Z;
  err_message : string;
  err_errors : list string;
  err_value : string
}.

(** [messages.join(', ')]. *)
Fixpoint join (sep : string) (l : list string) : string :=
  match l with
  | [] => ""
  | [x] => x
  | x :: rest => x +:+ sep +:+ join sep rest
  end.

(** [notFound]: the status it sets and the error it passes on. *)
Definition notFound (originalUrl : string) : Z * Err :=
  (404, mkErr "Error" None ("Not Found - " +:+ originalUrl) [] "").

(** [errorHandler]: [statusCode] is the status of the response when the
    handler is entered; the result is the status and message it sends. *)
Definition errorHandler (err : Err) (resStatusCode : Z) : Z * string :=
  (* Set status code *)
  let statusCode := if resStatusCode =? 200 then 500 else resStatusCode in
  let message := err_message err in
  (* MongoDB duplicate key error *)
  let '(message, resStatus) :=
    if bool_decide (err_code err = Some 11000)
    then ("Duplicate field value entered", 400)
    else (message, resStatusCode) in
  (* MongoDB validation error *)
  let '(message, resStatus) :=
    if String.eqb (err_name err) "ValidationError"
    then (join ", " (err_errors err), 400)
    else (message, resStatus) in
  (* MongoDB CastError (invalid ObjectId) *)
  let '(message, resStatus) :=
    if String.eqb (err_name err) "CastError"
    then ("Resource not found with id: " +:+ err_value err, 404)
    else (message, resStatus) in
  (* res.status(statusCode).json({...}) *)
  let resStatus := statusCode in
  (resStatus, message).

End ErrorMiddleware.

(** ** Reading answers *)

(** A step preserves a relation between worlds when every run of it, to
    an answer or to an exception, leaves the world related to the one it
    started in. *)
Definition preserves {A} (R : World -> World -> Prop) (m : M A) : Prop :=
  forall w out w', m w = (out, w') -> R w w'.

(** Nothing was emitted. *)
Definition sameEvents (w w' : World) : Prop :=
  emitted w' = emitted w /\ io w' = io w.

(** Nothing changed but the count of store round trips. *)
Definition untouched (w w' : World) : Prop :=
  disk w' = disk w /\ locked w' = locked w /\ collection w' = collection w
  /\ nextId w' = nextId w /\ now w' = now w /\ io w' = io w
  /\ emitted w' = emitted w.

(** A store that never fails stays so. *)
Definition staysUp (w w' : World) : Prop :=
  faultAfter w = None -> faultAfter w' = None.

(** The documents other than [target] are the same, in the same order. *)
Definition others (target : nat) (w w' : World) : Prop :=
  filter (fun r => _id r ≠ target) (collection w')
  = filter (fun r => _id r ≠ target) (collection w).

(** The socket events that an answer calls for: one for a created record,
    one for an updated record, one for a deleted record. *)
Definition createdEvent (resp : Response) : list Event :=
  match resp with
  | Json status _ _ (OneRecord r) => if status =? 201 then [FileCreated r] else []
  | _ => []
  end.

Definition updatedEvent (resp : Response) : list Event :=
  match resp with
  | Json status _ _ (OneRecord r) => if status =? 200 then [FileUpdated r] else []
  | _ => []
  end.

Definition deletedEvent (id : nat) (resp : Response) : list Event :=
  match resp with
  | Json status _ _ _ => if status =? 200 then [FileDeleted id] else []
  | Zip _ => []
  end.

(** A run from [w] announces what its answer calls for when the socket is
    there, and nothing else. *)
Definition announces (owed : Response -> list Event) (m : M Response) (w : World)
  : Prop :=
  io (m w).2 = io w
  /\ emitted (m w).2
     = emitted w ++ match (m w).1 with
                    | Ok resp => if io w then owed resp else []
                    | Throw _ => []
                    end.

(** Whether every element stands in [le] to the one after it. *)
Fixpoint ordered {A} (le : A -> A -> bool) (l : list A) : bool :=
  match l with
  | a :: (b :: _) as rest => le a b && ordered le rest
  | _ => true
  end.

(** The documents of one file type, and the sum of the sizes of a list of
    documents. *)
Definition ofType (t : string) (c : list FileRecord) : list FileRecord :=
  filter (fun r => fileTypeName (fileType r) = t) c.

Definition sizeSum (c : list FileRecord) : Z :=
  foldr (fun r acc => fileSize r + acc) 0 c.

(** A list of groups summarises a collection when it has one group for
    each file type that occurs, and each group counts the documents of its
    type and adds up their sizes. *)
Definition summarises (groups : list StatGroup) (c : list FileRecord) : Prop :=
  NoDup (map stat_id groups)
  /\ (forall g, g ∈ groups ->
        stat_count g = Z.of_nat (length (ofType (stat_id g) c))
        /\ stat_totalSize g = sizeSum (ofType (stat_id g) c)
        /\ 0 < stat_count g)
  /\ (forall r, r ∈ c -> fileTypeName (fileType r) ∈ map stat_id groups).

(** The query with every filter that is sent empty, and a file type sent
    as [All], left out. *)
Definition withoutBlanks (q : Req.Query) : Req.Query :=
  Req.mkQuery (JS.orNull (Req.search q))
    (match Req.fileType q with
     | Some t => if String.eqb t "All" then None else JS.orNull (Some t)
     | None => None
     end)
    (JS.orNull (Req.startDate q)) (JS.orNull (Req.endDate q))
    (Req.sortBy q) (Req.sortOrder q) (Req.page q) (Req.limit q).

(** The same query for another page. *)
Definition withPage (p : option string) (q : Req.Query) : Req.Query :=
  Req.mkQuery (Req.search q) (Req.fileType q) (Req.startDate q) (Req.endDate q)
    (Req.sortBy q) (Req.sortOrder q) p (Req.limit q).

(** Two records that agree on every path but [uploadedBy], the path that
    [populate] replaces by the user document. *)
Definition agreeButUploader (r r' : FileRecord) : Prop :=
  _id r' = _id r /\ description r' = description r
  /\ fileName r' = fileName r /\ originalName r' = originalName r
  /\ filePath r' = filePath r /\ fileType r' = fileType r
  /\ fileSize r' = fileSize r /\ mimeType r' = mimeType r
  /\ fileDate r' = fileDate r
  /\ letterReferenceNumber r' = letterReferenceNumber r
  /\ uploadDateTime r' = uploadDateTime r.

(** The forms on which the embedding is exact: the description and the
    reference number are in the ASCII range, and the file date, when one
    is given, is a calendar date [YYYY-MM-DD], the one form of date string
    that [JSDate.parse] reads. *)
Definition plainBody (body : Req.Body) : Prop :=
  JS.isAsciiOpt (Req.description body) = true
  /\ JS.isAsciiOpt (Req.letterReferenceNumber body) = true
  /\ (forall s, JS.orNull (Req.fileDate body) = Some s -> JSDate.parse s <> None).

(** The file parts whose original name is in the ASCII range. *)
Definition plainPart (part : option Upload.Part) : Prop :=
  match part with
  | Some f => JS.isAscii (Upload.originalname f) = true
  | None => True
  end.

(** The queries on which the embedding is exact.  [plainDates]: the date
    bounds, when given, are calendar dates [YYYY-MM-DD], the one form of
    date string that [JSDate.parse] reads.  [plainPaging]: [page] and
    [limit] are in the ASCII range and their values, and the offset
    computed from them, are safe integers, on which the arithmetic of the
    runtime is the arithmetic of the integers. *)
Definition plainDates (q : Req.Query) : Prop :=
  (forall s, JS.orNull (Req.startDate q) = Some s -> JSDate.parse s <> None)
  /\ (forall s, JS.orNull (Req.endDate q) = Some s -> JSDate.parse s <> None).


(** The comparison that a sort object asks for. *)
Definition sortLeb (sortOptions : string * Z) (a b : FileRecord) : bool :=
  if sortOptions.2 =? 1
  then Store.bsonLeb (Store.fieldValue sortOptions.1 a) (Store.fieldValue sortOptions.1 b)
  else Store.bsonLeb (Store.fieldValue sortOptions.1 b) (Store.fieldValue sortOptions.1 a).

(** The documents that a listing selects, the pattern of its filter being
    compiled to [test]. *)
Definition selected {P : Platform} (test : string -> bool) (q : Req.Query)
    (w : World) : list FileRecord :=
  filter (fun r => Store.matches test (Controller.listQuery q) r = true) (collection w).

(** An arrangement of the selected documents in the order the listing asks
    for: what a store may answer to the sorted query. *)
Definition arranged {P : Platform} (test : string -> bool) (q : Req.Query)
    (w : World) (all : list FileRecord) : Prop :=
  all ≡ₚ selected test q w
  /\ ordered (sortLeb (Controller.listSortOptions q)) all = true.

(** No two selected documents have the same sort key. *)
Definition distinctKeys {P : Platform} (test : string -> bool) (q : Req.Query)
    (w : World) : Prop :=
  NoDup (Store.fieldValue (Controller.listSortOptions q).1 <$> selected test q w).

(** The paths of the schema whose values the embedding orders as the store
    does. *)
Definition scalarPaths : list string :=
  ["description"; "fileName"; "originalName"; "filePath"; "fileType"; "fileSize";
   "mimeType"; "fileDate"; "letterReferenceNumber"; "uploadDateTime"].

(** The records of a listing; none when the answer is not a listing. *)
Definition listedRecords (out : Outcome Response) : list FileRecord :=
  match out with
  | Ok (Json _ _ _ (Listing records _ _)) => records
  | _ => []
  end.

(** * The runtime model on known values *)

Example extname_examples :
  map Path.extname
    ["index.html"; "index.coffee.md"; "index."; "index"; ".index"; ".index.md";
     "report.PDF"; "a/b.c/d"; ".."; "..."; "dir.d/"]
  = [".html"; ".md"; "."; ""; ""; ".md"; ".PDF"; ""; ""; "."; ".d"].
Proof. reflexivity. Qed.

Example basename_examples :
  Path.basename "/foo/bar/baz/asdf/quux.html" "" = "quux.html"
  /\ Path.basename "/foo/bar/baz/asdf/quux.html" ".html" = "quux"
  /\ Path.basename "budget.xlsx" (Path.extname "budget.xlsx") = "budget"
  /\ Path.basename ".bashrc" (Path.extname ".bashrc") = ".bashrc"
  /\ Path.basename "x.tar.gz" (Path.extname "x.tar.gz") = "x.tar".
Proof. repeat split; reflexivity. Qed.

Example parseInt_examples :
  map JS.parseInt ["10"; "  -12px"; "+7"; "3.9"; "0"; "abc"; ""; "-"]
  = [Some 10; Some (-12); Some 7; Some 3; Some 0; None; None; None].
Proof. reflexivity. Qed.

Example parseIntNoRadix_examples :
  map JS.parseIntNoRadix ["0x400"; "10485760"; "-0X1f"; "0x"; "010"; " 12px"; "1e3"; ""]
  = [Some 1024; Some 10485760; Some (-31); None; Some 10; Some 12; Some 1; None].
Proof. reflexivity. Qed.

Example padStart_examples :
  map (fun n => JS.padStart (JS.String_ n) 3 "0") [1; 42; 999; 1000]%nat
  = ["001"; "042"; "999"; "1000"].
Proof. reflexivity. Qed.

Example trim_examples :
  map JS.trim ["  a b  "; "   "; ""; "x"] = ["a b"; ""; ""; "x"].
Proof. reflexivity. Qed.

Example date_examples :
  JSDate.parse "2024-01-15" = Some 1705276800000
  /\ JSDate.parse "2024-13-01" = None
  /\ JSDate.parse "15/01/2024" = None
  /\ JSDate.toISOString 1705276800000 = "2024-01-15T00:00:00.000Z"
  /\ JSDate.toISOString (-1) = "1969-12-31T23:59:59.999Z"
  /\ JSDate.setHours 0 23 59 59 999 (Some 1705276800000) = Some 1705363199999
  /\ JSDate.setHours 330 23 59 59 999 (Some 1705276800000) = Some 1705343399999
  /\ JSDate.setHours (-300) 23 59 59 999 (Some 1705276800000) = Some 1705294799999.
Proof. repeat split; vm_compute; reflexivity. Qed.

Example filename_example :
  Upload.filename 1705400000000
    (Upload.mkPart "My Report (final).PDF" "application/pdf" 100 "uuid-1" false)
  = "1705400000000_My_Report__final__uuid-1.PDF".
Proof. vm_compute. reflexivity. Qed.

(** * Facts about the runtime *)

Section StringFacts.

Lemma truthyStr_true (s : string) : JS.truthyStr s = true <-> s <> "".
Proof.
  unfold JS.truthyStr. destruct (String.eqb_spec s ""); simpl; split; congruence.
Qed.

Lemma truthyStr_false (s : string) : JS.truthyStr s = false <-> s = "".
Proof.
  unfold JS.truthyStr. destruct (String.eqb_spec s ""); simpl; split; congruence.
Qed.

(** Lowering a character never creates nor destroys a separator or a dot. *)
Lemma lowerChar_slash (c : ascii) :
  Ascii.eqb (JS.lowerChar c) "/" = Ascii.eqb c "/".
Proof. destruct c as [[] [] [] [] [] [] [] []]; reflexivity. Qed.

Lemma lowerChar_dot (c : ascii) :
  Ascii.eqb (JS.lowerChar c) "." = Ascii.eqb c ".".
Proof. destruct c as [[] [] [] [] [] [] [] []]; reflexivity. Qed.

Lemma toLowerCase_length (s : string) :
  String.length (JS.toLowerCase s) = String.length s.
Proof. induction s as [|c s IH]; simpl; congruence. Qed.

Lemma toLowerCase_get (s : string) (i : nat) :
  String.get i (JS.toLowerCase s) = JS.lowerChar <$> String.get i s.
Proof.
  revert i. induction s as [|c s IH]; intros [|i]; simpl; auto.
Qed.

Lemma charAt_toLowerCase (s : string) (i : nat) :
  JS.charAt (JS.toLowerCase s) i = JS.lowerChar (JS.charAt s i).
Proof.
  unfold JS.charAt. rewrite toLowerCase_get.
  destruct (String.get i s); reflexivity.
Qed.

Lemma toLowerCase_substring (s : string) (n m : nat) :
  String.substring n m (JS.toLowerCase s) = JS.toLowerCase (String.substring n m s).
Proof.
  revert n m. induction s as [|c s IH]; intros [|n] [|m]; simpl; auto.
  now rewrite IH.
Qed.

Lemma extnameScan_toLowerCase (p : string) (n : nat) (st : Path.ExtState) :
  Path.extnameScan (JS.toLowerCase p) n st = Path.extnameScan p n st.
Proof.
  revert st. induction n as [|i IH]; intros st; simpl; [reflexivity|].
  rewrite charAt_toLowerCase, lowerChar_slash, lowerChar_dot.
  destruct (Ascii.eqb (JS.charAt p i) "/").
  - destruct (Path.matchedSlash st); simpl; auto.
  - apply IH.
Qed.

(** [path.extname] commutes with lower-casing. *)
Lemma extname_toLowerCase (p : string) :
  Path.extname (JS.toLowerCase p) = JS.toLowerCase (Path.extname p).
Proof.
  unfold Path.extname.
  rewrite toLowerCase_length, extnameScan_toLowerCase.
  match goal with |- (if ?c then _ else _) = _ => destruct c end;
    [reflexivity|].
  unfold JS.slice. apply toLowerCase_substring.
Qed.

End StringFacts.

Section Classification.

Import Schema.

Lemma fileTypeForExt_table (ext : string) :
  (fileTypeForExt ext = PDF <-> ext = ".pdf")
  /\ (fileTypeForExt ext = DOCX <-> ext = ".doc" \/ ext = ".docx")
  /\ (fileTypeForExt ext = XLSX <-> ext = ".xls" \/ ext = ".xlsx")
  /\ (fileTypeForExt ext = Image <->
        ext = ".jpg" \/ ext = ".jpeg" \/ ext = ".png" \/ ext = ".gif"
        \/ ext = ".bmp" \/ ext = ".webp")
  /\ (fileTypeForExt ext = Other <->
        ext <> ".pdf" /\ ext <> ".doc" /\ ext <> ".docx" /\ ext <> ".xls"
        /\ ext <> ".xlsx" /\ ext <> ".jpg" /\ ext <> ".jpeg" /\ ext <> ".png"
        /\ ext <> ".gif" /\ ext <> ".bmp" /\ ext <> ".webp").
Proof.
  unfold fileTypeForExt.
  repeat match goal with
         | |- context [String.eqb ext ?l] =>
             destruct (String.eqb_spec ext l) as [->|?]
         end; simpl; repeat split; intros; try discriminate; try tauto;
    repeat match goal with
           | H : _ \/ _ |- _ => destruct H
           | H : _ /\ _ |- _ => destruct H
           end; try congruence; try discriminate.
Qed.

Lemma preSave_fileType (r : FileRecord) :
  fileName r <> "" ->
  fileType (preSave r) = fileTypeForExt (JS.toLowerCase (Path.extname (fileName r))).
Proof.
  intros Hn. unfold preSave.
  apply truthyStr_true in Hn. rewrite Hn. reflexivity.
Qed.

End Classification.


(** * The handlers, step by step *)

Ltac unfoldM :=
  cbv beta iota delta [mbind mret M_bind M_ret tryCatch throw].

Ltac world :=
  cbn [disk locked collection io emitted faultAfter nextId now
       withDisk withCollection withNextId withFaultAfter withEmitted fst snd].

Section Primitives.

Lemma sameState_refl w : sameState w w.
Proof. repeat split. Qed.

Lemma unlinkSync_removes (p : string) (w : World) :
  p ∈ disk w -> p ∉ locked w ->
  Fs.unlinkSync p w = (Ok tt, withDisk (disk w ∖ {[p]}) w).
Proof.
  intros Hin Hlk. unfold Fs.unlinkSync.
  now rewrite (bool_decide_eq_true_2 _ Hin), (bool_decide_eq_false_2 _ Hlk).
Qed.

Lemma unlinkSync_refused (p : string) (w : World) :
  p ∈ disk w -> p ∈ locked w ->
  Fs.unlinkSync p w = (Throw (EPERM p), w).
Proof.
  intros Hin Hlk. unfold Fs.unlinkSync.
  now rewrite (bool_decide_eq_true_2 _ Hin), (bool_decide_eq_true_2 _ Hlk).
Qed.

Lemma cleanUp_removes (f : Req.File) (w : World) :
  Req.path f ∈ disk w -> Req.path f ∉ locked w ->
  Controller.cleanUp (Some f) w = (Ok tt, withDisk (disk w ∖ {[Req.path f]}) w).
Proof.
  intros Hin Hlk. unfold Controller.cleanUp, Fs.existsSync. unfoldM.
  rewrite (bool_decide_eq_true_2 _ Hin). now apply unlinkSync_removes.
Qed.

Lemma cleanUp_nothing (f : Req.File) (w : World) :
  Req.path f ∉ disk w ->
  Controller.cleanUp (Some f) w = (Ok tt, w).
Proof.
  intros Hin. unfold Controller.cleanUp, Fs.existsSync. unfoldM.
  now rewrite (bool_decide_eq_false_2 _ Hin).
Qed.

Lemma unlinkIfExists_absent (p : string) (w : World) :
  p ∉ disk w -> Controller.unlinkIfExists p w = (Ok tt, w).
Proof.
  intros Hin. unfold Controller.unlinkIfExists, Fs.existsSync.
  destruct (JS.truthyStr p); unfoldM; [|reflexivity].
  now rewrite (bool_decide_eq_false_2 _ Hin).
Qed.

Lemma unlinkIfExists_removes (p : string) (w : World) :
  p <> "" -> p ∈ disk w -> p ∉ locked w ->
  Controller.unlinkIfExists p w = (Ok tt, withDisk (disk w ∖ {[p]}) w).
Proof.
  intros Hp Hin Hlk. unfold Controller.unlinkIfExists, Fs.existsSync.
  apply truthyStr_true in Hp. rewrite Hp. unfoldM.
  rewrite (bool_decide_eq_true_2 _ Hin).
  now apply unlinkSync_removes.
Qed.

Lemma unlinkIfExists_refused (p : string) (w : World) :
  p <> "" -> p ∈ disk w -> p ∈ locked w ->
  Controller.unlinkIfExists p w = (Throw (EPERM p), w).
Proof.
  intros Hp Hin Hlk. unfold Controller.unlinkIfExists, Fs.existsSync.
  apply truthyStr_true in Hp. rewrite Hp. unfoldM.
  rewrite (bool_decide_eq_true_2 _ Hin).
  now apply unlinkSync_refused.
Qed.

Lemma emit_spec (e : Event) (w : World) :
  exists w', emit e w = (Ok tt, w') /\ sameState w w'.
Proof.
  unfold emit. eexists; split; [reflexivity|]. destruct (io w); repeat split.
Qed.

(** What one round trip does to the world besides running the
    operation: it spends one unit of the fault budget. *)
Lemma dbOp_cases {A} (f : M A) (w : World) :
  (faultAfter w = Some O /\ Store.dbOp f w = (Throw MongoError, w))
  \/ (exists w1, faultAfter w <> Some O /\ sameState w w1
                 /\ nextId w1 = nextId w /\ now w1 = now w
                 /\ Store.dbOp f w = f w1).
Proof.
  unfold Store.dbOp. destruct (faultAfter w) as [[|n]|] eqn:E.
  - left; auto.
  - right. eexists. split; [discriminate|]. split; [|split; [|split]]; [| | |reflexivity];
      try reflexivity. repeat split.
  - right. exists w. split; [discriminate|]. repeat split.
Qed.

(** [save] either throws and leaves files and documents alone, or
    validates, runs the pre-save middleware and writes. *)
Lemma save_spec (d : Document) (w : World) :
  match Store.save d w with
  | (Ok d', w') =>
      Schema.validate d = true
      /\ d' = mkDocument (Schema.preSave (fields d)) false []
      /\ disk w' = disk w /\ locked w' = locked w /\ io w' = io w
      /\ (if isNew d
          then collection w' = collection w ++ [fields d']
          else Store.lookup (_id (fields d')) (collection w) <> None
               /\ collection w' =
                    map (fun x => if (_id x =? _id (fields d'))%nat then fields d' else x)
                      (collection w))
  | (Throw e, w') => sameState w w'
  end.
Proof.
  unfold Store.save.
  destruct (Schema.validate d) eqn:Hv; simpl; [|unfold throw; apply sameState_refl].
  destruct (dbOp_cases
    (fun w0 => if isNew d
      then (Ok (mkDocument (Schema.preSave (fields d)) false []),
            withCollection (collection w0 ++ [Schema.preSave (fields d)]) w0)
      else match Store.lookup (_id (Schema.preSave (fields d))) (collection w0) with
           | Some _ =>
               (Ok (mkDocument (Schema.preSave (fields d)) false []),
                withCollection
                  (map (fun x => if (_id x =? _id (Schema.preSave (fields d)))%nat
                                 then Schema.preSave (fields d) else x) (collection w0)) w0)
           | None => (Throw DocumentNotFoundError, w0)
           end) w) as [[_ ->]|(w1 & _ & (Hd & Hl & Hc & Hio) & _ & _ & ->)].
  - apply sameState_refl.
  - destruct (isNew d).
    + world. rewrite Hd, Hl, Hc, Hio. auto 10.
    + destruct (Store.lookup _ (collection w1)) eqn:Hlook.
      * world. rewrite <- Hc, Hd, Hl, Hio. cbn [fields]. rewrite Hlook. auto 10.
      * repeat split; auto.
Qed.

End Primitives.

Section Create.

Lemma create_doc_filePath d fn on fp sz mt fd lr ub w doc w1 :
  Store.create d fn on fp sz mt fd lr ub w = (Ok doc, w1) ->
  filePath (fields doc) = fp /\ isNew doc = true /\ sameState w w1.
Proof.
  unfold Store.create. intros [= <- <-].
  split; [|split; [|repeat split]].
  - unfold Schema.setLetterReferenceNumber, Schema.setFileDate.
    destruct fd as [s|]; [destruct (JSDate.parse s)|]; reflexivity.
  - unfold Schema.setLetterReferenceNumber, Schema.setFileDate.
    destruct fd as [s|]; [destruct (JSDate.parse s)|]; reflexivity.
Qed.

Lemma preSave_filePath r : filePath (Schema.preSave r) = filePath r.
Proof. unfold Schema.preSave. now destruct (JS.truthyStr _). Qed.

Lemma createFileRecord_outcome (req : Req.t) (file : Req.File) (w : World) :
  Req.file req = Some file ->
  Req.path file ∈ disk w ->
  Req.path file ∉ locked w ->
  exists resp w',
    Controller.createFileRecord req w = (Ok resp, w')
    /\ ((statusOf resp = 201
         /\ (exists r, collection w' = collection w ++ [r]
                       /\ filePath r = Req.path file)
         /\ disk w' = disk w)
        \/ ((statusOf resp = 400 \/ statusOf resp = 500)
            /\ collection w' = collection w
            /\ disk w' = disk w ∖ {[Req.path file]}))
    /\ (Controller.isBlank (Req.description (Req.body req)) = true -> statusOf resp = 400).
Proof.
  intros Hf Hin Hlk.
  unfold Controller.createFileRecord.
  fold (Controller.isBlank (Req.description (Req.body req))).
  rewrite Hf. unfoldM.
  destruct (Controller.isBlank _) eqn:Hb.
  - unfold Controller.unlinkUploaded. rewrite (unlinkSync_removes _ _ Hin Hlk).
    do 2 eexists; split; [reflexivity|]. split; [right|]; auto.
  - destruct (Store.create _ _ _ _ _ _ _ _ _ w) as [[doc|e] w1] eqn:Hc;
      [|discriminate Hc].
    apply create_doc_filePath in Hc as (Hfp & Hnew & Hd1 & Hl1 & Hc1 & Hio1).
    pose proof (save_spec doc w1) as Hs.
    destruct (Store.save doc w1) as [[doc'|e] w2].
    + destruct Hs as (_ & -> & Hd2 & Hl2 & _ & Hc2). rewrite Hnew in Hc2.
      destruct (emit_spec (FileCreated (fields (mkDocument (Schema.preSave (fields doc)) false []))) w2)
        as (w3 & -> & Hd3 & Hl3 & Hc3 & _).
      do 2 eexists; split; [reflexivity|]. split; [left|discriminate].
      split; [reflexivity|]. split; [|congruence].
      eexists. split; [rewrite Hc3, Hc2, Hc1; reflexivity|].
      cbn [fields]. now rewrite preSave_filePath.
    + destruct Hs as (Hd2 & Hl2 & Hc2 & _).
      rewrite cleanUp_removes by congruence.
      do 2 eexists; split; [reflexivity|]. split; [right|discriminate].
      world. split; [auto|]. split; congruence.
Qed.

(** Without a file nothing is stored: the request is answered 400. *)
Lemma createFileRecord_without_file (req : Req.t) (w : World) :
  Req.file req = None ->
  Controller.createFileRecord req w
  = (Ok (Json 400 false
           (Some (if Controller.isBlank (Req.description (Req.body req))
                  then "Description is required" else "Please upload a file"))
           NoData), w).
Proof.
  intros Hf. unfold Controller.createFileRecord. unfoldM. rewrite Hf.
  destruct (Controller.isBlank _); reflexivity.
Qed.

Lemma upload_failure_changes_nothing {P : Platform} (user : string)
    (body : Req.Body) (part : Upload.Part) (w : World) :
  Upload.writeFails part = true ->
  exists resp, Routes.postFiles user body (Some part) w = (Ok resp, w)
               /\ statusOf resp = 400.
Proof.
  intros Hw. unfold Routes.postFiles, Upload.single.
  destruct (JS.truthyStr (Upload.originalname part)); cbn [negb].
  2:{ rewrite createFileRecord_without_file by reflexivity.
      eexists; split; reflexivity. }
  destruct (Upload.fileFilter part) as [err|].
  - eexists; split; [reflexivity|]. now destruct err as [c m|m]; simpl;
      [destruct (String.eqb c _)|].
  - destruct (Upload.fileSizeLimit <=? Upload.size part).
    + eexists; split; reflexivity.
    + rewrite Hw. eexists; split; [reflexivity|]. reflexivity.
Qed.

End Create.


Section TrimFacts.

Lemma trimEnd_idem (s : string) : JS.trimEnd (JS.trimEnd s) = JS.trimEnd s.
Proof.
  induction s as [|c s IH]; [reflexivity|]. simpl.
  destruct (JS.trimEnd s) as [|c2 t2] eqn:E.
  - destruct (JS.isWhiteSpace c) eqn:W; simpl; [reflexivity|]. now rewrite W.
  - change (JS.trimEnd (String c (String c2 t2)))
      with (match JS.trimEnd (String c2 t2) with
            | EmptyString => if JS.isWhiteSpace c then EmptyString else String c EmptyString
            | t => String c t
            end).
    now rewrite IH.
Qed.

Lemma trimStart_head (s : string) :
  match JS.trimStart s with
  | EmptyString => True
  | String c _ => JS.isWhiteSpace c = false
  end.
Proof.
  induction s as [|c s IH]; simpl; [exact I|].
  destruct (JS.isWhiteSpace c) eqn:W; [exact IH|exact W].
Qed.

Lemma trimStart_trimEnd (s : string) :
  match s with
  | EmptyString => True
  | String c _ => JS.isWhiteSpace c = false
  end ->
  JS.trimStart (JS.trimEnd s) = JS.trimEnd s.
Proof.
  destruct s as [|c s]; [reflexivity|]. intros W. simpl.
  destruct (JS.trimEnd s); rewrite ?W; simpl; now rewrite W.
Qed.

Lemma trim_idem (s : string) : JS.trim (JS.trim s) = JS.trim s.
Proof.
  unfold JS.trim.
  rewrite (trimStart_trimEnd _ (trimStart_head s)). apply trimEnd_idem.
Qed.

End TrimFacts.

Section StoreFacts.

Lemma lookup_id (id : nat) (c : list FileRecord) (r : FileRecord) :
  Store.lookup id c = Some r -> _id r = id.
Proof.
  unfold Store.lookup. intros H. apply find_some in H as [_ H].
  now apply Nat.eqb_eq in H.
Qed.

Lemma lookup_replace (r : FileRecord) (c : list FileRecord) :
  Store.lookup (_id r) c <> None ->
  Store.lookup (_id r)
    (map (fun x => if (_id x =? _id r)%nat then r else x) c) = Some r.
Proof.
  unfold Store.lookup. induction c as [|x c IH]; simpl; [congruence|].
  destruct (_id x =? _id r)%nat eqn:E; simpl.
  - now rewrite Nat.eqb_refl.
  - rewrite E. exact IH.
Qed.

Lemma lookup_deleted (id : nat) (c : list FileRecord) :
  Store.lookup id (filter (fun r => _id r ≠ id) c) = None.
Proof.
  unfold Store.lookup. induction c as [|x c IH]; simpl; [reflexivity|].
  rewrite filter_cons. destruct (decide (_id x ≠ id)) as [Hne|Heq]; [|exact IH].
  simpl. apply Nat.eqb_neq in Hne. now rewrite Hne.
Qed.

Lemma dbOp_up {A} (f : M A) (w : World) :
  faultAfter w = None -> Store.dbOp f w = f w.
Proof. unfold Store.dbOp. now intros ->. Qed.

Lemma findById_up (id : nat) (w : World) :
  faultAfter w = None ->
  Store.findById id w
  = (Ok ((fun r => mkDocument r false []) <$> Store.lookup id (collection w)), w).
Proof. intros H. unfold Store.findById. now rewrite dbOp_up. Qed.

Lemma findById_spec (id : nat) (w : World) :
  match Store.findById id w with
  | (Ok found, w') =>
      found = (fun r => mkDocument r false []) <$> Store.lookup id (collection w)
      /\ sameState w w' /\ (faultAfter w = None -> w' = w)
  | (Throw e, w') => w' = w
  end.
Proof.
  unfold Store.findById.
  destruct (dbOp_cases
    (fun w0 => (Ok ((fun r => mkDocument r false []) <$> Store.lookup id (collection w0)), w0))
    w) as [[_ ->]|(w1 & _ & Hs & _ & _ & Hrun)]; [reflexivity|].
  destruct (faultAfter w) as [[|n]|] eqn:E.
  - unfold Store.dbOp. now rewrite E.
  - unfold Store.dbOp. rewrite E. split; [reflexivity|].
    split; [repeat split|discriminate].
  - rewrite dbOp_up by assumption. split; [reflexivity|].
    split; [apply sameState_refl|auto].
Qed.

End StoreFacts.

Section Delete.

(** The deletion of a record whose store is up, case by case on its blob. *)
Lemma deleteFileRecord_cases (req : Req.t) (w : World) (r : FileRecord) :
  Store.lookup (Req.id req) (collection w) = Some r ->
  faultAfter w = None ->
  exists resp w',
    Controller.deleteFileRecord req w = (Ok resp, w')
    /\ locked w' = locked w
    /\ (filePath r = "" \/ filePath r ∉ disk w ->
          statusOf resp = 200
          /\ collection w' = filter (fun x => _id x ≠ Req.id req) (collection w)
          /\ disk w' = disk w)
    /\ (filePath r <> "" -> filePath r ∈ disk w -> filePath r ∉ locked w ->
          statusOf resp = 200
          /\ collection w' = filter (fun x => _id x ≠ Req.id req) (collection w)
          /\ disk w' = disk w ∖ {[filePath r]})
    /\ (filePath r <> "" -> filePath r ∈ disk w -> filePath r ∈ locked w ->
          statusOf resp = 500
          /\ collection w' = collection w
          /\ disk w' = disk w).
Proof.
  intros Hlook Hup.
  unfold Controller.deleteFileRecord. unfoldM.
  rewrite (findById_up _ _ Hup), Hlook. cbn [fmap option_fmap option_map fields].
  assert (Hdel : forall w0, faultAfter w0 = None ->
            Store.findByIdAndDelete (Req.id req) w0
            = (Ok tt, withCollection
                        (filter (fun x => _id x ≠ Req.id req) (collection w0)) w0)).
  { intros w0 H0. unfold Store.findByIdAndDelete. now rewrite dbOp_up. }
  destruct (decide (filePath r = "")) as [He|He].
  { unfold Controller.unlinkIfExists.
    rewrite (proj2 (truthyStr_false _) He). unfoldM.
    rewrite (Hdel w Hup).
    destruct (emit_spec (FileDeleted (Req.id req))
                (withCollection (filter (fun x => _id x ≠ Req.id req) (collection w)) w))
      as (w3 & -> & Hd3 & Hl3 & Hc3 & _).
    do 2 eexists; split; [reflexivity|]. split; [exact Hl3|].
    split; [intros _; auto|]. split; intros; congruence. }
  destruct (decide (filePath r ∈ disk w)) as [Hin|Hin].
  2:{ rewrite (unlinkIfExists_absent _ _ Hin), (Hdel w Hup).
      destruct (emit_spec (FileDeleted (Req.id req))
                  (withCollection (filter (fun x => _id x ≠ Req.id req) (collection w)) w))
        as (w3 & -> & Hd3 & Hl3 & Hc3 & _).
      do 2 eexists; split; [reflexivity|]. split; [exact Hl3|].
      split; [intros _; auto|]. split; intros; contradiction. }
  destruct (decide (filePath r ∈ locked w)) as [Hlk|Hlk].
  - rewrite (unlinkIfExists_refused _ _ He Hin Hlk).
    do 2 eexists; split; [reflexivity|]. split; [reflexivity|].
    split; [intros [?|?]; contradiction|].
    split; [intros; contradiction|auto].
  - rewrite (unlinkIfExists_removes _ _ He Hin Hlk), Hdel by exact Hup.
    destruct (emit_spec (FileDeleted (Req.id req))
                (withCollection (filter (fun x => _id x ≠ Req.id req)
                   (collection (withDisk (disk w ∖ {[filePath r]}) w)))
                   (withDisk (disk w ∖ {[filePath r]}) w)))
      as (w3 & -> & Hd3 & Hl3 & Hc3 & _).
    do 2 eexists; split; [reflexivity|]. split; [exact Hl3|].
    split; [intros [?|?]; contradiction|].
    split; [auto|intros; contradiction].
Qed.

End Delete.

Section Update.

Lemma unlinkIfExists_keeps (p : string) (w w' : World) (out : Outcome unit) :
  Controller.unlinkIfExists p w = (out, w') ->
  collection w' = collection w /\ locked w' = locked w
  /\ (disk w' = disk w \/ disk w' = disk w ∖ {[p]}).
Proof.
  unfold Controller.unlinkIfExists, Fs.existsSync, Fs.unlinkSync. unfoldM.
  destruct (JS.truthyStr p); unfoldM;
    [|intros H; inversion H; subst; auto].
  repeat match goal with
         | |- context [bool_decide ?Q] => destruct (bool_decide Q)
         end; intros H; inversion H; subst; auto.
Qed.

(** The assignments of [updateFileRecord] to the scalar paths. *)
Lemma scalar_updates (d fd lr : option string) (doc : Document) :
  let doc1 :=
    if JS.truthy d then Schema.setDescription (JS.trim (default "" d)) doc else doc in
  let doc2 :=
    match fd with
    | Some _ => Schema.setFileDate (JS.orNull fd) doc1
    | None => doc1
    end in
  let doc3 :=
    match lr with
    | Some _ => Schema.setLetterReferenceNumber (JS.orNull lr) doc2
    | None => doc2
    end in
  let r := fields doc in
  let r' := fields doc3 in
  isNew doc3 = isNew doc
  /\ _id r' = _id r /\ fileName r' = fileName r /\ originalName r' = originalName r
  /\ filePath r' = filePath r /\ fileSize r' = fileSize r /\ mimeType r' = mimeType r
  /\ uploadedBy r' = uploadedBy r /\ uploadDateTime r' = uploadDateTime r
  /\ fileType r' = fileType r
  /\ description r' = (if JS.truthy d then JS.trim (default "" d) else description r)
  /\ (fd = None -> fileDate r' = fileDate r)
  /\ (fd = Some "" -> fileDate r' = None)
  /\ (lr = None -> letterReferenceNumber r' = letterReferenceNumber r)
  /\ (lr = Some "" -> letterReferenceNumber r' = None)
  /\ (forall s, lr = Some s -> s <> "" -> letterReferenceNumber r' = Some (JS.trim s)).
Proof.
  destruct d as [d|], fd as [fd|], lr as [lr|]; cbn [JS.truthy JS.orNull default];
    try destruct (JS.truthyStr d) eqn:Hd;
    try destruct (JS.truthyStr fd) eqn:Hfd;
    try destruct (JS.truthyStr lr) eqn:Hlr;
    unfold Schema.setFileDate;
    try destruct (JSDate.parse fd);
    cbn;
    repeat split; try reflexivity; try congruence;
    try (intros [= ->]; discriminate);
    try (intros s [= ->] Hs; apply truthyStr_true in Hs; congruence);
    exact (trim_idem d).
Qed.


Lemma preSave_frame (r : FileRecord) :
  let r' := Schema.preSave r in
  _id r' = _id r /\ description r' = description r /\ fileName r' = fileName r
  /\ originalName r' = originalName r /\ filePath r' = filePath r
  /\ fileSize r' = fileSize r /\ mimeType r' = mimeType r
  /\ fileDate r' = fileDate r /\ letterReferenceNumber r' = letterReferenceNumber r
  /\ uploadedBy r' = uploadedBy r /\ uploadDateTime r' = uploadDateTime r.
Proof. unfold Schema.preSave. destruct (JS.truthyStr _); cbn; auto 12. Qed.

Lemma validate_true (d : Document) :
  Schema.validate d = true ->
  castErrors d = [] /\ description (fields d) <> "" /\ fileName (fields d) <> "".
Proof.
  unfold Schema.validate. destruct (castErrors d); [|discriminate].
  intros H. repeat (apply andb_prop in H as [H ?]).
  split; [reflexivity|]. split; now apply truthyStr_true.
Qed.

(** What a successful update leaves in the store. *)
Lemma updateFileRecord_success (req : Req.t) (w w' : World) (resp : Response) :
  Controller.updateFileRecord req w = (Ok resp, w') ->
  statusOf resp = 200 ->
  exists r0 r',
    Store.lookup (Req.id req) (collection w) = Some r0
    /\ Store.lookup (Req.id req) (collection w') = Some r'
    /\ resp = Json 200 true (Some "File record updated successfully") (OneRecord r')
    /\ _id r' = _id r0 /\ uploadedBy r' = uploadedBy r0
    /\ uploadDateTime r' = uploadDateTime r0
    /\ fileType r' = Schema.fileTypeForExt (JS.toLowerCase (Path.extname (fileName r')))
    /\ description r' <> ""
    /\ fileName r' <> ""
    /\ description r' =
         (if JS.truthy (Req.description (Req.body req))
          then JS.trim (default "" (Req.description (Req.body req)))
          else description r0)
    /\ (Req.fileDate (Req.body req) = None -> fileDate r' = fileDate r0)
    /\ (Req.fileDate (Req.body req) = Some "" -> fileDate r' = None)
    /\ (Req.letterReferenceNumber (Req.body req) = None ->
          letterReferenceNumber r' = letterReferenceNumber r0)
    /\ (Req.letterReferenceNumber (Req.body req) = Some "" ->
          letterReferenceNumber r' = None)
    /\ (forall s, Req.letterReferenceNumber (Req.body req) = Some s -> s <> "" ->
          letterReferenceNumber r' = Some (JS.trim s))
    /\ match Req.file req with
       | None =>
           fileName r' = fileName r0 /\ originalName r' = originalName r0
           /\ filePath r' = filePath r0 /\ fileSize r' = fileSize r0
           /\ mimeType r' = mimeType r0
       | Some f =>
           fileName r' = JS.trim (Req.filename f)
           /\ originalName r' = JS.trim (Req.originalname f)
           /\ filePath r' = Req.path f /\ fileSize r' = Req.size f
           /\ mimeType r' = JS.trim (Req.mimetype f)
       end.
Proof.
  unfold Controller.updateFileRecord. unfoldM.
  pose proof (findById_spec (Req.id req) w) as Hf.
  destruct (Store.findById (Req.id req) w) as [[found|e] w1].
  2:{ destruct (Controller.cleanUp _ _) as [[[]|e'] wc];
        intros H; inversion H; subst; discriminate. }
  destruct Hf as (-> & (Hd1 & Hl1 & Hc1 & Hio1) & _).
  destruct (Store.lookup (Req.id req) (collection w)) as [r0|] eqn:Hlook;
    cbn [fmap option_fmap option_map].
  2:{ destruct (Controller.unlinkUploaded _ _) as [[[]|e'] wu].
      - intros H; inversion H; subst; discriminate.
      - destruct (Controller.cleanUp _ _) as [[[]|e''] wc];
          intros H; inversion H; subst; discriminate. }
  pose proof (scalar_updates (Req.description (Req.body req))
                (Req.fileDate (Req.body req))
                (Req.letterReferenceNumber (Req.body req))
                (mkDocument r0 false [])) as Hsc.
  cbv zeta in Hsc. cbn [fields isNew] in Hsc.
  set (doc3 := match Req.letterReferenceNumber (Req.body req) with
               | Some _ => _ | None => _ end) in *.
  destruct Hsc as (Hnew & Hid & Hfn & Hon & Hfp & Hfs & Hmt & Hub & Hud & Hft
                   & Hdesc & Hfd1 & Hfd2 & Hlr1 & Hlr2 & Hlr3).
  pose proof (lookup_id _ _ _ Hlook) as Hid0.
  destruct (Req.file req) as [file|] eqn:Hfile.
  - destruct (Controller.unlinkIfExists _ w1) as [[[]|e] w2] eqn:Hu.
    2:{ destruct (Controller.cleanUp _ _) as [[[]|e''] wc];
          intros H; inversion H; subst; discriminate. }
    apply unlinkIfExists_keeps in Hu as (Hc2 & _ & _).
    set (doc4 := Schema.setMimeType _ _).
    pose proof (save_spec doc4 w2) as Hs.
    destruct (Store.save doc4 w2) as [[doc'|e] w3].
    2:{ destruct (Controller.cleanUp _ _) as [[[]|e''] wc];
          intros H; inversion H; subst; discriminate. }
    destruct Hs as (Hv & -> & _ & _ & _ & Hcol).
    assert (Hnew4 : isNew doc4 = false) by (subst doc4; cbn; exact Hnew).
    rewrite Hnew4 in Hcol. cbn [fields] in Hcol. destruct Hcol as [Hex Hcol].
    destruct (emit_spec (FileUpdated (fields (mkDocument (Schema.preSave (fields doc4)) false []))) w3)
      as (w4 & -> & _ & _ & Hc4 & _).
    intros H _. inversion H; subst resp w'; clear H.
    apply validate_true in Hv as (_ & Hdne & Hfne).
    pose proof (preSave_frame (fields doc4)) as Hp. cbv zeta in Hp.
    destruct Hp as (Pid & Pd & Pfn & Pon & Pfp & Pfs & Pmt & Pfd & Plr & Pub & Pud).
    assert (Hid4 : _id (fields doc4) = Req.id req) by (subst doc4; cbn; congruence).
    exists r0, (Schema.preSave (fields doc4)). cbn [fields].
    split; [reflexivity|].
    split; [rewrite Hc4, Hcol, <- Hid4, <- Pid at 1; apply lookup_replace; exact Hex|].
    split; [reflexivity|].
    rewrite Pid, Pub, Pud, Pd, Pfd, Plr, Pfn, Pon, Pfp, Pfs, Pmt.
    rewrite preSave_fileType by exact Hfne.
    subst doc4; cbn in *.
    repeat split; auto; try congruence.
  - pose proof (save_spec doc3 w1) as Hs.
    destruct (Store.save doc3 w1) as [[doc'|e] w3].
    2:{ intros H; inversion H; subst; discriminate. }
    destruct Hs as (Hv & -> & _ & _ & _ & Hcol).
    rewrite Hnew in Hcol. cbn [fields] in Hcol. destruct Hcol as [Hex Hcol].
    destruct (emit_spec (FileUpdated (fields (mkDocument (Schema.preSave (fields doc3)) false []))) w3)
      as (w4 & -> & _ & _ & Hc4 & _).
    intros H _. inversion H; subst resp w'; clear H.
    apply validate_true in Hv as (_ & Hdne & Hfne).
    pose proof (preSave_frame (fields doc3)) as Hp. cbv zeta in Hp.
    destruct Hp as (Pid & Pd & Pfn & Pon & Pfp & Pfs & Pmt & Pfd & Plr & Pub & Pud).
    assert (Hid3 : _id (fields doc3) = Req.id req) by congruence.
    exists r0, (Schema.preSave (fields doc3)). cbn [fields].
    split; [reflexivity|].
    split; [rewrite Hc4, Hcol, <- Hid3, <- Pid at 1; apply lookup_replace; exact Hex|].
    split; [reflexivity|].
    rewrite Pid, Pub, Pud, Pd, Pfd, Plr, Pfn, Pon, Pfp, Pfs, Pmt.
    rewrite preSave_fileType by exact Hfne.
    repeat split; auto; try congruence.
Qed.

End Update.

Section Success.

Lemma create_doc_fields d fn on fp sz mt fd lr ub w doc w1 :
  Store.create d fn on fp sz mt fd lr ub w = (Ok doc, w1) ->
  fileName (fields doc) = JS.trim fn /\ isNew doc = true /\ sameState w w1.
Proof.
  unfold Store.create. intros [= <- <-].
  split; [|split; [|repeat split]];
    unfold Schema.setLetterReferenceNumber, Schema.setFileDate;
    (destruct fd as [s|]; [destruct (JSDate.parse s)|]); reflexivity.
Qed.

Lemma cleanUp_keeps (f : option Req.File) (w w' : World) (out : Outcome unit) :
  Controller.cleanUp f w = (out, w') ->
  collection w' = collection w /\ locked w' = locked w.
Proof.
  destruct f as [f|]; unfold Controller.cleanUp, Fs.existsSync, Fs.unlinkSync; unfoldM;
    [|intros H; inversion H; subst; auto].
  repeat match goal with
         | |- context [bool_decide ?Q] => destruct (bool_decide Q)
         end; intros H; inversion H; subst; auto.
Qed.

Lemma unlinkUploaded_keeps (f : option Req.File) (w w' : World) (out : Outcome unit) :
  Controller.unlinkUploaded f w = (out, w') ->
  collection w' = collection w /\ locked w' = locked w.
Proof.
  destruct f as [f|]; unfold Controller.unlinkUploaded, Fs.unlinkSync; unfoldM;
    [|intros H; inversion H; subst; auto].
  repeat match goal with
         | |- context [bool_decide ?Q] => destruct (bool_decide Q)
         end; intros H; inversion H; subst; auto.
Qed.

(** What a successful upload leaves in the store. *)
Lemma createFileRecord_success (req : Req.t) (w w' : World) (resp : Response) :
  Controller.createFileRecord req w = (Ok resp, w') ->
  statusOf resp = 201 ->
  exists file r,
    Req.file req = Some file
    /\ resp = Json 201 true (Some "File uploaded successfully") (OneRecord r)
    /\ collection w' = collection w ++ [r]
    /\ fileName r = JS.trim (Req.filename file)
    /\ fileName r <> ""
    /\ fileType r = Schema.fileTypeForExt (JS.toLowerCase (Path.extname (fileName r))).
Proof.
  unfold Controller.createFileRecord. unfoldM.
  destruct (Controller.isBlank _).
  { destruct (Controller.unlinkUploaded _ _) as [[[]|e] wu].
    - intros H; inversion H; subst; discriminate.
    - destruct (Controller.cleanUp _ _) as [[[]|e'] wc];
        intros H; inversion H; subst; discriminate. }
  destruct (Req.file req) as [file|]; [|intros H; inversion H; subst; discriminate].
  destruct (Store.create _ _ _ _ _ _ _ _ _ w) as [[doc|e] w1] eqn:Hc;
    [|discriminate Hc].
  apply create_doc_fields in Hc as (Hfn & Hnew & _ & _ & Hc1 & _).
  pose proof (save_spec doc w1) as Hs.
  destruct (Store.save doc w1) as [[doc'|e] w2].
  2:{ destruct (Controller.cleanUp _ _) as [[[]|e'] wc];
        intros H; inversion H; subst; discriminate. }
  destruct Hs as (Hv & -> & _ & _ & _ & Hc2). rewrite Hnew in Hc2.
  destruct (emit_spec (FileCreated (fields (mkDocument (Schema.preSave (fields doc)) false []))) w2)
    as (w3 & -> & _ & _ & Hc3 & _).
  intros H _. inversion H; subst resp w'; clear H.
  apply validate_true in Hv as (_ & _ & Hfne).
  destruct (preSave_frame (fields doc)) as (_ & _ & Pfn & _).
  exists file, (Schema.preSave (fields doc)). cbn [fields] in *.
  split; [reflexivity|]. split; [reflexivity|].
  split; [congruence|]. rewrite Pfn.
  split; [assumption|]. split; [assumption|].
  now apply preSave_fileType.
Qed.

(** An update that does not answer 200 leaves every document as it was. *)
Lemma updateFileRecord_failure (req : Req.t) (w w' : World) (out : Outcome Response) :
  Controller.updateFileRecord req w = (out, w') ->
  (forall resp, out = Ok resp -> statusOf resp <> 200) ->
  collection w' = collection w.
Proof.
  unfold Controller.updateFileRecord. unfoldM.
  pose proof (findById_spec (Req.id req) w) as Hf.
  destruct (Store.findById (Req.id req) w) as [[found|e] w1].
  2:{ subst w1. destruct (Controller.cleanUp _ _) as [[[]|e'] wc] eqn:Hcl;
        apply cleanUp_keeps in Hcl as [Hcl _];
        intros H; inversion H; subst; auto. }
  destruct Hf as (-> & (Hd1 & Hl1 & Hc1 & Hio1) & _).
  destruct (Store.lookup (Req.id req) (collection w)) as [r0|] eqn:Hlook;
    cbn [fmap option_fmap option_map].
  2:{ destruct (Controller.unlinkUploaded _ _) as [[[]|e'] wu] eqn:Hu;
        apply unlinkUploaded_keeps in Hu as [Hu _].
      - intros H; inversion H; subst; congruence.
      - destruct (Controller.cleanUp _ _) as [[[]|e''] wc] eqn:Hcl;
          apply cleanUp_keeps in Hcl as [Hcl _];
          intros H; inversion H; subst; congruence. }
  set (doc3 := match Req.letterReferenceNumber (Req.body req) with
               | Some _ => _ | None => _ end).
  destruct (Req.file req) as [file|] eqn:Hfile.
  - destruct (Controller.unlinkIfExists _ w1) as [[[]|e] w2] eqn:Hu;
      apply unlinkIfExists_keeps in Hu as (Hc2 & _ & _).
    2:{ destruct (Controller.cleanUp _ _) as [[[]|e''] wc] eqn:Hcl;
          apply cleanUp_keeps in Hcl as [Hcl _];
          intros H; inversion H; subst; congruence. }
    set (doc4 := Schema.setMimeType _ _).
    pose proof (save_spec doc4 w2) as Hs.
    destruct (Store.save doc4 w2) as [[doc'|e] w3].
    + match goal with
      | |- context [emit ?e ?w0] => destruct (emit_spec e w0) as (w4 & -> & _)
      end.
      intros H Hno; inversion H; subst; exfalso; eapply Hno; reflexivity.
    + destruct Hs as (_ & _ & Hc3 & _).
      destruct (Controller.cleanUp _ _) as [[[]|e''] wc] eqn:Hcl;
        apply cleanUp_keeps in Hcl as [Hcl _];
        intros H; inversion H; subst; congruence.
  - pose proof (save_spec doc3 w1) as Hs.
    destruct (Store.save doc3 w1) as [[doc'|e] w3].
    + match goal with
      | |- context [emit ?e ?w0] => destruct (emit_spec e w0) as (w4 & -> & _)
      end.
      intros H Hno; inversion H; subst; exfalso; eapply Hno; reflexivity.
    + destruct Hs as (_ & _ & Hc3 & _).
      intros H; inversion H; subst; congruence.
Qed.

End Success.

Section Queries.

Context {P : Platform}.

Lemma select_spec (q : Query) (w w' : World) (docs : list FileRecord) :
  Store.select q w = (Ok docs, w') ->
  w' = w
  /\ exists test, Store.compile q = Some test
       /\ docs = filter (fun r => Store.matches test q r = true) (collection w).
Proof.
  unfold Store.select. destruct (negb (Store.castable q)); [discriminate|].
  destruct (Store.compile q) as [test|]; [|discriminate].
  intros [= <- <-]. eauto.
Qed.

Lemma find_spec (q : Query) (s : string * Z) (window : option (Z * Z))
    (w w' : World) (records : list FileRecord) :
  Store.find q s window w = (Ok records, w') ->
  sameState w w'
  /\ exists test, Store.compile q = Some test
       /\ let sorted :=
            Store.sortDocs s
              (filter (fun r => Store.matches test q r = true) (collection w)) in
          match window with
          | None => records = sorted
          | Some (skip, limit) =>
              0 <= skip
              /\ records =
                   (if limit =? 0 then drop (Z.to_nat skip) sorted
                    else take (Z.to_nat (Z.abs limit)) (drop (Z.to_nat skip) sorted))
          end.
Proof.
  unfold Store.find. destruct (String.eqb s.1 ""); [discriminate|].
  match goal with
  | |- Store.dbOp ?f w = _ -> _ =>
      destruct (dbOp_cases f w) as [[_ ->]|(w1 & _ & Hs & _ & _ & ->)];
        [discriminate|]
  end.
  unfoldM.
  destruct (Store.select q w1) as [[docs|e] w2] eqn:Hsel; [|discriminate].
  apply select_spec in Hsel as (-> & test & Hc & ->).
  destruct Hs as (Hd & Hl & Hcol & Hio). rewrite Hcol.
  destruct window as [[skip limit]|].
  - destruct (skip <? 0) eqn:Hsk; [discriminate|].
    apply Z.ltb_ge in Hsk.
    intros [= <- <-]. split; [repeat split; assumption|].
    exists test. split; [assumption|]. cbv zeta. split; [assumption|reflexivity].
  - intros [= <- <-]. split; [repeat split; assumption|].
    exists test. split; [assumption|reflexivity].
Qed.

Lemma countDocuments_spec (q : Query) (w w' : World) (n : Z) :
  Store.countDocuments q w = (Ok n, w') ->
  sameState w w'
  /\ exists test, Store.compile q = Some test
       /\ n = Z.of_nat
                (length (filter (fun r => Store.matches test q r = true) (collection w))).
Proof.
  unfold Store.countDocuments.
  match goal with
  | |- Store.dbOp ?f w = _ -> _ =>
      destruct (dbOp_cases f w) as [[_ ->]|(w1 & _ & Hs & _ & _ & ->)];
        [discriminate|]
  end.
  unfoldM.
  destruct (Store.select q w1) as [[docs|e] w2] eqn:Hsel; [|discriminate].
  apply select_spec in Hsel as (-> & test & Hc & ->).
  destruct Hs as (Hd & Hl & Hcol & Hio). rewrite Hcol.
  intros [= <- <-]. split; [repeat split; assumption|]. eauto.
Qed.

Lemma orNum_nonzero (n : option Z) (d : Z) : d <> 0 -> JS.orNum n d <> 0.
Proof.
  intros Hd. unfold JS.orNum. destruct n as [v|]; [|assumption].
  destruct (v =? 0) eqn:E; [assumption|]. now apply Z.eqb_neq.
Qed.

(** [ceilDiv] is the ceiling of the quotient. *)
Lemma ceilDiv_spec (a b : Z) :
  0 < b -> (JS.ceilDiv a b - 1) * b < a <= JS.ceilDiv a b * b.
Proof.
  intros Hb. unfold JS.ceilDiv.
  pose proof (Z.div_mod (- a) b ltac:(lia)) as Hdm.
  pose proof (Z.mod_pos_bound (- a) b Hb) as Hm.
  nia.
Qed.


(** The two handlers build the same filter. *)
Lemma exportQuery_listQuery (q : Req.Query) :
  Controller.exportQuery q = Controller.listQuery q.
Proof. reflexivity. Qed.

(** They sort alike exactly when the requested field is one of the four
    that the list accepts. *)
Lemma exportSort_listSort (q : Req.Query) :
  Controller.exportSortOptions q = Controller.listSortOptions q
  <-> JS.includes ["uploadDateTime"; "description"; "fileType"; "fileDate"]
        (default "uploadDateTime" (Req.sortBy q)) = true.
Proof.
  unfold Controller.exportSortOptions, Controller.listSortOptions.
  set (sortBy := default "uploadDateTime" (Req.sortBy q)).
  split.
  - destruct (JS.includes _ sortBy) eqn:E; [reflexivity|].
    intros [= H]. rewrite H in E. discriminate E.
  - now intros ->.
Qed.

End Queries.

Section SequenceNumbers.

Lemma append_assoc (a b c : string) : (a +:+ b) +:+ c = a +:+ b +:+ c.
Proof.
  induction a as [|x a IH]; [reflexivity|].
  change (String x ((a +:+ b) +:+ c) = String x (a +:+ b +:+ c)).
  now rewrite IH.
Qed.

Lemma append_cons (c : ascii) (s t : string) :
  String c s +:+ t = String c (s +:+ t).
Proof. reflexivity. Qed.

Lemma digitsPrefix_digit (c : ascii) (s : string) (acc : option Z) :
  JS.isDigit c = true ->
  JS.digitsPrefix (String c s) acc
  = JS.digitsPrefix s (Some (10 * default 0 acc + JS.digitVal c)).
Proof. intros H. cbn [JS.digitsPrefix]. now rewrite H. Qed.

(** Reading back the digits of a decimal numeral. *)
Lemma digitsPrefix_uint (d : Decimal.uint) (a : nat) (rest : string) :
  JS.digitsPrefix (NilEmpty.string_of_uint d +:+ "_" +:+ rest) (Some (Z.of_nat a))
  = Some (Z.of_nat (Nat.of_uint_acc d a)).
Proof.
  revert a.
  induction d as [|d IH|d IH|d IH|d IH|d IH|d IH|d IH|d IH|d IH|d IH]; intros a;
    cbn [NilEmpty.string_of_uint Nat.of_uint_acc];
    try (rewrite append_cons, digitsPrefix_digit by reflexivity;
         rewrite <- IH; f_equal; f_equal; rewrite Nat.tail_mul_spec;
         match goal with
         | |- context [JS.digitVal ?c] =>
             let v := eval vm_compute in (JS.digitVal c) in
             change (JS.digitVal c) with v
         end;
         change (default 0 (Some (Z.of_nat a))) with (Z.of_nat a); lia).
  reflexivity.
Qed.

Lemma digitsPrefix_zeros (k : nat) (s : string) :
  JS.digitsPrefix (JS.repeatChar "0" k +:+ s) (Some 0) = JS.digitsPrefix s (Some 0).
Proof.
  induction k as [|k IH]; [reflexivity|].
  cbn [JS.repeatChar]. rewrite append_cons, digitsPrefix_digit by reflexivity.
  exact IH.
Qed.

Lemma to_uint_nonnil (n : nat) : Nat.to_uint n <> Decimal.Nil.
Proof.
  intros H. pose proof (DecimalNat.Unsigned.of_to n) as Hn. rewrite H in Hn.
  simpl in Hn. subst n. discriminate H.
Qed.

Lemma String_digits (n : nat) :
  JS.String_ n = NilEmpty.string_of_uint (Nat.to_uint n).
Proof.
  unfold JS.String_, NilZero.string_of_uint.
  pose proof (to_uint_nonnil n). now destruct (Nat.to_uint n).
Qed.

(** The sequence number can be read back from the padded numeral, whatever
    follows the underscore. *)
Lemma padded_number (n : nat) (rest : string) :
  JS.digitsPrefix (JS.padStart (JS.String_ n) 3 "0" +:+ "_" +:+ rest) None
  = Some (Z.of_nat n).
Proof.
  assert (Hsome :
    JS.digitsPrefix (JS.padStart (JS.String_ n) 3 "0" +:+ "_" +:+ rest) (Some 0)
    = Some (Z.of_nat n)).
  { unfold JS.padStart. rewrite append_assoc, digitsPrefix_zeros, String_digits.
    change (Some 0) with (Some (Z.of_nat 0)).
    rewrite (digitsPrefix_uint (Nat.to_uint n) 0 rest).
    change (Nat.of_uint_acc (Nat.to_uint n) 0) with (Nat.of_uint (Nat.to_uint n)).
    now rewrite DecimalNat.Unsigned.of_to. }
  rewrite <- Hsome. unfold JS.padStart.
  destruct (3 - String.length (JS.String_ n))%nat as [|k]; [|reflexivity].
  rewrite String_digits.
  pose proof (to_uint_nonnil n) as Hn.
  destruct (Nat.to_uint n); [contradiction| | | | | | | | | |]; reflexivity.
Qed.

Lemma uniqueFilename_inj (i j : nat) (r r' : FileRecord) :
  Controller.uniqueFilename i r = Controller.uniqueFilename j r' -> i = j.
Proof.
  unfold Controller.uniqueFilename. intros H.
  apply (f_equal (fun s => JS.digitsPrefix s None)) in H.
  rewrite !padded_number in H. injection H as H. lia.
Qed.

End SequenceNumbers.

Section ExportFacts.

Lemma addFiles_spec (records : list FileRecord) (i : nat) (w : World) :
  exists files,
    Controller.addFiles i records w = (Ok files, w)
    /\ (forall e, e ∈ files <->
          exists k r, records !! k = Some r
            /\ filePath r <> "" /\ filePath r ∈ disk w
            /\ e = FromDisk ("files/" +:+ Controller.uniqueFilename (i + k) r)
                    (filePath r))
    /\ NoDup (map entryName files).
Proof.
  revert i. induction records as [|record rest IH]; intros i.
  - exists []. split; [reflexivity|]. split; [|constructor].
    intros e. split; [intros H; inversion H|].
    intros (k & r & H & _). rewrite lookup_nil in H. discriminate.
  - destruct (IH (S i)) as (others & Hrun & Hmem & Hnd).
    assert (Hshift : forall e, e ∈ others <->
              exists k r, rest !! k = Some r
                /\ filePath r <> "" /\ filePath r ∈ disk w
                /\ e = FromDisk ("files/" +:+ Controller.uniqueFilename (i + S k) r)
                        (filePath r)).
    { intros e. rewrite Hmem. split; intros (k & r & H1 & H2 & H3 & H4);
        exists k, r; repeat split; auto; subst e; do 3 f_equal; lia. }
    cbn [Controller.addFiles]. unfoldM. unfold Fs.existsSync.
    destruct (JS.truthyStr (filePath record)) eqn:Ht;
      [destruct (bool_decide (filePath record ∈ disk w)) eqn:Hin|];
      unfoldM; rewrite Hrun.
    + apply bool_decide_eq_true_1 in Hin. apply truthyStr_true in Ht.
      eexists. split; [reflexivity|]. split.
      * intros e. rewrite elem_of_cons, Hshift. split.
        -- intros [->|(k & r & H1 & H2 & H3 & H4)].
           ++ exists 0%nat, record. rewrite Nat.add_0_r. auto.
           ++ exists (S k), r. auto.
        -- intros ([|k] & r & H1 & H2 & H3 & H4).
           ++ left. injection H1 as <-. now rewrite Nat.add_0_r in H4.
           ++ right. exists k, r. auto.
      * cbn [map entryName]. constructor; [|exact Hnd].
        intros Hdup. apply list_elem_of_fmap in Hdup as (e & Hname & He).
        apply Hshift in He as (k & r & _ & _ & _ & ->). cbn [entryName] in Hname.
        injection Hname as Hname. apply uniqueFilename_inj in Hname. lia.
    + apply bool_decide_eq_false_1 in Hin.
      exists others. split; [reflexivity|]. split; [|exact Hnd].
      intros e. rewrite Hshift. split.
      * intros (k & r & H1 & H2 & H3 & H4). exists (S k), r. auto.
      * intros ([|k] & r & H1 & H2 & H3 & H4).
        -- injection H1 as <-. contradiction.
        -- exists k, r. auto.
    + apply truthyStr_false in Ht.
      exists others. split; [reflexivity|]. split; [|exact Hnd].
      intros e. rewrite Hshift. split.
      * intros (k & r & H1 & H2 & H3 & H4). exists (S k), r. auto.
      * intros ([|k] & r & H1 & H2 & H3 & H4).
        -- injection H1 as <-. contradiction.
        -- exists k, r. auto.
Qed.

End ExportFacts.

(** ** Orders and sorted arrangements *)

Section Sorting.

Context {A : Type} (le : A -> A -> bool).

Lemma insertBy_perm (x : A) (l : list A) : Store.insertBy le x l ≡ₚ x :: l.
Proof.
  induction l as [|y l IH]; cbn [Store.insertBy]; [reflexivity|].
  destruct (le x y); [reflexivity|]. rewrite IH. apply Permutation_swap.
Qed.

Lemma sort_perm (l : list A) : foldr (Store.insertBy le) [] l ≡ₚ l.
Proof.
  induction l as [|x l IH]; cbn [foldr]; [reflexivity|].
  now rewrite insertBy_perm, IH.
Qed.

Hypothesis le_total : forall a b, le a b = true \/ le b a = true.

Lemma insertBy_ordered (x : A) (l : list A) :
  ordered le l = true -> ordered le (Store.insertBy le x l) = true.
Proof.
  induction l as [|y l IH]; [reflexivity|].
  intros H. cbn [Store.insertBy]. destruct (le x y) eqn:E.
  - cbn [ordered]. now rewrite E.
  - assert (Hyx : le y x = true) by (destruct (le_total x y); congruence).
    destruct l as [|z l]; cbn [Store.insertBy ordered] in *; [now rewrite Hyx|].
    apply andb_true_iff in H as [Hyz Hrest]. specialize (IH Hrest).
    destruct (le x z); cbn [ordered] in *; rewrite ?Hyx, ?Hyz; exact IH.
Qed.

Lemma sort_ordered (l : list A) : ordered le (foldr (Store.insertBy le) [] l) = true.
Proof.
  induction l as [|x l IH]; [reflexivity|]. cbn [foldr]. now apply insertBy_ordered.
Qed.

Hypothesis le_trans : forall a b c, le a b = true -> le b c = true -> le a c = true.

Lemma ordered_tail (a : A) (l : list A) :
  ordered le (a :: l) = true -> ordered le l = true.
Proof.
  destruct l as [|b l]; [reflexivity|]. cbn [ordered].
  intros H. now apply andb_true_iff in H as [_ H].
Qed.

(** The head of an ordered list stands before every other element. *)
Lemma ordered_head (a : A) (l : list A) :
  ordered le (a :: l) = true -> Forall (fun b => le a b = true) l.
Proof.
  revert a. induction l as [|b l IH]; intros a H; [constructor|].
  cbn [ordered] in H. apply andb_true_iff in H as [Hab H].
  constructor; [exact Hab|].
  eapply Forall_impl; [apply IH, H|]. intros c Hbc. cbn beta in Hbc. eauto.
Qed.

(** When no two elements stand before one another, a list has one ordered
    arrangement only. *)
Lemma ordered_unique (l1 l2 : list A) :
  (forall a b, a ∈ l1 -> b ∈ l1 -> le a b = true -> le b a = true -> a = b) ->
  l1 ≡ₚ l2 -> ordered le l1 = true -> ordered le l2 = true -> l1 = l2.
Proof.
  revert l2. induction l1 as [|a l1 IH]; intros l2 Hanti Hp H1 H2.
  - now apply Permutation_nil_l in Hp.
  - destruct l2 as [|b l2]; [now apply Permutation_nil_r in Hp|].
    assert (Hab : a = b).
    { assert (Ha : a ∈ b :: l2) by (rewrite <- Hp; apply list_elem_of_here).
      assert (Hb : b ∈ a :: l1) by (rewrite Hp; apply list_elem_of_here).
      apply elem_of_cons in Ha as [Ha|Ha]; [exact Ha|].
      apply elem_of_cons in Hb as [Hb|Hb]; [now symmetry|].
      apply Hanti; [apply list_elem_of_here|now apply list_elem_of_further|..].
      - pose proof (ordered_head _ _ H1) as F. rewrite Forall_forall in F. now apply F.
      - pose proof (ordered_head _ _ H2) as F. rewrite Forall_forall in F. now apply F. }
    subst b. f_equal. apply IH.
    + intros x y Hx Hy. apply Hanti; now apply list_elem_of_further.
    + now apply Permutation_cons_inv in Hp.
    + now apply ordered_tail in H1.
    + now apply ordered_tail in H2.
Qed.

End Sorting.

Section Orders.

Lemma string_leb_trans (a b c : string) :
  String.leb a b = true -> String.leb b c = true -> String.leb a c = true.
Proof.
  unfold String.leb.
  assert (H : forall a b c,
            String.compare a b <> Gt -> String.compare b c <> Gt ->
            String.compare a c <> Gt).
  { clear. induction a as [|x a IH]; intros [|y b] [|z c]; cbn [String.compare];
      try congruence.
    unfold Ascii.compare.
    destruct (N.compare_spec (N_of_ascii x) (N_of_ascii y)) as [E1|E1|E1];
      destruct (N.compare_spec (N_of_ascii y) (N_of_ascii z)) as [E2|E2|E2];
      destruct (N.compare_spec (N_of_ascii x) (N_of_ascii z)) as [E3|E3|E3];
      try congruence; try lia; eauto. }
  intros H1 H2.
  specialize (H a b c).
  destruct (String.compare a b), (String.compare b c), (String.compare a c);
    try reflexivity; try discriminate; exfalso; apply H; congruence.
Qed.

Lemma bsonLeb_total (a b : Bson) :
  Store.bsonLeb a b = true \/ Store.bsonLeb b a = true.
Proof.
  destruct a, b; cbn; try (left; reflexivity); try (right; reflexivity).
  - rewrite !Z.leb_le. lia.
  - apply String.leb_total.
  - rewrite !Nat.leb_le. lia.
  - rewrite !Z.leb_le. lia.
Qed.

Lemma bsonLeb_trans (a b c : Bson) :
  Store.bsonLeb a b = true -> Store.bsonLeb b c = true -> Store.bsonLeb a c = true.
Proof.
  destruct a, b, c; cbn; try reflexivity; try discriminate;
    rewrite ?Z.leb_le, ?Nat.leb_le; try lia.
  apply string_leb_trans.
Qed.

Lemma bsonLeb_antisym (a b : Bson) :
  Store.bsonLeb a b = true -> Store.bsonLeb b a = true -> a = b.
Proof.
  destruct a, b; cbn; try reflexivity; try discriminate;
    rewrite ?Z.leb_le, ?Nat.leb_le; intros H1 H2; f_equal; try lia.
  now apply String.leb_antisym.
Qed.

Lemma sortLeb_total (s : string * Z) (a b : FileRecord) :
  sortLeb s a b = true \/ sortLeb s b a = true.
Proof. unfold sortLeb. destruct (s.2 =? 1); apply bsonLeb_total. Qed.

Lemma sortLeb_trans (s : string * Z) (a b c : FileRecord) :
  sortLeb s a b = true -> sortLeb s b c = true -> sortLeb s a c = true.
Proof.
  unfold sortLeb. destruct (s.2 =? 1); eauto using bsonLeb_trans.
Qed.

(** Two documents that stand before one another have the same key. *)
Lemma sortLeb_antisym (s : string * Z) (a b : FileRecord) :
  sortLeb s a b = true -> sortLeb s b a = true ->
  Store.fieldValue s.1 a = Store.fieldValue s.1 b.
Proof.
  unfold sortLeb. destruct (s.2 =? 1); intros H1 H2;
    [|symmetry]; now apply bsonLeb_antisym.
Qed.

Lemma sortDocs_sortLeb (s : string * Z) (l : list FileRecord) :
  Store.sortDocs s l = foldr (Store.insertBy (sortLeb s)) [] l.
Proof. destruct s as [path direction]. reflexivity. Qed.

Lemma in_take {A} (x : A) (n : nat) (l : list A) : x ∈ take n l -> x ∈ l.
Proof. intros H. rewrite <- (take_drop n l). apply elem_of_app. now left. Qed.

Lemma in_drop {A} (x : A) (n : nat) (l : list A) : x ∈ drop n l -> x ∈ l.
Proof. intros H. rewrite <- (take_drop n l). apply elem_of_app. now right. Qed.

(** Documents with pairwise different keys are told apart by their keys. *)
Lemma distinct_keys {A B} (f : A -> B) (l : list A) (a b : A) :
  NoDup (f <$> l) -> a ∈ l -> b ∈ l -> f a = f b -> a = b.
Proof.
  induction l as [|x l IH]; intros Hn Ha Hb E; [now apply elem_of_nil in Ha|].
  cbn [fmap list_fmap] in Hn. apply NoDup_cons in Hn as [Hx Hn].
  apply elem_of_cons in Ha as [->|Ha], Hb as [->|Hb]; auto.
  - exfalso. apply Hx. rewrite E. now apply list_elem_of_fmap_2.
  - exfalso. apply Hx. rewrite <- E. now apply list_elem_of_fmap_2.
Qed.

(** With pairwise different keys the sorted arrangement is the one the
    embedding computes, whatever the store does with equal keys. *)
Lemma sorted_is_sortDocs (s : string * Z) (matching all : list FileRecord) :
  NoDup (Store.fieldValue s.1 <$> matching) ->
  all ≡ₚ matching -> ordered (sortLeb s) all = true ->
  all = Store.sortDocs s matching.
Proof.
  intros Hkeys Hp Ho. rewrite sortDocs_sortLeb.
  apply (ordered_unique (sortLeb s)).
  - apply sortLeb_trans.
  - intros a b Ha Hb H1 H2. rewrite Hp in Ha, Hb.
    eapply distinct_keys; eauto using sortLeb_antisym.
  - now rewrite sort_perm.
  - exact Ho.
  - apply sort_ordered, sortLeb_total.
Qed.

End Orders.

(** Whether the dates of a concrete query are calendar dates is settled
    by evaluation too. *)
Ltac plain_dates :=
  split; intros s H; vm_compute in H;
  first [discriminate H | injection H as <-; vm_compute; discriminate].

(** Membership in a concrete directory listing is settled by evaluation. *)
Lemma absent_by_computation (p : string) (X : gset string) :
  bool_decide (p ∈ X) = false -> p ∉ X.
Proof. apply bool_decide_eq_false_1. Qed.

Lemma present_by_computation (p : string) (X : gset string) :
  bool_decide (p ∈ X) = true -> p ∈ X.
Proof. apply bool_decide_eq_true_1. Qed.

(** * The claims *)

(** C8. The file type written by the pre-save middleware is a function of
    the lower-cased extension of the stored file name alone: [.pdf] gives
    PDF, [.doc]/[.docx] DOCX, [.xls]/[.xlsx] XLSX, the six image extensions
    Image and anything else Other.  Two names that differ only in letter
    case get the same type, whatever type the documents carried before, so
    [report.PDF], [report.pdf] and [report.Pdf] are all PDF and [notes.txt]
    is Other. *)
Theorem file_type_from_extension (r r' : FileRecord)
    (Hname : fileName r <> "") (Hname' : fileName r' <> "") :
  let ext := JS.toLowerCase (Path.extname (fileName r)) in
  let t := fileType (Schema.preSave r) in
  (t = PDF <-> ext = ".pdf")
  /\ (t = DOCX <-> ext = ".doc" \/ ext = ".docx")
  /\ (t = XLSX <-> ext = ".xls" \/ ext = ".xlsx")
  /\ (t = Image <->
        ext = ".jpg" \/ ext = ".jpeg" \/ ext = ".png" \/ ext = ".gif"
        \/ ext = ".bmp" \/ ext = ".webp")
  /\ (t = Other <->
        ext <> ".pdf" /\ ext <> ".doc" /\ ext <> ".docx" /\ ext <> ".xls"
        /\ ext <> ".xlsx" /\ ext <> ".jpg" /\ ext <> ".jpeg" /\ ext <> ".png"
        /\ ext <> ".gif" /\ ext <> ".bmp" /\ ext <> ".webp")
  /\ (JS.toLowerCase (fileName r) = JS.toLowerCase (fileName r') ->
        fileType (Schema.preSave r') = t)
  /\ (fileName r = "report.PDF" \/ fileName r = "report.pdf"
      \/ fileName r = "report.Pdf" -> t = PDF)
  /\ (fileName r = "notes.txt" -> t = Other).
Proof.
  intros ext t. subst t ext.
  rewrite (preSave_fileType r Hname), (preSave_fileType r' Hname').
  destruct (fileTypeForExt_table (JS.toLowerCase (Path.extname (fileName r))))
    as (H1 & H2 & H3 & H4 & H5).
  repeat (split; [assumption|]).
  split; [|split].
  - intros Hlow. rewrite <- !extname_toLowerCase. now rewrite Hlow.
  - intros [->|[->| ->]]; reflexivity.
  - intros ->. reflexivity.
Qed.

Lemma file_type_from_extension_witness :
  fileName Sample.record1 <> "" /\ fileName Sample.record3 <> ""
  /\ (fileType (Schema.preSave Sample.record1) = PDF
      <-> JS.toLowerCase (Path.extname (fileName Sample.record1)) = ".pdf").
Proof.
  split; [discriminate|]. split; [discriminate|].
  exact (proj1 (file_type_from_extension Sample.record1 Sample.record3
                  ltac:(discriminate) ltac:(discriminate))).
Defined.

(** C1. An upload either stores both the blob and the row, or neither:
    when the blob was written and the handler then answers 400 (blank
    description) or 500 (the insert failed), the blob has been removed again
    and no row was added; when the blob cannot be written the request is
    answered 400 and nothing changes at all.  The generated name is assumed
    new to the uploads directory and the written file removable. *)
Theorem create_leaves_no_orphan {P : Platform} (user : string) (body : Req.Body)
    (part : Upload.Part) (w : World)
    (Hfresh : Path.join uploadsDir (Upload.filename (now w) part) ∉ disk w)
    (Hremovable : Path.join uploadsDir (Upload.filename (now w) part) ∉ locked w) :
  let dest := Path.join uploadsDir (Upload.filename (now w) part) in
  exists resp w',
    Routes.postFiles user body (Some part) w = (Ok resp, w')
    /\ ((statusOf resp = 201
         /\ (exists r, collection w' = collection w ++ [r] /\ filePath r = dest)
         /\ disk w' = disk w ∪ {[dest]})
        \/ ((statusOf resp = 400 \/ statusOf resp = 500)
            /\ collection w' = collection w /\ disk w' = disk w))
    /\ (Upload.writeFails part = true -> statusOf resp = 400 /\ w' = w)
    /\ (Controller.isBlank (Req.description body) = true -> statusOf resp = 400).
Proof.
  intros dest.
  assert (H400 : forall err, statusOf (Upload.handleMulterError err) = 400).
  { intros [c m|m]; simpl; [destruct (String.eqb c _)|]; reflexivity. }
  unfold Routes.postFiles, Upload.single.
  destruct (JS.truthyStr (Upload.originalname part)); cbn [negb].
  2:{ rewrite createFileRecord_without_file by reflexivity.
      do 2 eexists. split; [reflexivity|]. cbn [statusOf]. auto 10. }
  destruct (Upload.fileFilter part) as [err|].
  { do 2 eexists. split; [reflexivity|]. rewrite H400. auto 10. }
  destruct (Upload.fileSizeLimit <=? Upload.size part).
  { do 2 eexists. split; [reflexivity|]. cbn [statusOf]. auto 10. }
  destruct (Upload.writeFails part) eqn:Hw.
  { do 2 eexists. split; [reflexivity|]. cbn [statusOf]. auto 10. }
  fold dest.
  set (file := Req.mkFile _ _ dest _ _).
  set (w1 := withDisk (disk w ∪ {[dest]}) w).
  destruct (createFileRecord_outcome
              (Req.mkReq 0 body (Some file) user Routes.noQuery) file w1)
    as (resp & w' & Hrun & Hcase & Hblank).
  - reflexivity.
  - subst w1. cbn [disk withDisk]. apply elem_of_union_r, elem_of_singleton_2.
    reflexivity.
  - exact Hremovable.
  - exists resp, w'. split; [exact Hrun|]. split; [|split; [discriminate|exact Hblank]].
    destruct Hcase as [(H201 & Hrow & Hdisk)|(Hfail & Hcol & Hdisk)].
    + left. auto.
    + right. split; [exact Hfail|]. split; [exact Hcol|].
      rewrite Hdisk. subst w1. cbn [disk withDisk Req.path file].
      apply set_eq. intros x.
      rewrite elem_of_difference, elem_of_union, elem_of_singleton.
      split; [intros [[Hx|Hx] Hne]; [exact Hx|contradiction]|].
      intros Hx. split; [left; exact Hx|intros ->; contradiction].
Qed.

Lemma create_leaves_no_orphan_witness :
  let dest := Path.join (@uploadsDir Sample.utc)
                (Upload.filename (now Sample.downWorld) Sample.replacement) in
  (dest ∉ disk Sample.downWorld) /\ (dest ∉ locked Sample.downWorld)
  /\ exists resp w',
       Routes.postFiles (P:=Sample.utc) "admin"
         (Req.mkBody (Some "Second version") None None)
         (Some Sample.replacement) Sample.downWorld = (Ok resp, w')
       /\ ((statusOf resp = 201
            /\ (exists r, collection w' = collection Sample.downWorld ++ [r]
                          /\ filePath r = dest)
            /\ disk w' = disk Sample.downWorld ∪ {[dest]})
           \/ ((statusOf resp = 400 \/ statusOf resp = 500)
               /\ collection w' = collection Sample.downWorld
               /\ disk w' = disk Sample.downWorld))
       /\ (Upload.writeFails Sample.replacement = true -> statusOf resp = 400 /\ w' = Sample.downWorld)
       /\ (Controller.isBlank (Some "Second version") = true -> statusOf resp = 400).
Proof.
  intros dest.
  assert (H1 : dest ∉ disk Sample.downWorld)
    by (apply absent_by_computation; vm_compute; reflexivity).
  assert (H2 : dest ∉ locked Sample.downWorld)
    by (apply absent_by_computation; vm_compute; reflexivity).
  split; [exact H1|]. split; [exact H2|].
  exact (create_leaves_no_orphan (P:=Sample.utc) "admin"
           (Req.mkBody (Some "Second version") None None)
           Sample.replacement Sample.downWorld H1 H2).
Defined.

(** C2. Replacing the file of a record removes the old blob before the
    record is saved.  When the save then fails, here because the description
    sent along is blank after trimming and in a second run because the store
    stops answering, the handler removes the new blob as well and answers
    500: the stored record still names the old path, and no file is there
    any more. *)
Theorem replace_then_failed_save_loses_both_blobs :
  let old := filePath Sample.record1 in
  let new := Path.join (@uploadsDir Sample.utc)
               (Upload.filename (now Sample.world0) Sample.replacement) in
  let blank := Routes.putFile (P:=Sample.utc) 1 "admin"
                 (Req.mkBody (Some "   ") None None)
                 (Some Sample.replacement) Sample.world0 in
  let outage := Routes.putFile (P:=Sample.utc) 1 "admin" Sample.noBody
                  (Some Sample.replacement) Sample.failingWorld in
  (old ∈ disk Sample.world0)
  /\ Store.lookup 1 (collection Sample.world0) = Some Sample.record1
  /\ blank.1 = Ok (Json 500 false (Some "Error updating file record") NoData)
  /\ Store.lookup 1 (collection blank.2) = Some Sample.record1
  /\ (old ∉ disk blank.2) /\ (new ∉ disk blank.2)
  /\ outage.1 = Ok (Json 500 false (Some "Error updating file record") NoData)
  /\ Store.lookup 1 (collection outage.2) = Some Sample.record1
  /\ (old ∉ disk outage.2) /\ (new ∉ disk outage.2).
Proof.
  cbv zeta.
  repeat match goal with
         | |- _ /\ _ => split
         | |- _ ∈ _ => apply present_by_computation
         | |- _ ∉ _ => apply absent_by_computation
         end; vm_compute; reflexivity.
Qed.

(** C3. The export sorts by whatever field name the request carries, while
    the list falls back to [uploadDateTime] for a name outside its four
    accepted fields: with [sortBy=fileSize&sortOrder=asc] the list orders the
    two sample records by upload time and the export by size, the other way
    round. *)
Theorem export_sorts_by_unlisted_field :
  let q := Req.mkQuery None None None None (Some "fileSize") (Some "asc") None None in
  let req := Sample.request 0 Sample.noBody None q in
  Controller.exportQuery (P:=Sample.utc) q = Controller.listQuery (P:=Sample.utc) q
  /\ Controller.listSortOptions q = ("uploadDateTime", 1)
  /\ Controller.exportSortOptions q = ("fileSize", 1)
  /\ (exists pg types,
        (Controller.getFileRecords (P:=Sample.utc) req Sample.world0).1
        = Ok (Json 200 true None
                (Listing [Sample.record1; Sample.record2] pg types)))
  /\ (exists files,
        (Controller.exportToExcel (P:=Sample.utc) req Sample.world0).1
        = Ok (Zip (Appended "records.xlsx"
                     [Controller.addRow 0 Sample.record2;
                      Controller.addRow 1 Sample.record1] :: files))).
Proof.
  cbv zeta. split; [reflexivity|]. split; [reflexivity|]. split; [reflexivity|].
  split.
  - do 2 eexists. vm_compute. reflexivity.
  - eexists. vm_compute. reflexivity.
Qed.

(** C4 (as the code has it). Deleting an existing record while the store
    answers: when the blob is missing the removal is skipped, the row is
    deleted and the answer is 200; when the blob is there and removable,
    blob and row are both gone and the answer is 200; when the blob is there
    and its removal fails, the failure is not swallowed: the answer is 500
    and the row and the blob both stay. *)
Theorem delete_and_blob_removal (req : Req.t) (w : World) (r : FileRecord)
    (Hexists : Store.lookup (Req.id req) (collection w) = Some r)
    (Hup : faultAfter w = None) :
  exists resp w',
    Controller.deleteFileRecord req w = (Ok resp, w')
    /\ (filePath r ∉ disk w ->
          statusOf resp = 200
          /\ Store.lookup (Req.id req) (collection w') = None
          /\ collection w' = filter (fun x => _id x ≠ Req.id req) (collection w)
          /\ disk w' = disk w)
    /\ (filePath r <> "" -> filePath r ∈ disk w -> filePath r ∉ locked w ->
          statusOf resp = 200
          /\ Store.lookup (Req.id req) (collection w') = None
          /\ collection w' = filter (fun x => _id x ≠ Req.id req) (collection w)
          /\ disk w' = disk w ∖ {[filePath r]})
    /\ (filePath r <> "" -> filePath r ∈ disk w -> filePath r ∈ locked w ->
          statusOf resp = 500
          /\ collection w' = collection w
          /\ disk w' = disk w).
Proof.
  destruct (deleteFileRecord_cases req w r Hexists Hup)
    as (resp & w' & Hrun & _ & Hmissing & Hremoved & Hrefused).
  exists resp, w'. split; [exact Hrun|]. split; [|split; [|exact Hrefused]].
  - intros Hout. destruct (Hmissing (or_intror Hout)) as (H1 & H2 & H3).
    repeat split; try assumption. rewrite H2. apply lookup_deleted.
  - intros Hne Hin Hlk. destruct (Hremoved Hne Hin Hlk) as (H1 & H2 & H3).
    repeat split; try assumption. rewrite H2. apply lookup_deleted.
Qed.

Lemma delete_and_blob_removal_witness :
  Store.lookup 2 (collection Sample.brokenWorld) = Some Sample.record2
  /\ faultAfter Sample.brokenWorld = None
  /\ (filePath Sample.record2 ∉ disk Sample.brokenWorld)
  /\ exists resp w',
       Controller.deleteFileRecord
         (Sample.request 2 Sample.noBody None Routes.noQuery) Sample.brokenWorld
       = (Ok resp, w')
       /\ statusOf resp = 200
       /\ Store.lookup 2 (collection w') = None
       /\ disk w' = disk Sample.brokenWorld.
Proof.
  assert (Hout : filePath Sample.record2 ∉ disk Sample.brokenWorld)
    by (apply absent_by_computation; vm_compute; reflexivity).
  split; [reflexivity|]. split; [reflexivity|]. split; [exact Hout|].
  destruct (delete_and_blob_removal
              (Sample.request 2 Sample.noBody None Routes.noQuery)
              Sample.brokenWorld Sample.record2 eq_refl eq_refl)
    as (resp & w' & Hrun & Hmissing & _).
  destruct (Hmissing Hout) as (H1 & H2 & _ & H4).
  exists resp, w'. auto.
Defined.

(** The claim as stated fails: a record exists, the removal of its blob is
    refused, and the deletion is answered 500 with the row still stored. *)
Lemma delete_fails_when_unlink_fails :
  let out := Controller.deleteFileRecord
               (Sample.request 1 Sample.noBody None Routes.noQuery)
               Sample.lockedWorld in
  Store.lookup 1 (collection Sample.lockedWorld) = Some Sample.record1
  /\ out.1 = Ok (Json 500 false (Some "Error deleting file record") NoData)
  /\ Store.lookup 1 (collection out.2) = Some Sample.record1.
Proof. cbv zeta. repeat split; vm_compute; reflexivity. Qed.




Lemma parse_midnight (s : string) (t : Z) :
  JSDate.parse s = Some t -> s <> "" /\ exists day, t = day * JSDate.msPerDay.
Proof.
  destruct s as [|c s]; [discriminate|].
  unfold JSDate.parse. destruct (_ && _); [|discriminate].
  intros [= <-]. split; [discriminate|eauto].
Qed.

(** On a server whose local time is UTC the date filter is what the
    specification says: from midnight of the start date to 23:59:59.999 of
    the end date, both included, and nothing from the next midnight on. *)
Lemma date_filter_inclusive_in_utc {P : Platform} (q : Req.Query) (s e : string)
    (ts te : Z) :
  tzOffset = 0 ->
  Req.startDate q = Some s -> Req.endDate q = Some e ->
  JSDate.parse s = Some ts -> JSDate.parse e = Some te ->
  exists rg,
    q_uploadDateTime (Controller.listQuery q) = Some rg
    /\ forall t, Store.inRange rg t = true <-> ts <= t < te + JSDate.msPerDay.
Proof.
  intros Htz Hs He Hts Hte.
  destruct (parse_midnight _ _ Hts) as [Hs0 _].
  destruct (parse_midnight _ _ Hte) as [He0 [day ->]].
  apply truthyStr_true in Hs0, He0.
  unfold Controller.listQuery. rewrite Hs, He. cbn [JS.truthy from_option id].
  rewrite Hs0, He0. cbn [orb q_uploadDateTime gte lte]. rewrite Hts, Hte, Htz.
  eexists. split; [reflexivity|].
  intros t. unfold Store.inRange, JSDate.setHours. cbn [gte lte].
  rewrite Z.add_0_r, Z.div_mul by (unfold JSDate.msPerDay; lia).
  rewrite andb_true_iff, !Z.leb_le. unfold JSDate.msPerDay. lia.
Qed.

(** C6. On a server whose local time is not UTC the end of the range is
    misplaced: [new Date("2024-01-15")] is midnight UTC, and [setHours]
    moves it to 23:59:59.999 of the local day, which at UTC+05:30 is
    18:29:59.999 UTC.  With [startDate = endDate = 2024-01-15] the filter
    then spans 18.5 hours rather than the day: the record uploaded at
    2024-01-15T23:59:59.999Z is left out, and so is the record uploaded at
    00:30 of 2024-01-15 by the server's own clock ([local t] below prints
    the reading of that clock at [t]; the final letter is the printer's).
    On a server at UTC the same request lists the first of the two. *)
Theorem date_filter_misses_part_of_the_day :
  let q := Req.mkQuery None None (Some "2024-01-15") (Some "2024-01-15")
             None None None None in
  let req := Sample.request 0 Sample.noBody None q in
  let local t := JSDate.toISOString (t + @tzOffset Sample.kolkata * 60000) in
  q_uploadDateTime (Controller.listQuery (P:=Sample.kolkata) q)
  = Some (mkRange (Some (Some 1705276800000)) (Some (Some 1705343399999)))
  /\ JSDate.toISOString 1705276800000 = "2024-01-15T00:00:00.000Z"
  /\ JSDate.toISOString 1705343399999 = "2024-01-15T18:29:59.999Z"
  /\ JSDate.toISOString (uploadDateTime Sample.record1) = "2024-01-15T23:59:59.999Z"
  /\ local (uploadDateTime Sample.record3) = "2024-01-15T00:30:00.000Z"
  /\ (Controller.getFileRecords (P:=Sample.kolkata) req Sample.datedWorld).1
     = Ok (Json 200 true None
             (Listing [] (mkPagination 1 0 0 10 false false) FILE_TYPE_CHOICES))
  /\ (Controller.getFileRecords (P:=Sample.utc) req Sample.datedWorld).1
     = Ok (Json 200 true None
             (Listing [Sample.record1] (mkPagination 1 1 1 10 false false)
                FILE_TYPE_CHOICES)).
Proof. cbv zeta. repeat split; vm_compute; reflexivity. Qed.

(** C7. Whenever the query of the export succeeds, the export answers with
    the archive, whatever is or is not on disk.  The worksheet has one row
    per record, in the order of the records, the row of the record at index
    [i] carrying the sequence number [i + 1]; the archive holds, besides the
    worksheet, exactly one entry for each record whose blob is on disk, read
    from the record's path and named [files/] followed by the sequence
    number padded with zeros to three digits, an underscore, and the base
    name and extension of the original name; a record whose blob is missing
    has no entry; and no two entries share a name. *)
Theorem export_rows_and_entries {P : Platform} (req : Req.t) (w w1 : World)
    (records : list FileRecord)
    (Hfound : Store.find (Controller.exportQuery (Req.query req))
                (Controller.exportSortOptions (Req.query req)) None w
              = (Ok records, w1)) :
  exists rows files,
    Controller.exportToExcel req w
    = (Ok (Zip (Appended "records.xlsx" rows :: files)), w1)
    /\ length rows = length records
    /\ (forall i r, records !! i = Some r ->
          exists row, rows !! i = Some row
            /\ row_id row = (i + 1)%nat
            /\ row_description row = description r
            /\ row_fileName row = originalName r
            /\ row_fileType row = fileTypeName (fileType r))
    /\ (forall e, e ∈ files <->
          exists i r, records !! i = Some r
            /\ filePath r <> "" /\ filePath r ∈ disk w
            /\ e = FromDisk
                     ("files/" +:+ JS.padStart (JS.String_ (i + 1)) 3 "0" +:+ "_"
                      +:+ Path.basename (originalName r) (Path.extname (originalName r))
                      +:+ Path.extname (originalName r))
                     (filePath r))
    /\ NoDup (map entryName (Appended "records.xlsx" rows :: files)).
Proof.
  unfold Controller.exportToExcel. unfoldM. rewrite Hfound.
  apply find_spec in Hfound as ((Hdisk & _) & _).
  destruct (addFiles_spec records 0 w1) as (files & Hrun & Hmem & Hnd).
  rewrite Hrun. exists (imap Controller.addRow records), files.
  split; [reflexivity|]. split; [apply length_imap|].
  split; [|split].
  - intros i r Hi. exists (Controller.addRow i r).
    rewrite list_lookup_imap, Hi. auto.
  - intros e. rewrite Hmem, Hdisk. reflexivity.
  - cbn [map entryName]. constructor; [|exact Hnd].
    intros Hin. apply list_elem_of_fmap in Hin as (e & Hname & He).
    apply Hmem in He as (k & r & _ & _ & _ & ->). discriminate Hname.
Qed.

Lemma export_rows_and_entries_witness :
  let req := Sample.request 0 Sample.noBody None Routes.noQuery in
  Store.find (P:=Sample.utc) (Controller.exportQuery (P:=Sample.utc) (Req.query req))
    (Controller.exportSortOptions (Req.query req)) None Sample.brokenWorld
  = (Ok [Sample.record2; Sample.record1], Sample.brokenWorld)
  /\ exists rows files,
       Controller.exportToExcel (P:=Sample.utc) req Sample.brokenWorld
       = (Ok (Zip (Appended "records.xlsx" rows :: files)), Sample.brokenWorld)
       /\ length rows = 2%nat
       /\ (forall e, e ∈ files <->
             exists i r, [Sample.record2; Sample.record1] !! i = Some r
               /\ filePath r <> "" /\ filePath r ∈ disk Sample.brokenWorld
               /\ e = FromDisk
                        ("files/" +:+ JS.padStart (JS.String_ (i + 1)) 3 "0" +:+ "_"
                         +:+ Path.basename (originalName r) (Path.extname (originalName r))
                         +:+ Path.extname (originalName r))
                        (filePath r))
       /\ NoDup (map entryName (Appended "records.xlsx" rows :: files)).
Proof.
  intros req.
  assert (Hfound :
    Store.find (P:=Sample.utc) (Controller.exportQuery (P:=Sample.utc) (Req.query req))
      (Controller.exportSortOptions (Req.query req)) None Sample.brokenWorld
    = (Ok [Sample.record2; Sample.record1], Sample.brokenWorld))
    by (vm_compute; reflexivity).
  split; [exact Hfound|].
  destruct (export_rows_and_entries (P:=Sample.utc) req Sample.brokenWorld
              Sample.brokenWorld [Sample.record2; Sample.record1] Hfound)
    as (rows & files & H1 & H2 & _ & H4 & H5).
  exists rows, files. auto.
Defined.

(** C9. The update lacks the blank test of the upload.  The upload
    refuses a description of white space with 400 ([isBlank] is the test
    [!description || !description.trim()] of [createFileRecord]); the
    update tests [if (description)] only, takes such a description for a
    value, stores its trimmed form, the empty string, in the document, and
    the save then fails the [required] check of the schema.  The request
    is answered 500 and nothing of it is stored: the reference number that
    the same request cleared with an empty string keeps its value, where
    the request without a description is answered 200 and clears it. *)
Theorem blank_description_fails_the_update :
  let blank := Req.mkBody (Some "   ") None (Some "") in
  let omitted := Req.mkBody None None (Some "") in
  let put (body : Req.Body) :=
    Controller.updateFileRecord (Sample.request 1 body None Routes.noQuery)
      Sample.world0 in
  Store.lookup 1 (collection Sample.world0) = Some Sample.record1
  /\ description Sample.record1 = "Annual report"
  /\ letterReferenceNumber Sample.record1 = Some "REF-001"
  /\ (exists r,
        (put omitted).1
        = Ok (Json 200 true (Some "File record updated successfully") (OneRecord r))
        /\ Store.lookup 1 (collection (put omitted).2) = Some r
        /\ description r = "Annual report"
        /\ letterReferenceNumber r = None)
  /\ Controller.isBlank (Req.description blank) = true
  /\ (Controller.createFileRecord (Sample.request 0 blank None Routes.noQuery)
        Sample.world0).1
     = Ok (Json 400 false (Some "Description is required") NoData)
  /\ (put blank).1
     = Ok (Json 500 false (Some "Error updating file record") NoData)
  /\ Store.lookup 1 (collection (put blank).2) = Some Sample.record1.
Proof.
  cbv zeta. split; [reflexivity|]. split; [reflexivity|]. split; [reflexivity|].
  split.
  { eexists. split; [vm_compute; reflexivity|].
    split; [vm_compute; reflexivity|]. split; reflexivity. }
  repeat split; vm_compute; reflexivity.
Qed.

(** C10. After an upload answered 201 and after an update answered 200,
    with or without a replacement file, the record that is stored has a
    non-empty file name and carries the type that the extension table gives
    for the lower-cased extension of that name; running the pre-save
    middleware on it again changes nothing. *)
Theorem stored_file_type_follows_name (req : Req.t) (w w' : World) (resp : Response)
    (Hrun : Controller.createFileRecord req w = (Ok resp, w') /\ statusOf resp = 201
            \/ Controller.updateFileRecord req w = (Ok resp, w') /\ statusOf resp = 200) :
  exists r,
    (collection w' = collection w ++ [r]
     \/ Store.lookup (Req.id req) (collection w') = Some r)
    /\ (exists status message, resp = Json status true message (OneRecord r))
    /\ fileName r <> ""
    /\ fileType r = Schema.fileTypeForExt (JS.toLowerCase (Path.extname (fileName r)))
    /\ Schema.preSave r = r.
Proof.
  assert (Hfix : forall r, fileName r <> "" ->
            fileType r = Schema.fileTypeForExt (JS.toLowerCase (Path.extname (fileName r))) ->
            Schema.preSave r = r).
  { intros r Hn Ht. unfold Schema.preSave.
    apply truthyStr_true in Hn. rewrite Hn, <- Ht. now destruct r. }
  destruct Hrun as [[Hrun H201]|[Hrun H200]].
  - destruct (createFileRecord_success req w w' resp Hrun H201)
      as (file & r & _ & -> & Hcol & _ & Hne & Ht).
    exists r. split; [left; exact Hcol|]. split; [eauto|]. auto.
  - destruct (updateFileRecord_success req w w' resp Hrun H200)
      as (r0 & r & _ & Hl & -> & _ & _ & _ & Ht & _ & Hne & _).
    exists r. split; [right; exact Hl|]. split; [eauto|]. auto.
Qed.

Lemma stored_file_type_follows_name_witness :
  let req := Sample.request 2 (Req.mkBody (Some " Budget 2024 ") None None) None
               Routes.noQuery in
  let stale := withCollection
                 [Sample.record1; Schema.setFileType Other Sample.record2]
                 Sample.world0 in
  let run := Controller.updateFileRecord req stale in
  let resp := Json 200 true (Some "File record updated successfully")
                (OneRecord
                   (mkFileRecord 2 "Budget 2024" "1700000000001_budget_u2.xlsx"
                      "budget.xlsx" "/app/uploads/1700000000001_budget_u2.xlsx" XLSX
                      1024 "application/vnd.ms-excel" (Some 1704067200000) None
                      "admin" 1705363200000)) in
  (fileType <$> Store.lookup 2 (collection stale)) = Some Other
  /\ run = (Ok resp, run.2)
  /\ statusOf resp = 200
  /\ exists r,
       Store.lookup 2 (collection run.2) = Some r
       /\ fileType r = XLSX
       /\ fileType r = Schema.fileTypeForExt (JS.toLowerCase (Path.extname (fileName r))).
Proof.
  intros req stale run resp.
  assert (Hrun : run = (Ok resp, run.2)).
  { assert (H1 : run.1 = Ok resp) by (vm_compute; reflexivity).
    rewrite <- H1. destruct run; reflexivity. }
  split; [reflexivity|]. split; [exact Hrun|]. split; [reflexivity|].
  destruct (stored_file_type_follows_name req stale run.2 resp
              (or_intror (conj Hrun eq_refl)))
    as (r & [Hcol|Hl] & (status & message & Hresp) & _ & Ht & _).
  - exfalso. apply (f_equal (@length _)) in Hcol. rewrite length_app in Hcol.
    vm_compute in Hcol. discriminate Hcol.
  - exists r. split; [exact Hl|]. split; [|exact Ht].
    injection Hresp as _ _ <-. reflexivity.
Defined.

(** * The rest of the controller, the middlewares and the router *)

(** ** What the steps leave alone *)

Section Inversions.

Lemma bind_inv {A B} (m : M A) (f : A -> M B) (w w' : World) (out : Outcome B) :
  (m ≫= f) w = (out, w') ->
  (exists a w1, m w = (Ok a, w1) /\ f a w1 = (out, w'))
  \/ (exists e, m w = (Throw e, w') /\ out = Throw e).
Proof.
  unfold mbind, M_bind. destruct (m w) as [[a|e] w1]; intros H.
  - left. eauto.
  - right. injection H as <- <-. eauto.
Qed.

Lemma tryCatch_inv {A} (body : M A) (handler : Error -> M A) (w w' : World)
    (out : Outcome A) :
  tryCatch body handler w = (out, w') ->
  (exists a, body w = (Ok a, w') /\ out = Ok a)
  \/ (exists e w1, body w = (Throw e, w1) /\ handler e w1 = (out, w')).
Proof.
  unfold tryCatch. destruct (body w) as [[a|e] w1]; intros H.
  - left. injection H as <- <-. eauto.
  - right. eauto.
Qed.

Lemma mret_inv {A} (a : A) (w w' : World) (out : Outcome A) :
  (mret a : M A) w = (out, w') -> out = Ok a /\ w' = w.
Proof. unfold mret, M_ret. now intros [= <- <-]. Qed.

End Inversions.

Section Preservation.

Variable R : World -> World -> Prop.
Hypothesis R_refl : forall w, R w w.
Hypothesis R_trans : forall w1 w2 w3, R w1 w2 -> R w2 w3 -> R w1 w3.
Hypothesis R_fault :
  forall w n, faultAfter w = Some (S n) -> R w (withFaultAfter (Some n) w).

Lemma preserves_ret {A} (a : A) : preserves R (mret a : M A).
Proof. intros w out w' H. apply mret_inv in H as [_ ->]. apply R_refl. Qed.

Lemma preserves_throw {A} (e : Error) : preserves R (@throw A e).
Proof. intros w out w'. unfold throw. intros [= <- <-]. apply R_refl. Qed.

Lemma preserves_bind {A B} (m : M A) (f : A -> M B) :
  preserves R m -> (forall a, preserves R (f a)) -> preserves R (m ≫= f).
Proof.
  intros Hm Hf w out w' H.
  apply bind_inv in H as [(a & w1 & H1 & H2)|(e & H1 & _)].
  - eapply R_trans; [exact (Hm _ _ _ H1)|exact (Hf a _ _ _ H2)].
  - exact (Hm _ _ _ H1).
Qed.

Lemma preserves_tryCatch {A} (body : M A) (handler : Error -> M A) :
  preserves R body -> (forall e, preserves R (handler e)) ->
  preserves R (tryCatch body handler).
Proof.
  intros Hb Hh w out w' H.
  apply tryCatch_inv in H as [(a & H1 & _)|(e & w1 & H1 & H2)].
  - exact (Hb _ _ _ H1).
  - eapply R_trans; [exact (Hb _ _ _ H1)|exact (Hh e _ _ _ H2)].
Qed.

Lemma preserves_dbOp {A} (f : M A) : preserves R f -> preserves R (Store.dbOp f).
Proof.
  intros Hf w out w'. unfold Store.dbOp.
  destruct (faultAfter w) as [[|n]|] eqn:E.
  - intros [= <- <-]. apply R_refl.
  - intros H. eapply R_trans; [apply (R_fault _ _ E)|exact (Hf _ _ _ H)].
  - apply Hf.
Qed.

Lemma preserves_existsSync (p : string) : preserves R (Fs.existsSync p).
Proof. intros w out w'. unfold Fs.existsSync. intros [= <- <-]. apply R_refl. Qed.

Lemma preserves_findById (id : nat) : preserves R (Store.findById id).
Proof. apply preserves_dbOp. intros w out w' [= <- <-]. apply R_refl. Qed.

Lemma preserves_select {P : Platform} (q : Query) : preserves R (Store.select q).
Proof.
  intros w out w'. unfold Store.select.
  destruct (negb (Store.castable q)); [intros [= <- <-]; apply R_refl|].
  destruct (Store.compile q); intros [= <- <-]; apply R_refl.
Qed.

Lemma preserves_find {P : Platform} (q : Query) (s : string * Z)
    (window : option (Z * Z)) :
  preserves R (Store.find q s window).
Proof.
  unfold Store.find. destruct (String.eqb s.1 ""); [apply preserves_throw|].
  apply preserves_dbOp, preserves_bind; [apply preserves_select|].
  intros docs. destruct window as [[skip limit]|]; [|apply preserves_ret].
  destruct (skip <? 0); [apply preserves_throw|apply preserves_ret].
Qed.

Lemma preserves_countDocuments {P : Platform} (q : Query) :
  preserves R (Store.countDocuments q).
Proof.
  apply preserves_dbOp, preserves_bind; [apply preserves_select|].
  intros docs. apply preserves_ret.
Qed.

Lemma preserves_addFiles (records : list FileRecord) (i : nat) :
  preserves R (Controller.addFiles i records).
Proof.
  revert i. induction records as [|r rest IH]; intros i; [apply preserves_ret|].
  cbn [Controller.addFiles]. apply preserves_bind.
  - destruct (JS.truthyStr _); [apply preserves_existsSync|apply preserves_ret].
  - intros present. apply preserves_bind; [apply IH|].
    intros others. destruct present; apply preserves_ret.
Qed.

(** The handlers that only read. *)
Lemma preserves_getFileRecords {P : Platform} (req : Req.t) :
  preserves R (Controller.getFileRecords req).
Proof.
  apply preserves_tryCatch; [|intros e; apply preserves_ret].
  apply preserves_bind; [apply preserves_find|]. intros records.
  apply preserves_bind; [apply preserves_countDocuments|]. intros n.
  apply preserves_ret.
Qed.

Lemma preserves_exportToExcel {P : Platform} (req : Req.t) :
  preserves R (Controller.exportToExcel req).
Proof.
  apply preserves_tryCatch; [|intros e; apply preserves_ret].
  apply preserves_bind; [apply preserves_find|]. intros records.
  apply preserves_bind; [apply preserves_addFiles|]. intros files.
  apply preserves_ret.
Qed.

Lemma preserves_getFileRecord (req : Req.t) : preserves R (Reads.getFileRecord req).
Proof.
  apply preserves_tryCatch; [|intros e; apply preserves_ret].
  apply preserves_bind; [apply preserves_findById|].
  intros [d|]; apply preserves_ret.
Qed.

Lemma preserves_downloadFile (req : Req.t) : preserves R (Reads.downloadFile req).
Proof.
  apply preserves_tryCatch; [|intros e; apply preserves_ret].
  apply preserves_bind; [apply preserves_findById|].
  intros [d|]; [|apply preserves_ret].
  apply preserves_bind.
  - destruct (JS.truthyStr _); [apply preserves_existsSync|apply preserves_ret].
  - intros []; apply preserves_ret.
Qed.

Lemma preserves_getStats {P : Platform} : preserves R Reads.getStats.
Proof.
  apply preserves_tryCatch; [|intros e; apply preserves_ret].
  apply preserves_bind.
  - apply preserves_dbOp. intros w out w' [= <- <-]. apply R_refl.
  - intros stats. apply preserves_bind; [apply preserves_countDocuments|].
    intros n. apply preserves_ret.
Qed.

End Preservation.

Section Relations.

Lemma untouched_refl w : untouched w w.
Proof. repeat split. Qed.

Lemma untouched_trans w1 w2 w3 : untouched w1 w2 -> untouched w2 w3 -> untouched w1 w3.
Proof.
  intros (A1 & A2 & A3 & A4 & A5 & A6 & A7) (B1 & B2 & B3 & B4 & B5 & B6 & B7).
  repeat split; congruence.
Qed.

Lemma untouched_fault w n :
  faultAfter w = Some (S n) -> untouched w (withFaultAfter (Some n) w).
Proof. repeat split. Qed.

Lemma sameEvents_refl w : sameEvents w w.
Proof. split; reflexivity. Qed.

Lemma sameEvents_trans w1 w2 w3 :
  sameEvents w1 w2 -> sameEvents w2 w3 -> sameEvents w1 w3.
Proof. intros [A1 A2] [B1 B2]. split; congruence. Qed.

Lemma sameEvents_fault w n :
  faultAfter w = Some (S n) -> sameEvents w (withFaultAfter (Some n) w).
Proof. split; reflexivity. Qed.

End Relations.

Section WritePreservation.

Variable R : World -> World -> Prop.
Hypothesis R_refl : forall w, R w w.
Hypothesis R_trans : forall w1 w2 w3, R w1 w2 -> R w2 w3 -> R w1 w3.
Hypothesis R_fault :
  forall w n, faultAfter w = Some (S n) -> R w (withFaultAfter (Some n) w).

(** The document the request is about. *)
Variable target : nat.

Hypothesis R_disk : forall w d, R w (withDisk d w).
Hypothesis R_nextId : forall w n, R w (withNextId n w).
Hypothesis R_emitted : forall w e, R w (withEmitted e w).
Hypothesis R_insert :
  forall w r, _id r = target -> R w (withCollection (collection w ++ [r]) w).
Hypothesis R_replace :
  forall w r, _id r = target ->
    R w (withCollection
           (map (fun x => if (_id x =? _id r)%nat then r else x) (collection w)) w).
Hypothesis R_remove :
  forall w, R w (withCollection (filter (fun r => _id r ≠ target) (collection w)) w).

Lemma preserves_unlinkSync (p : string) : preserves R (Fs.unlinkSync p).
Proof.
  intros w out w'. unfold Fs.unlinkSync.
  destruct (bool_decide (p ∈ disk w)); [|intros [= <- <-]; apply R_refl].
  destruct (bool_decide (p ∈ locked w)); intros [= <- <-];
    [apply R_refl|apply R_disk].
Qed.

Lemma preserves_cleanUp (f : option Req.File) : preserves R (Controller.cleanUp f).
Proof.
  destruct f as [file|]; [|apply (preserves_ret R R_refl)].
  apply (preserves_bind R R_trans); [apply (preserves_existsSync R R_refl)|].
  intros []; [apply preserves_unlinkSync|apply (preserves_ret R R_refl)].
Qed.

Lemma preserves_unlinkUploaded (f : option Req.File) :
  preserves R (Controller.unlinkUploaded f).
Proof.
  destruct f as [file|]; [apply preserves_unlinkSync|apply (preserves_ret R R_refl)].
Qed.

Lemma preserves_unlinkIfExists (p : string) : preserves R (Controller.unlinkIfExists p).
Proof.
  unfold Controller.unlinkIfExists.
  destruct (JS.truthyStr p); [|apply (preserves_ret R R_refl)].
  apply (preserves_bind R R_trans); [apply (preserves_existsSync R R_refl)|].
  intros []; [apply preserves_unlinkSync|apply (preserves_ret R R_refl)].
Qed.

Lemma preserves_emit (e : Event) : preserves R (emit e).
Proof.
  intros w out w'. unfold emit. intros [= <- <-].
  destruct (io w); [apply R_emitted|apply R_refl].
Qed.

Lemma preserves_save (d : Document) :
  _id (fields d) = target -> preserves R (Store.save d).
Proof.
  intros Hid. unfold Store.save.
  destruct (negb (Schema.validate d)); [apply (preserves_throw R R_refl)|].
  assert (Hid' : _id (Schema.preSave (fields d)) = target).
  { destruct (preSave_frame (fields d)) as [-> _]. exact Hid. }
  apply (preserves_dbOp R R_refl R_trans R_fault).
  intros w out w'. destruct (isNew d).
  - intros [= <- <-]. now apply R_insert.
  - destruct (Store.lookup _ _); intros [= <- <-];
      [now apply R_replace|apply R_refl].
Qed.

Lemma preserves_findByIdAndDelete : preserves R (Store.findByIdAndDelete target).
Proof.
  apply (preserves_dbOp R R_refl R_trans R_fault).
  intros w out w' [= <- <-]. apply R_remove.
Qed.

Lemma preserves_deleteFileRecord (req : Req.t) :
  Req.id req = target -> preserves R (Controller.deleteFileRecord req).
Proof.
  intros Hid. unfold Controller.deleteFileRecord. rewrite Hid.
  apply (preserves_tryCatch R R_trans); [|intros e; apply (preserves_ret R R_refl)].
  apply (preserves_bind R R_trans);
    [apply (preserves_findById R R_refl R_trans R_fault)|].
  intros [record|]; [|apply (preserves_ret R R_refl)].
  apply (preserves_bind R R_trans); [apply preserves_unlinkIfExists|]. intros _.
  apply (preserves_bind R R_trans); [apply preserves_findByIdAndDelete|]. intros _.
  apply (preserves_bind R R_trans); [apply preserves_emit|]. intros _.
  apply (preserves_ret R R_refl).
Qed.

(** The fields the handler assigns leave the identifier alone. *)
Lemma file_setters_id (file : Req.File) (d : Document) :
  _id (fields (Schema.setMimeType (Req.mimetype file)
                (Schema.setFileSize (Req.size file)
                  (Schema.setFilePath (Req.path file)
                    (Schema.setOriginalName (Req.originalname file)
                      (Schema.setFileName (Req.filename file) d))))))
  = _id (fields d).
Proof. reflexivity. Qed.

Lemma preserves_updateFileRecord (req : Req.t) :
  Req.id req = target -> preserves R (Controller.updateFileRecord req).
Proof.
  intros Hid. unfold Controller.updateFileRecord.
  apply (preserves_tryCatch R R_trans).
  2:{ intros e. apply (preserves_bind R R_trans); [apply preserves_cleanUp|].
      intros _. apply (preserves_ret R R_refl). }
  intros w out w' H.
  apply bind_inv in H as [(found & w1 & H1 & H2)|(e & H1 & _)].
  2:{ exact (preserves_findById R R_refl R_trans R_fault _ _ _ _ H1). }
  pose proof (preserves_findById R R_refl R_trans R_fault _ _ _ _ H1) as R1.
  eapply R_trans; [exact R1|]. clear R1.
  pose proof (findById_spec (Req.id req) w) as S. rewrite H1 in S.
  destruct S as (-> & _ & _).
  destruct (Store.lookup (Req.id req) (collection w)) as [r0|] eqn:L; cbn [fmap option_fmap option_map] in H2.
  2:{ revert H2. apply (preserves_bind R R_trans); [apply preserves_unlinkUploaded|].
      intros _. apply (preserves_ret R R_refl). }
  apply lookup_id in L.
  destruct (scalar_updates (Req.description (Req.body req)) (Req.fileDate (Req.body req))
              (Req.letterReferenceNumber (Req.body req)) (mkDocument r0 false []))
    as (_ & Hsid & _).
  cbn [fields] in Hsid.
  set (doc := match Req.letterReferenceNumber (Req.body req) with
              | Some _ => _ | None => _ end) in *.
  apply bind_inv in H2 as [(record & w2 & H2 & H3)|(e & H2 & _)].
  2:{ revert H2. destruct (Req.file req); [|apply (preserves_ret R R_refl)].
      apply (preserves_bind R R_trans); [apply preserves_unlinkIfExists|].
      intros _. apply (preserves_ret R R_refl). }
  assert (R w1 w2 /\ _id (fields record) = target) as [R2 Hrid].
  { destruct (Req.file req) as [file|].
    - apply bind_inv in H2 as [(u & w3 & H2 & H4)|(e & _ & [=])].
      apply mret_inv in H4 as [[= ->] ->].
      split; [exact (preserves_unlinkIfExists _ _ _ _ H2)|].
      rewrite file_setters_id. congruence.
    - apply mret_inv in H2 as [[= ->] ->]. split; [apply R_refl|congruence]. }
  eapply R_trans; [exact R2|]. revert H3.
  apply (preserves_bind R R_trans); [now apply preserves_save|]. intros saved.
  apply (preserves_bind R R_trans); [apply preserves_emit|]. intros _.
  apply (preserves_ret R R_refl).
Qed.

(** The same for an update that brings no file; nothing is asked about
    the uploads directory here. *)
Lemma preserves_updateFileRecord_nofile (req : Req.t) :
  Req.id req = target -> Req.file req = None ->
  preserves R (Controller.updateFileRecord req).
Proof.
  intros Hid Hfile. unfold Controller.updateFileRecord. rewrite Hfile.
  apply (preserves_tryCatch R R_trans).
  2:{ intros e. apply (preserves_bind R R_trans); [apply (preserves_ret R R_refl)|].
      intros _. apply (preserves_ret R R_refl). }
  intros w out w' H.
  apply bind_inv in H as [(found & w1 & H1 & H2)|(e & H1 & _)].
  2:{ exact (preserves_findById R R_refl R_trans R_fault _ _ _ _ H1). }
  pose proof (preserves_findById R R_refl R_trans R_fault _ _ _ _ H1) as R1.
  eapply R_trans; [exact R1|]. clear R1.
  pose proof (findById_spec (Req.id req) w) as S. rewrite H1 in S.
  destruct S as (-> & _ & _).
  destruct (Store.lookup (Req.id req) (collection w)) as [r0|] eqn:L;
    cbn [fmap option_fmap option_map] in H2.
  2:{ revert H2. apply (preserves_bind R R_trans); [apply (preserves_ret R R_refl)|].
      intros _. apply (preserves_ret R R_refl). }
  apply lookup_id in L.
  destruct (scalar_updates (Req.description (Req.body req)) (Req.fileDate (Req.body req))
              (Req.letterReferenceNumber (Req.body req)) (mkDocument r0 false []))
    as (_ & Hsid & _).
  cbn [fields] in Hsid.
  apply bind_inv in H2 as [(record & w2 & H2 & H3)|(e & [=] & _)].
  apply mret_inv in H2 as [[= ->] ->].
  revert H3.
  apply (preserves_bind R R_trans); [apply preserves_save; congruence|].
  intros saved.
  apply (preserves_bind R R_trans); [apply preserves_emit|]. intros _.
  apply (preserves_ret R R_refl).
Qed.

Lemma create_id d fn on fp sz mt fd lr ub w doc w1 :
  Store.create d fn on fp sz mt fd lr ub w = (Ok doc, w1) ->
  _id (fields doc) = nextId w /\ w1 = withNextId (S (nextId w)) w.
Proof.
  unfold Store.create. intros [= <- <-]. split; [|reflexivity].
  unfold Schema.setLetterReferenceNumber, Schema.setFileDate.
  destruct fd as [s|]; [destruct (JSDate.parse s)|]; reflexivity.
Qed.

Lemma preserves_createFileRecord (req : Req.t) (w w' : World)
    (out : Outcome Response) :
  nextId w = target ->
  Controller.createFileRecord req w = (out, w') -> R w w'.
Proof.
  intros Hid H.
  assert (Hbody : forall o w1,
    (if Controller.isBlank (Req.description (Req.body req))
     then Controller.unlinkUploaded (Req.file req);;
          mret (Json 400 false (Some "Description is required") NoData)
     else match Req.file req with
          | None => mret (Json 400 false (Some "Please upload a file") NoData)
          | Some file =>
              fileRecord ← Store.create
                (JS.trim (default "" (Req.description (Req.body req))))
                (Req.filename file) (Req.originalname file) (Req.path file)
                (Req.size file) (Req.mimetype file)
                (JS.orNull (Req.fileDate (Req.body req)))
                (JS.orNull (Req.letterReferenceNumber (Req.body req)))
                (Req.user req);
              fileRecord ← Store.save fileRecord;
              emit (FileCreated (fields fileRecord));;
              mret (Json 201 true (Some "File uploaded successfully")
                      (OneRecord (fields fileRecord)))
          end) w = (o, w1) -> R w w1).
  { intros o w1. destruct (Controller.isBlank _).
    - apply (preserves_bind R R_trans); [apply preserves_unlinkUploaded|].
      intros _. apply (preserves_ret R R_refl).
    - destruct (Req.file req) as [file|]; [|apply (preserves_ret R R_refl)].
      intros H1. apply bind_inv in H1 as [(doc & w2 & H1 & H2)|(e & [=] & _)].
      apply create_id in H1 as [Hdoc ->].
      eapply R_trans; [apply R_nextId|].
      eapply (preserves_bind R R_trans); [| |exact H2].
      + apply preserves_save; congruence.
      + intros saved.
        apply (preserves_bind R R_trans); [apply preserves_emit|]. intros _.
        apply (preserves_ret R R_refl). }
  unfold Controller.createFileRecord in H.
  apply tryCatch_inv in H as [(a & H & _)|(e & w1 & H & H')].
  - exact (Hbody _ _ H).
  - eapply R_trans; [exact (Hbody _ _ H)|]. revert H'.
    apply (preserves_bind R R_trans); [apply preserves_cleanUp|].
    intros _. apply (preserves_ret R R_refl).
Qed.

Lemma preserves_postFiles {P : Platform} (user : string) (body : Req.Body)
    (part : option Upload.Part) (w w' : World) (out : Outcome Response) :
  nextId w = target ->
  Routes.postFiles user body part w = (out, w') -> R w w'.
Proof.
  intros Hid. unfold Routes.postFiles.
  destruct (Upload.single part w) as [[err|file] w1] eqn:E.
  - intros [= <- <-]. revert E. unfold Upload.single.
    destruct part as [f|]; [|intros [=]].
    destruct (negb (JS.truthyStr (Upload.originalname f))); [intros [=]|].
    destruct (Upload.fileFilter f); [intros [= <- <-]; apply R_refl|].
    destruct (_ <=? _); [intros [= <- <-]; apply R_refl|].
    destruct (Upload.writeFails f); [intros [= <- <-]; apply R_refl|intros [=]].
  - intros H. assert (R w w1 /\ nextId w1 = nextId w) as [R1 Hn].
    { revert E. unfold Upload.single.
      destruct part as [f|]; [|intros [= <- <-]; split; [apply R_refl|reflexivity]].
      destruct (negb (JS.truthyStr (Upload.originalname f)));
        [intros [= <- <-]; split; [apply R_refl|reflexivity]|].
      destruct (Upload.fileFilter f); [intros [=]|].
      destruct (_ <=? _); [intros [=]|].
      destruct (Upload.writeFails f); [intros [=]|].
      intros [= <- <-]. split; [apply R_disk|reflexivity]. }
    eapply R_trans; [exact R1|].
    eapply preserves_createFileRecord; [|exact H]. congruence.
Qed.

Lemma preserves_putFile {P : Platform} (user : string) (body : Req.Body)
    (part : option Upload.Part) :
  preserves R (Routes.putFile target user body part).
Proof.
  intros w out w'. unfold Routes.putFile.
  destruct (Upload.single part w) as [[err|file] w1] eqn:E.
  - intros [= <- <-]. revert E. unfold Upload.single.
    destruct part as [f|]; [|intros [=]].
    destruct (negb (JS.truthyStr (Upload.originalname f))); [intros [=]|].
    destruct (Upload.fileFilter f); [intros [= <- <-]; apply R_refl|].
    destruct (_ <=? _); [intros [= <- <-]; apply R_refl|].
    destruct (Upload.writeFails f); [intros [= <- <-]; apply R_refl|intros [=]].
  - intros H. assert (R w w1) as R1.
    { revert E. unfold Upload.single.
      destruct part as [f|]; [|intros [= <- <-]; apply R_refl].
      destruct (negb (JS.truthyStr (Upload.originalname f)));
        [intros [= <- <-]; apply R_refl|].
      destruct (Upload.fileFilter f); [intros [=]|].
      destruct (_ <=? _); [intros [=]|].
      destruct (Upload.writeFails f); [intros [=]|].
      intros [= <- <-]. apply R_disk. }
    eapply R_trans; [exact R1|].
    eapply preserves_updateFileRecord; [|exact H]. reflexivity.
Qed.

End WritePreservation.

Section WriteRelations.

Lemma staysUp_refl w : staysUp w w.
Proof. intros H. exact H. Qed.

Lemma staysUp_trans w1 w2 w3 : staysUp w1 w2 -> staysUp w2 w3 -> staysUp w1 w3.
Proof. unfold staysUp. auto. Qed.

Lemma staysUp_fault w n :
  faultAfter w = Some (S n) -> staysUp w (withFaultAfter (Some n) w).
Proof. intros E H. congruence. Qed.

Lemma others_refl t w : others t w w.
Proof. reflexivity. Qed.

Lemma others_trans t w1 w2 w3 : others t w1 w2 -> others t w2 w3 -> others t w1 w3.
Proof. unfold others. congruence. Qed.

Lemma others_insert t w r :
  _id r = t -> others t w (withCollection (collection w ++ [r]) w).
Proof.
  intros Hid. unfold others. cbn [collection withCollection].
  rewrite filter_app, filter_cons_False, filter_nil, app_nil_r; [reflexivity|].
  intros H. now apply H.
Qed.

Lemma others_replace t w r :
  _id r = t ->
  others t w
    (withCollection
       (map (fun x => if (_id x =? _id r)%nat then r else x) (collection w)) w).
Proof.
  intros Hid. unfold others. cbn [collection withCollection].
  induction (collection w) as [|x c IH]; [reflexivity|].
  cbn [map]. destruct (Nat.eqb_spec (_id x) (_id r)) as [E|E].
  - rewrite filter_cons_False by (intros H; apply H; congruence).
    rewrite filter_cons_False by (intros H; apply H; congruence).
    exact IH.
  - rewrite !filter_cons_True by congruence. now rewrite IH.
Qed.

Lemma others_remove t w :
  others t w (withCollection (filter (fun r => _id r ≠ t) (collection w)) w).
Proof.
  unfold others. cbn [collection withCollection].
  induction (collection w) as [|x c IH]; [reflexivity|].
  destruct (decide (_id x = t)) as [E|E].
  - rewrite !filter_cons_False by (intros H; now apply H). exact IH.
  - rewrite (filter_cons_True _ x c) by exact E.
    rewrite !filter_cons_True by exact E. now rewrite IH.
Qed.

End WriteRelations.

Section Runs.

Lemma run_preserves {A} (R : World -> World -> Prop) (m : M A) (w : World) :
  preserves R m -> R w (m w).2.
Proof. intros H. apply (H w (m w).1). now destruct (m w). Qed.

Lemma tryCatch_answers {A} (body : M A) (a : Error -> A) (w : World) :
  exists r, (tryCatch body (fun e => mret (a e)) w).1 = Ok r.
Proof.
  unfold tryCatch. destruct (body w) as [[r|e] w1]; [exists r|exists (a e)]; reflexivity.
Qed.

Lemma sameEvents_disk w d : sameEvents w (withDisk d w).
Proof. split; reflexivity. Qed.

Lemma sameEvents_nextId w n : sameEvents w (withNextId n w).
Proof. split; reflexivity. Qed.

Lemma sameEvents_collection w c : sameEvents w (withCollection c w).
Proof. split; reflexivity. Qed.

Lemma staysUp_disk w d : staysUp w (withDisk d w).
Proof. intros H. exact H. Qed.

Lemma staysUp_nextId w n : staysUp w (withNextId n w).
Proof. intros H. exact H. Qed.

Lemma staysUp_emitted w e : staysUp w (withEmitted e w).
Proof. intros H. exact H. Qed.

Lemma staysUp_collection w c : staysUp w (withCollection c w).
Proof. intros H. exact H. Qed.

Lemma others_disk t w d : others t w (withDisk d w).
Proof. reflexivity. Qed.

Lemma others_nextId t w n : others t w (withNextId n w).
Proof. reflexivity. Qed.

Lemma others_emitted t w e : others t w (withEmitted e w).
Proof. reflexivity. Qed.

Lemma others_fault t w n :
  faultAfter w = Some (S n) -> others t w (withFaultAfter (Some n) w).
Proof. reflexivity. Qed.

Lemma others_lookup t w w' id :
  others t w w' -> id <> t ->
  Store.lookup id (collection w') = Store.lookup id (collection w).
Proof.
  unfold others, Store.lookup. intros H Hid.
  assert (F : forall c, List.find (fun r => (_id r =? id)%nat) c
                        = List.find (fun r => (_id r =? id)%nat)
                            (filter (fun r => _id r ≠ t) c)).
  { induction c as [|x c IH]; [reflexivity|].
    destruct (decide (_id x = t)) as [E|E].
    - rewrite filter_cons_False by (intros N; now apply N).
      cbn [List.find]. destruct (Nat.eqb_spec (_id x) id); [congruence|exact IH].
    - rewrite filter_cons_True by exact E. cbn [List.find].
      destruct (_id x =? id)%nat; [reflexivity|exact IH]. }
  rewrite (F (collection w')), (F (collection w)). now rewrite H.
Qed.

End Runs.

Section Announcements.

Variable owed : Response -> list Event.

Lemma announces_ret (r : Response) (w : World) :
  owed r = [] -> announces owed (mret r) w.
Proof.
  intros H. unfold announces, mret, M_ret. cbn [fst snd]. rewrite H.
  split; [reflexivity|]. destruct (io w); now rewrite app_nil_r.
Qed.

Lemma announces_throw (e : Error) (w : World) : announces owed (throw e) w.
Proof.
  unfold announces, throw. cbn [fst snd]. now rewrite app_nil_r.
Qed.

Lemma announces_emit (e : Event) (r : Response) (w : World) :
  owed r = [e] -> announces owed (emit e;; mret r) w.
Proof.
  intros H. unfold announces, mbind, M_bind, mret, M_ret, emit.
  cbn [fst snd]. rewrite H.
  destruct (io w) eqn:E; cbn [io withEmitted emitted]; rewrite ?E;
    split; try reflexivity.
  now rewrite app_nil_r.
Qed.

Lemma announces_bind {A} (m : M A) (f : A -> M Response) (w : World) :
  preserves sameEvents m -> (forall a w1, announces owed (f a) w1) ->
  announces owed (m ≫= f) w.
Proof.
  intros Hm Hf. unfold announces, mbind, M_bind.
  destruct (m w) as [[a|e] w1] eqn:E.
  - destruct (Hm _ _ _ E) as [He Hio]. destruct (Hf a w1) as [F1 F2].
    rewrite F1, F2, He, Hio. split; reflexivity.
  - destruct (Hm _ _ _ E) as [He Hio]. cbn. rewrite He, Hio, app_nil_r.
    split; reflexivity.
Qed.

Lemma announces_tryCatch (body : M Response) (handler : Error -> M Response)
    (w : World) :
  announces owed body w ->
  (forall e w1, preserves sameEvents (handler e)
                /\ forall r w2, handler e w1 = (Ok r, w2) -> owed r = []) ->
  announces owed (tryCatch body handler) w.
Proof.
  intros [B1 B2] Hh. unfold announces, tryCatch.
  destruct (body w) as [[a|e] w1] eqn:E; cbn [fst snd] in *; [now split|].
  rewrite app_nil_r in B2. destruct (Hh e w1) as [Hq Hr].
  destruct (handler e w1) as [[r|e'] w2] eqn:E2; cbn [fst snd].
  - destruct (Hq _ _ _ E2) as [He Hio]. rewrite (Hr _ _ eq_refl).
    rewrite He, Hio, B1, B2. split; [reflexivity|].
    destruct (io w); now rewrite app_nil_r.
  - destruct (Hq _ _ _ E2) as [He Hio]. rewrite He, Hio, B1, B2, app_nil_r.
    now split.
Qed.

End Announcements.

Create HintDb frames.

#[export] Hint Resolve untouched_refl untouched_trans untouched_fault
  sameEvents_refl sameEvents_trans sameEvents_fault sameEvents_disk
  sameEvents_nextId sameEvents_collection
  staysUp_refl staysUp_trans staysUp_fault staysUp_disk staysUp_nextId
  staysUp_emitted staysUp_collection
  others_refl others_trans others_fault others_disk others_nextId
  others_emitted others_insert others_replace others_remove : frames.

Section Footprints.

Context {P : Platform}.

(** X1. The five handlers that only read always answer and never change
    the uploads directory, the collection, the identifier counter or the
    emitted events. *)
Theorem read_handlers_change_nothing (req : Req.t) (w : World) :
  (untouched w (Controller.getFileRecords req w).2
   /\ exists resp, (Controller.getFileRecords req w).1 = Ok resp)
  /\ (untouched w (Controller.exportToExcel req w).2
      /\ exists resp, (Controller.exportToExcel req w).1 = Ok resp)
  /\ (untouched w (Reads.getFileRecord req w).2
      /\ exists resp, (Reads.getFileRecord req w).1 = Ok resp)
  /\ (untouched w (Reads.downloadFile req w).2
      /\ exists reply, (Reads.downloadFile req w).1 = Ok reply)
  /\ (untouched w (Reads.getStats w).2
      /\ exists reply, (Reads.getStats w).1 = Ok reply).
Proof.
  split; [|split; [|split; [|split]]];
    (split; [apply run_preserves|apply tryCatch_answers]).
  - apply preserves_getFileRecords; eauto with frames.
  - apply preserves_exportToExcel; eauto with frames.
  - apply preserves_getFileRecord; eauto with frames.
  - apply preserves_downloadFile; eauto with frames.
  - apply preserves_getStats; eauto with frames.
Qed.

(** X2. An upload, an update and a deletion leave every other document of
    the collection as it was and where it was: the upload all documents
    but the one with the next identifier, the other two all documents but
    the one the request names.  This holds for every answer, failures
    included. *)
Theorem writes_leave_other_records (user : string) (body : Req.Body)
    (part : option Upload.Part) (req : Req.t) (w : World) :
  others (nextId w) w (Routes.postFiles user body part w).2
  /\ others (Req.id req) w (Routes.putFile (Req.id req) user body part w).2
  /\ others (Req.id req) w (Controller.deleteFileRecord req w).2.
Proof.
  split; [|split].
  - destruct (Routes.postFiles user body part w) as [o w0] eqn:E. cbn [snd].
    eapply (preserves_postFiles (others (nextId w))) with (target := nextId w);
      [..|exact E]; eauto with frames.
  - apply run_preserves.
    apply (preserves_putFile (others (Req.id req))); eauto with frames.
  - apply run_preserves.
    eapply (preserves_deleteFileRecord (others (Req.id req))); eauto with frames.
Qed.

Lemma single_sameEvents (part : option Upload.Part) (w w1 : World)
    (r : Upload.UploadError + option Req.File) :
  Upload.single part w = (r, w1) ->
  sameEvents w w1 /\ staysUp w w1 /\ collection w1 = collection w
  /\ nextId w1 = nextId w /\ locked w1 = locked w /\ now w1 = now w.
Proof.
  unfold Upload.single, staysUp.
  destruct part as [f|]; [|intros [= <- <-]; repeat split; auto].
  destruct (negb (JS.truthyStr (Upload.originalname f)));
    [intros [= <- <-]; repeat split; auto|].
  destruct (Upload.fileFilter f); [intros [= <- <-]; repeat split; auto|].
  destruct (Upload.fileSizeLimit <=? Upload.size f);
    [intros [= <- <-]; repeat split; auto|].
  destruct (Upload.writeFails f); intros [= <- <-]; repeat split; auto.
Qed.

Lemma preserves_create (R : World -> World -> Prop)
    (R_nextId : forall w n, R w (withNextId n w))
    d fn on fp sz mt fd lr ub :
  preserves R (Store.create d fn on fp sz mt fd lr ub).
Proof. intros w out w'. unfold Store.create. intros [= <- <-]. apply R_nextId. Qed.

Lemma announces_createFileRecord (req : Req.t) (w : World) :
  announces createdEvent (Controller.createFileRecord req) w.
Proof.
  unfold Controller.createFileRecord. apply announces_tryCatch.
  - destruct (Controller.isBlank (Req.description (Req.body req))).
    + apply announces_bind; [apply preserves_unlinkUploaded; eauto with frames|].
      intros _ w1. now apply announces_ret.
    + destruct (Req.file req) as [file|]; [|now apply announces_ret].
      apply announces_bind; [apply preserves_create; eauto with frames|].
      intros doc w1.
      apply announces_bind;
        [apply (preserves_save sameEvents) with (target := _id (fields doc));
         eauto with frames|].
      intros saved w2. now apply announces_emit.
  - intros e w1. split.
    + apply preserves_bind; eauto with frames.
      * apply preserves_cleanUp; eauto with frames.
      * intros _. apply preserves_ret; eauto with frames.
    + intros r w2 H. apply bind_inv in H as [(u & w3 & _ & H)|(e' & _ & [=])].
      apply mret_inv in H as [[= ->] _]. reflexivity.
Qed.

Lemma announces_updateFileRecord (req : Req.t) (w : World) :
  announces updatedEvent (Controller.updateFileRecord req) w.
Proof.
  unfold Controller.updateFileRecord. apply announces_tryCatch.
  - apply announces_bind; [apply preserves_findById; eauto with frames|].
    intros [record|] w1.
    2:{ apply announces_bind; [apply preserves_unlinkUploaded; eauto with frames|].
        intros _ w2. now apply announces_ret. }
    apply announces_bind.
    { destruct (Req.file req).
      - apply preserves_bind; eauto with frames.
        + apply preserves_unlinkIfExists; eauto with frames.
        + intros _. apply preserves_ret; eauto with frames.
      - apply preserves_ret; eauto with frames. }
    intros doc w2.
    apply announces_bind;
      [apply (preserves_save sameEvents) with (target := _id (fields doc));
       eauto with frames|].
    intros saved w3. now apply announces_emit.
  - intros e w1. split.
    + apply preserves_bind; eauto with frames.
      * apply preserves_cleanUp; eauto with frames.
      * intros _. apply preserves_ret; eauto with frames.
    + intros r w2 H. apply bind_inv in H as [(u & w3 & _ & H)|(e' & _ & [=])].
      apply mret_inv in H as [[= ->] _]. reflexivity.
Qed.

Lemma announces_deleteFileRecord (req : Req.t) (w : World) :
  announces (deletedEvent (Req.id req)) (Controller.deleteFileRecord req) w.
Proof.
  unfold Controller.deleteFileRecord. apply announces_tryCatch.
  - apply announces_bind; [apply preserves_findById; eauto with frames|].
    intros [record|] w1; [|now apply announces_ret].
    apply announces_bind; [apply preserves_unlinkIfExists; eauto with frames|].
    intros _ w2.
    apply announces_bind;
      [apply (preserves_findByIdAndDelete sameEvents); eauto with frames|].
    intros _ w3. now apply announces_emit.
  - intros e w1. split.
    + apply preserves_ret; eauto with frames.
    + intros r w2 H. apply mret_inv in H as [[= ->] _]. reflexivity.
Qed.

(** X3. The socket events follow the answers: an upload emits one
    [fileCreated] event carrying the stored record exactly when it is
    answered 201, an update one [fileUpdated] event exactly when it is
    answered 200 with the record, a deletion one [fileDeleted] event with
    the request's identifier exactly when it is answered 200; nothing is
    emitted when the socket is absent, and earlier events are kept. *)
Theorem events_follow_answers (user : string) (body : Req.Body)
    (part : option Upload.Part) (req : Req.t) (w : World) :
  announces createdEvent (Routes.postFiles user body part) w
  /\ announces updatedEvent (Routes.putFile (Req.id req) user body part) w
  /\ announces (deletedEvent (Req.id req)) (Controller.deleteFileRecord req) w.
Proof.
  split; [|split; [|apply announces_deleteFileRecord]].
  - unfold announces, Routes.postFiles.
    destruct (Upload.single part w) as [[err|file] w1] eqn:E;
      destruct (single_sameEvents _ _ _ _ E) as ([He Hio] & _).
    + cbn [fst snd]. rewrite He, Hio.
      assert (createdEvent (Upload.handleMulterError err) = []) as ->.
      { destruct err as [code msg|msg]; cbn; [destruct (String.eqb _ _)|];
          reflexivity. }
      split; [reflexivity|]. destruct (io w); now rewrite app_nil_r.
    + destruct (announces_createFileRecord
                  (Req.mkReq 0 body file user Routes.noQuery) w1) as [H1 H2].
      rewrite H1, H2, He, Hio. now split.
  - unfold announces, Routes.putFile.
    destruct (Upload.single part w) as [[err|file] w1] eqn:E;
      destruct (single_sameEvents _ _ _ _ E) as ([He Hio] & _).
    + cbn [fst snd]. rewrite He, Hio.
      assert (updatedEvent (Upload.handleMulterError err) = []) as ->.
      { destruct err as [code msg|msg]; cbn; [destruct (String.eqb _ _)|];
          reflexivity. }
      split; [reflexivity|]. destruct (io w); now rewrite app_nil_r.
    + destruct (announces_updateFileRecord
                  (Req.mkReq (Req.id req) body file user Routes.noQuery) w1)
        as [H1 H2].
      rewrite H1, H2, He, Hio. now split.
Qed.

End Footprints.

Section StoreSteps.

Lemma findById_cases (id : nat) (w : World) :
  (faultAfter w = Some O /\ Store.findById id w = (Throw MongoError, w))
  \/ (faultAfter w <> Some O
      /\ exists w1,
           Store.findById id w
           = (Ok ((fun r => mkDocument r false []) <$> Store.lookup id (collection w)), w1)
           /\ untouched w w1 /\ staysUp w w1).
Proof.
  unfold Store.findById, Store.dbOp, staysUp.
  destruct (faultAfter w) as [[|n]|] eqn:E.
  - left. auto.
  - right. split; [discriminate|]. eexists. split; [reflexivity|].
    split; [repeat split|]. intros [=].
  - right. split; [discriminate|]. exists w. split; [reflexivity|].
    split; [repeat split|]. auto.
Qed.

Lemma withDisk_same (w : World) : withDisk (disk w) w = w.
Proof. now destruct w. Qed.

Lemma unlinkIfExists_ok (p : string) (w w' : World) (u : unit) :
  Controller.unlinkIfExists p w = (Ok u, w') ->
  w' = withDisk (if decide (p = "") then disk w else disk w ∖ {[p]}) w
  /\ (p <> "" -> p ∉ disk w').
Proof.
  unfold Controller.unlinkIfExists, Fs.existsSync, Fs.unlinkSync. unfoldM.
  destruct (decide (p = "")) as [E|E].
  - rewrite (proj2 (truthyStr_false p) E). intros [= _ <-].
    split; [now rewrite withDisk_same|]. intros N. now destruct N.
  - rewrite (proj2 (truthyStr_true p) E).
    destruct (bool_decide (p ∈ disk w)) eqn:D.
    + rewrite D. destruct (bool_decide (p ∈ locked w)); [intros [=]|].
      intros [= _ <-]. split; [reflexivity|]. intros _. world.
      rewrite elem_of_difference, elem_of_singleton. intros [_ N]. now apply N.
    + intros [= _ <-]. apply absent_by_computation in D.
      assert (S : disk w ∖ {[p]} = disk w).
      { apply set_eq. intros x. rewrite elem_of_difference, elem_of_singleton.
        split; [now intros [? _]|]. intros Hx. split; [exact Hx|]. congruence. }
      rewrite S. split; [now rewrite withDisk_same|]. auto.
Qed.

Lemma findByIdAndDelete_ok (id : nat) (w w' : World) (u : unit) :
  Store.findByIdAndDelete id w = (Ok u, w') ->
  collection w' = filter (fun r => _id r ≠ id) (collection w)
  /\ disk w' = disk w /\ locked w' = locked w /\ staysUp w w'.
Proof.
  unfold Store.findByIdAndDelete, Store.dbOp, staysUp.
  destruct (faultAfter w) as [[|n]|] eqn:E; [intros [=]| |];
    intros [= _ <-]; repeat split; auto. intros [=].
Qed.

Lemma create_fields d fn on fp sz mt fd lr ub w doc w1 :
  Store.create d fn on fp sz mt fd lr ub w = (Ok doc, w1) ->
  fields doc
  = mkFileRecord (nextId w) (JS.trim d) (JS.trim fn) (JS.trim on) fp Other sz
      (JS.trim mt) (fd ≫= JSDate.parse) (JS.trim <$> lr) ub (now w)
  /\ isNew doc = true
  /\ (castErrors doc = [] <-> forall s, fd = Some s -> JSDate.parse s <> None)
  /\ w1 = withNextId (S (nextId w)) w.
Proof.
  unfold Store.create. intros [= <- <-].
  unfold Schema.setLetterReferenceNumber, Schema.setFileDate.
  destruct fd as [s|]; [destruct (JSDate.parse s) eqn:E|]; cbn; rewrite ?E;
    (split; [reflexivity|]); (split; [reflexivity|]); (split; [|reflexivity]).
  - split; [|reflexivity]. intros _ s' [= <-]. congruence.
  - split; [discriminate|]. intros H. now destruct (H s eq_refl).
  - split; [|reflexivity]. intros _ s' [=].
Qed.

End StoreSteps.

Section UnknownIdentifiers.

Lemma getFileRecord_unknown (req : Req.t) (w : World) :
  Store.lookup (Req.id req) (collection w) = None ->
  faultAfter w <> Some O ->
  (Reads.getFileRecord req w).1
  = Ok (Json 404 false (Some "File record not found") NoData).
Proof.
  intros Hn Hup. unfold Reads.getFileRecord. unfoldM.
  destruct (findById_cases (Req.id req) w) as [[E _]|(_ & w1 & -> & _)];
    [contradiction|].
  now rewrite Hn.
Qed.

Lemma downloadFile_unknown (req : Req.t) (w : World) :
  Store.lookup (Req.id req) (collection w) = None ->
  faultAfter w <> Some O ->
  (Reads.downloadFile req w).1
  = Ok (Answer (Json 404 false (Some "File record not found") NoData)).
Proof.
  intros Hn Hup. unfold Reads.downloadFile. unfoldM.
  destruct (findById_cases (Req.id req) w) as [[E _]|(_ & w1 & -> & _)];
    [contradiction|].
  now rewrite Hn.
Qed.

Lemma deleteFileRecord_unknown (req : Req.t) (w : World) :
  Store.lookup (Req.id req) (collection w) = None ->
  untouched w (Controller.deleteFileRecord req w).2
  /\ (faultAfter w <> Some O ->
      (Controller.deleteFileRecord req w).1
      = Ok (Json 404 false (Some "File record not found") NoData)).
Proof.
  intros Hn. unfold Controller.deleteFileRecord. unfoldM.
  destruct (findById_cases (Req.id req) w) as [[E ->]|(Hup & w1 & -> & U & _)].
  - split; [apply untouched_refl|]. contradiction.
  - rewrite Hn. split; [exact U|reflexivity].
Qed.

Lemma updateFileRecord_unknown (req : Req.t) (w : World) :
  Store.lookup (Req.id req) (collection w) = None ->
  Req.file req = None ->
  untouched w (Controller.updateFileRecord req w).2
  /\ (faultAfter w <> Some O ->
      (Controller.updateFileRecord req w).1
      = Ok (Json 404 false (Some "File record not found") NoData)).
Proof.
  intros Hn Hf. unfold Controller.updateFileRecord. unfoldM.
  destruct (findById_cases (Req.id req) w) as [[E ->]|(Hup & w1 & -> & U & _)].
  - rewrite Hf. split; [apply untouched_refl|]. contradiction.
  - rewrite Hn, Hf. split; [exact U|reflexivity].
Qed.




Lemma updateFileRecord_refused (req : Req.t) (w : World) :
  Store.lookup (Req.id req) (collection w) = None ->
  Req.file req = None ->
  exists resp w',
    Controller.updateFileRecord req w = (Ok resp, w')
    /\ (resp = Json 404 false (Some "File record not found") NoData
        \/ statusOf resp = 500)
    /\ untouched w w'.
Proof.
  intros Hn Hf. unfold Controller.updateFileRecord. unfoldM.
  destruct (findById_cases (Req.id req) w) as [[E ->]|(_ & w1 & -> & U & _)].
  - rewrite Hf. do 2 eexists. split; [reflexivity|].
    split; [now right|apply untouched_refl].
  - rewrite Hn, Hf. do 2 eexists. split; [reflexivity|]. split; [now left|exact U].
Qed.



End UnknownIdentifiers.

Section Deletion.

Lemma emit_ok (e : Event) (w w' : World) (u : unit) :
  emit e w = (Ok u, w') ->
  disk w' = disk w /\ locked w' = locked w /\ collection w' = collection w
  /\ nextId w' = nextId w /\ now w' = now w /\ faultAfter w' = faultAfter w.
Proof. unfold emit. intros [= _ <-]. destruct (io w); repeat split. Qed.

(** What a deletion answered 200 has done. *)
Lemma deleteFileRecord_success (req : Req.t) (w w' : World) (resp : Response) :
  Controller.deleteFileRecord req w = (Ok resp, w') ->
  statusOf resp = 200 ->
  exists r,
    Store.lookup (Req.id req) (collection w) = Some r
    /\ resp = Json 200 true (Some "File record deleted successfully") NoData
    /\ collection w' = filter (fun x => _id x ≠ Req.id req) (collection w)
    /\ disk w' = (if decide (filePath r = "") then disk w
                  else disk w ∖ {[filePath r]})
    /\ locked w' = locked w
    /\ staysUp w w'.
Proof.
  intros H Hok. unfold Controller.deleteFileRecord in H.
  apply tryCatch_inv in H as [(a & H & [= <-])|(e & w1 & _ & H)].
  2:{ apply mret_inv in H as [[= ->] _]. discriminate Hok. }
  apply bind_inv in H as [(found & w1 & H1 & H)|(e & _ & [=])].
  destruct (findById_cases (Req.id req) w) as [[_ E]|(_ & w1' & E & U & S1)];
    rewrite E in H1; [discriminate H1|]. injection H1 as <- <-.
  destruct (Store.lookup (Req.id req) (collection w)) as [r|] eqn:L;
    cbn [fmap option_fmap option_map] in H.
  2:{ apply mret_inv in H as [[= ->] _]. discriminate Hok. }
  cbn [fields] in H.
  apply bind_inv in H as [(u & w2 & H2 & H)|(e & _ & [=])].
  apply bind_inv in H as [(u3 & w3 & H3 & H)|(e & _ & [=])].
  apply bind_inv in H as [(u4 & w4 & H4 & H)|(e & _ & [=])].
  apply mret_inv in H as [[= ->] ->].
  apply unlinkIfExists_ok in H2 as [-> _].
  apply findByIdAndDelete_ok in H3 as (C3 & D3 & L3 & S3).
  apply emit_ok in H4 as (D4 & L4 & C4 & _ & _ & F4).
  destruct U as (Ud & Ul & Uc & _).
  exists r. split; [reflexivity|]. split; [reflexivity|].
  split; [rewrite C4, C3; world; now rewrite Uc|].
  split; [rewrite D4, D3; world; now rewrite Ud|].
  split; [rewrite L4, L3; world; exact Ul|].
  intros Hup. rewrite F4. apply S3. world. now apply S1.
Qed.

(** X5. A deletion answered 200 is final: the record was there, it is gone
    from the collection, its blob is gone from the uploads directory, and
    as long as the store answers every later read, download or deletion
    of the same identifier is answered 404. *)
Theorem delete_is_terminal (req later : Req.t) (w w' : World) (resp : Response)
    (Hrun : Controller.deleteFileRecord req w = (Ok resp, w'))
    (Hok : statusOf resp = 200)
    (Hsame : Req.id later = Req.id req) :
  let notFound := Json 404 false (Some "File record not found") NoData in
  exists r,
    Store.lookup (Req.id req) (collection w) = Some r
    /\ Store.lookup (Req.id req) (collection w') = None
    /\ (filePath r <> "" -> filePath r ∉ disk w')
    /\ (forall p, p <> filePath r -> p ∈ disk w' <-> p ∈ disk w)
    /\ (faultAfter w = None -> faultAfter w' = None)
    /\ (faultAfter w' <> Some O ->
        (Reads.getFileRecord later w').1 = Ok notFound
        /\ (Reads.downloadFile later w').1 = Ok (Answer notFound)
        /\ (Controller.deleteFileRecord later w').1 = Ok notFound).
Proof.
  intros notFound.
  destruct (deleteFileRecord_success req w w' resp Hrun Hok)
    as (r & L & _ & C & D & _ & S).
  assert (Hgone : Store.lookup (Req.id later) (collection w') = None).
  { rewrite Hsame, C. apply lookup_deleted. }
  exists r. split; [exact L|]. split; [now rewrite <- Hsame|].
  split; [|split; [|split; [exact S|]]].
  - intros Hp. rewrite D. destruct (decide (filePath r = "")); [contradiction|].
    rewrite elem_of_difference, elem_of_singleton. intros [_ N]. now apply N.
  - intros p Hp. rewrite D. destruct (decide (filePath r = "")); [reflexivity|].
    rewrite elem_of_difference, elem_of_singleton. tauto.
  - intros Hup. split; [now apply getFileRecord_unknown|].
    split; [now apply downloadFile_unknown|].
    now apply deleteFileRecord_unknown.
Qed.

Lemma delete_is_terminal_witness :
  let req := Sample.request 1 Sample.noBody None Routes.noQuery in
  let run := Controller.deleteFileRecord req Sample.world0 in
  let resp := Json 200 true (Some "File record deleted successfully") NoData in
  run = (Ok resp, run.2)
  /\ statusOf resp = 200
  /\ Store.lookup 1 (collection run.2) = None
  /\ (filePath Sample.record1 ∉ disk run.2)
  /\ (Reads.downloadFile req run.2).1
     = Ok (Answer (Json 404 false (Some "File record not found") NoData)).
Proof.
  intros req run resp.
  assert (Hrun : run = (Ok resp, run.2)).
  { assert (H1 : run.1 = Ok resp) by (vm_compute; reflexivity).
    rewrite <- H1. destruct run; reflexivity. }
  split; [exact Hrun|]. split; [reflexivity|].
  destruct (delete_is_terminal req req Sample.world0 run.2 resp Hrun eq_refl eq_refl)
    as (r & L & G & B & _ & _ & H).
  injection L as <-.
  split; [exact G|]. split; [apply B; discriminate|].
  apply H. vm_compute. discriminate.
Defined.

End Deletion.

Section Downloads.

(** X6. The download handler sends a file exactly when the store answers,
    the record exists, its path is not empty and the blob is on disk; what
    it sends is the record's blob under the record's original name. *)
Theorem download_needs_record_and_blob (req : Req.t) (w : World)
    (path name : string) :
  (Reads.downloadFile req w).1 = Ok (Download path name)
  <-> faultAfter w <> Some O
      /\ exists r, Store.lookup (Req.id req) (collection w) = Some r
                   /\ path = filePath r /\ name = originalName r
                   /\ path <> "" /\ path ∈ disk w.
Proof.
  unfold Reads.downloadFile. unfoldM.
  destruct (findById_cases (Req.id req) w) as [[E ->]|(Hup & w1 & -> & U & _)].
  { split; [intros [=]|]. intros [N _]. contradiction. }
  destruct U as (Ud & _).
  destruct (Store.lookup (Req.id req) (collection w)) as [r|];
    cbn [fmap option_fmap option_map fields].
  2:{ split; [intros [=]|]. intros (_ & r & [=] & _). }
  unfold Fs.existsSync.
  destruct (JS.truthyStr (filePath r)) eqn:T.
  - apply truthyStr_true in T. rewrite Ud.
    destruct (bool_decide (filePath r ∈ disk w)) eqn:D; cbn [negb fst].
    + apply present_by_computation in D. split.
      * intros [= <- <-]. split; [exact Hup|]. exists r. auto.
      * intros (_ & r' & [= <-] & -> & -> & _). reflexivity.
    + apply absent_by_computation in D. split; [intros [=]|].
      intros (_ & r' & [= <-] & -> & _ & _ & Hin). contradiction.
  - apply truthyStr_false in T. cbn [negb fst]. split; [intros [=]|].
    intros (_ & r' & [= <-] & -> & _ & N & _). contradiction.
Qed.

End Downloads.

Section UploadMiddleware.

Lemma handleMulterError_status (err : Upload.UploadError) :
  exists msg, Upload.handleMulterError err = Json 400 false (Some msg) NoData.
Proof.
  destruct err as [code msg|msg]; cbn; [destruct (String.eqb _ _)|]; eauto.
Qed.

(** What [upload.single] hands on when it does not pass an error. *)
Lemma single_accepts {P : Platform} (part : option Upload.Part) (w w1 : World)
    (file : option Req.File) :
  Upload.single part w = (inr file, w1) ->
  (file = None /\ w1 = w
   /\ (part = None \/ exists f, part = Some f /\ Upload.originalname f = ""))
  \/ (exists f,
        part = Some f
        /\ Upload.originalname f <> ""
        /\ JS.includes Upload.allowedMimeTypes (Upload.mimetype f) = true
        /\ Upload.size f < Upload.fileSizeLimit
        /\ Upload.writeFails f = false
        /\ file = Some (Req.mkFile (Upload.filename (now w) f) (Upload.originalname f)
                          (Path.join uploadsDir (Upload.filename (now w) f))
                          (Upload.size f) (Upload.mimetype f))
        /\ w1 = withDisk
                  (disk w ∪ {[Path.join uploadsDir (Upload.filename (now w) f)]}) w).
Proof.
  unfold Upload.single, Upload.fileFilter.
  destruct part as [f|]; [|intros [= <- <-]; left; auto].
  destruct (JS.truthyStr (Upload.originalname f)) eqn:N; cbn [negb].
  2:{ intros [= <- <-]. left. split; [reflexivity|]. split; [reflexivity|].
      right. exists f. split; [reflexivity|]. now apply truthyStr_false. }
  destruct (JS.includes Upload.allowedMimeTypes (Upload.mimetype f)) eqn:E;
    [|intros [=]].
  destruct (Z.leb_spec Upload.fileSizeLimit (Upload.size f)); [intros [=]|].
  destruct (Upload.writeFails f) eqn:F; [intros [=]|].
  intros [= <- <-]. right. exists f.
  split; [reflexivity|]. split; [now apply truthyStr_true|].
  split; [exact E|]. split; [assumption|].
  split; [exact F|]. split; reflexivity.
Qed.

(** A part that names no file is no file. *)
Lemma single_unnamed {P : Platform} (part : option Upload.Part) (w : World) :
  match part with Some f => Upload.originalname f = "" | None => True end ->
  Upload.single part w = (inr None, w).
Proof.
  destruct part as [f|]; [|reflexivity]. intros H. unfold Upload.single.
  now rewrite (proj2 (truthyStr_false _) H).
Qed.



(** X8. An upload request without a file, be it that the form carries no
    file part or that the part names no file, stores nothing and changes
    nothing: it is answered 400, with "Description is required" when the
    description is missing or blank and "Please upload a file" otherwise.
    The description is taken in the ASCII range, where the blank test of
    the embedding is the one of the runtime. *)
Theorem post_without_file_part {P : Platform} (user : string) (body : Req.Body)
    (part : option Upload.Part) (w : World)
    (Hnofile : match part with
               | Some f => Upload.originalname f = ""
               | None => True
               end)
    (Hascii : JS.isAsciiOpt (Req.description body) = true) :
  Routes.postFiles user body part w
  = (Ok (Json 400 false
           (Some (if Controller.isBlank (Req.description body)
                  then "Description is required" else "Please upload a file"))
           NoData), w).
Proof.
  unfold Routes.postFiles. rewrite (single_unnamed part w Hnofile).
  now rewrite createFileRecord_without_file.
Qed.

Lemma post_without_file_part_witness :
  let body := Req.mkBody (Some "  ") None None in
  let part := Upload.mkPart "" "application/octet-stream" 0 "51aa" false in
  Upload.originalname part = ""
  /\ JS.isAsciiOpt (Req.description body) = true
  /\ Routes.postFiles (P:=Sample.utc) "admin" body (Some part) Sample.world0
     = (Ok (Json 400 false (Some "Description is required") NoData), Sample.world0).
Proof.
  intros body part. split; [reflexivity|]. split; [reflexivity|].
  exact (post_without_file_part (P:=Sample.utc) "admin" body (Some part) Sample.world0
           eq_refl eq_refl).
Defined.

End UploadMiddleware.

Section Validation.

Lemma validate_spec (d : Document) :
  Schema.validate d = true
  <-> castErrors d = []
      /\ description (fields d) <> ""
      /\ (String.length (description (fields d)) <= 2000)%nat
      /\ fileName (fields d) <> ""
      /\ originalName (fields d) <> ""
      /\ filePath (fields d) <> ""
      /\ (forall s, letterReferenceNumber (fields d) = Some s ->
            (String.length s <= 255)%nat).
Proof.
  unfold Schema.validate. destruct (castErrors d) as [|c cs].
  2:{ split; [discriminate|]. intros [[=] _]. }
  rewrite !andb_true_iff, !truthyStr_true, Nat.leb_le.
  destruct (letterReferenceNumber (fields d)) as [s|].
  - rewrite Nat.leb_le. split.
    + intros (((((A & B) & C) & D) & E) & F). repeat split; auto.
      intros s' [= <-]. exact F.
    + intros (_ & A & B & C & D & E & F). repeat split; auto.
  - split.
    + intros (((((A & B) & C) & D) & E) & _). repeat split; auto. intros s' [=].
    + intros (_ & A & B & C & D & E & F). repeat split; auto.
Qed.

Lemma save_invalid (d : Document) (w : World) :
  Schema.validate d = false -> Store.save d w = (Throw ValidationError, w).
Proof. intros H. unfold Store.save. now rewrite H. Qed.

End Validation.

Section Uploads.

(** What an upload answered 201 went through. *)
Lemma createFileRecord_created (req : Req.t) (w w' : World) (resp : Response) :
  Controller.createFileRecord req w = (Ok resp, w') ->
  statusOf resp = 201 ->
  exists file doc,
    Req.file req = Some file
    /\ Controller.isBlank (Req.description (Req.body req)) = false
    /\ Store.create (JS.trim (default "" (Req.description (Req.body req))))
         (Req.filename file) (Req.originalname file) (Req.path file)
         (Req.size file) (Req.mimetype file)
         (JS.orNull (Req.fileDate (Req.body req)))
         (JS.orNull (Req.letterReferenceNumber (Req.body req)))
         (Req.user req) w
       = (Ok doc, withNextId (S (nextId w)) w)
    /\ Schema.validate doc = true
    /\ resp = Json 201 true (Some "File uploaded successfully")
                (OneRecord (Schema.preSave (fields doc)))
    /\ collection w' = collection w ++ [Schema.preSave (fields doc)]
    /\ disk w' = disk w /\ locked w' = locked w.
Proof.
  intros H Hok. unfold Controller.createFileRecord in H.
  apply tryCatch_inv in H as [(a & H & [= <-])|(e & w1 & _ & H)].
  2:{ apply bind_inv in H as [(u & w2 & _ & H)|(e' & _ & [=])].
      apply mret_inv in H as [[= ->] _]. discriminate Hok. }
  destruct (Controller.isBlank (Req.description (Req.body req))) eqn:B.
  { apply bind_inv in H as [(u & w2 & _ & H)|(e' & _ & [=])].
    apply mret_inv in H as [[= ->] _]. discriminate Hok. }
  destruct (Req.file req) as [file|].
  2:{ apply mret_inv in H as [[= ->] _]. discriminate Hok. }
  apply bind_inv in H as [(doc & w1 & Hc & H)|(e' & _ & [=])].
  pose proof (create_fields _ _ _ _ _ _ _ _ _ _ _ _ Hc) as (_ & Hnew & _ & ->).
  apply bind_inv in H as [(saved & w2 & Hs & H)|(e' & _ & [=])].
  pose proof (save_spec doc (withNextId (S (nextId w)) w)) as S. rewrite Hs in S.
  destruct S as (Hv & -> & Sd & Sl & _ & Sc). rewrite Hnew in Sc.
  apply bind_inv in H as [(u & w3 & He & H)|(e' & _ & [=])].
  apply emit_ok in He as (Ed & El & Ec & _).
  apply mret_inv in H as [[= ->] ->].
  exists file, doc. cbn [fields] in *.
  split; [reflexivity|]. split; [reflexivity|]. split; [exact Hc|].
  split; [exact Hv|]. split; [reflexivity|].
  split; [now rewrite Ec, Sc|]. split; [now rewrite Ed, Sd|now rewrite El, Sl].
Qed.

(** X9. What an upload answered 201 has stored: a file part that names
    a file was sent and passed the MIME filter, the description is not
    blank, and the record appended to the collection carries the next
    identifier, the trimmed description, the file name generated at some
    reading of the clock, the part's original name, size and MIME type,
    the path of the blob that is now in the uploads directory, the
    uploader, the time of the request, the parsed file date and the
    trimmed reference number, within the schema's length limits.  The text
    of the form and the name of the
    file are taken in the ASCII range and the file date, when given, as a
    calendar date, where the embedding is exact ([plainBody],
    [plainPart]). *)
Theorem created_record_fields {P : Platform} (user : string) (body : Req.Body)
    (part : option Upload.Part) (w w' : World) (resp : Response)
    (Hrun : Routes.postFiles user body part w = (Ok resp, w'))
    (Hok : statusOf resp = 201)
    (Hbody : plainBody body)
    (Hpart : plainPart part) :
  exists f r,
    part = Some f
    /\ Upload.originalname f <> ""
    /\ resp = Json 201 true (Some "File uploaded successfully") (OneRecord r)
    /\ collection w' = collection w ++ [r]
    /\ disk w' = disk w ∪ {[filePath r]}
    /\ JS.includes Upload.allowedMimeTypes (Upload.mimetype f) = true
    /\ Controller.isBlank (Req.description body) = false
    /\ _id r = nextId w
    /\ description r = JS.trim (default "" (Req.description body))
    /\ description r <> ""
    /\ (String.length (description r) <= 2000)%nat
    /\ (exists time,
          fileName r = JS.trim (Upload.filename time f)
          /\ filePath r = Path.join uploadsDir (Upload.filename time f))
    /\ originalName r = JS.trim (Upload.originalname f)
    /\ fileSize r = Upload.size f
    /\ mimeType r = JS.trim (Upload.mimetype f)
    /\ fileDate r = (JS.orNull (Req.fileDate body) ≫= JSDate.parse)
    /\ letterReferenceNumber r = (JS.trim <$> JS.orNull (Req.letterReferenceNumber body))
    /\ (forall s, letterReferenceNumber r = Some s -> (String.length s <= 255)%nat)
    /\ uploadedBy r = user
    /\ uploadDateTime r = now w.
Proof.
  unfold Routes.postFiles in Hrun.
  destruct (Upload.single part w) as [[err|file] w1] eqn:E.
  { injection Hrun as <- <-.
    destruct (handleMulterError_status err) as (msg & Hm). rewrite Hm in Hok.
    discriminate Hok. }
  destruct (createFileRecord_created _ _ _ _ Hrun Hok)
    as (file' & doc & Hf & Hb & Hc & Hv & -> & Hcol & Hd & _).
  cbn [Req.file Req.body Req.user] in *. subst file.
  apply single_accepts in E as [([=] & _)|(f & -> & Hn & Hm & _ & _ & [= ->] & ->)].
  cbn [Req.filename Req.originalname Req.path Req.size Req.mimetype] in Hc.
  apply create_fields in Hc as (Hfields & _ & _ & _).
  apply validate_spec in Hv as (_ & V1 & V2 & _ & _ & _ & V3).
  destruct (preSave_frame (fields doc))
    as (F1 & F2 & F3 & F4 & F5 & F6 & F7 & F8 & F9 & F10 & F11).
  rewrite Hfields in V1, V2, V3. cbn [description letterReferenceNumber] in V1, V2, V3.
  rewrite trim_idem in V1, V2.
  set (r := Schema.preSave (fields doc)) in *.
  rewrite Hfields in F1, F2, F3, F4, F5, F6, F7, F8, F9, F10, F11.
  cbn [_id description fileName originalName filePath fileSize mimeType fileDate
       letterReferenceNumber uploadedBy uploadDateTime] in *.
  rewrite trim_idem in F2. world.
  exists f, r.
  rewrite F1, F2, F3, F4, F5, F6, F7, F8, F9, F10, F11.
  split; [reflexivity|]. split; [exact Hn|]. split; [reflexivity|].
  split; [exact Hcol|]. split; [exact Hd|].
  split; [exact Hm|]. split; [exact Hb|].
  split; [reflexivity|]. split; [reflexivity|]. split; [exact V1|].
  split; [exact V2|]. split; [exists (now w); split; reflexivity|].
  repeat split; auto.
Qed.

Lemma created_record_fields_witness :
  let body := Req.mkBody (Some "  Second version ") (Some "2024-02-29") (Some " REF-7 ") in
  let run := Routes.postFiles (P:=Sample.utc) "admin" body (Some Sample.replacement)
               Sample.world0 in
  plainBody body /\ plainPart (Some Sample.replacement)
  /\ exists r,
       run = (Ok (Json 201 true (Some "File uploaded successfully") (OneRecord r)), run.2)
       /\ collection run.2 = collection Sample.world0 ++ [r]
       /\ description r = "Second version"
       /\ letterReferenceNumber r = Some "REF-7"
       /\ originalName r = "report-v2.pdf"
       /\ fileDate r = Some 1709164800000
       /\ _id r = 3%nat.
Proof.
  intros body run.
  assert (Hb : plainBody body).
  { split; [reflexivity|]. split; [reflexivity|].
    intros s [= <-]. vm_compute. discriminate. }
  assert (Hp : plainPart (Some Sample.replacement)) by reflexivity.
  split; [exact Hb|]. split; [exact Hp|].
  assert (Hout : exists r, run.1 = Ok (Json 201 true (Some "File uploaded successfully")
                                         (OneRecord r))).
  { eexists. vm_compute. reflexivity. }
  destruct Hout as (r0 & Hout).
  assert (Hrun : run = (Ok (Json 201 true (Some "File uploaded successfully")
                             (OneRecord r0)), run.2)).
  { rewrite <- Hout. destruct run; reflexivity. }
  destruct (created_record_fields (P:=Sample.utc) "admin" body (Some Sample.replacement)
              Sample.world0 run.2 _ Hrun eq_refl Hb Hp)
    as (f & r & [= <-] & _ & [= <-] & Hc & _ & _ & _ & Hid & Hd & _ & _ & _ & Ho
        & _ & _ & Hfd & Hl & _).
  exists r0. split; [exact Hrun|]. split; [exact Hc|].
  split; [rewrite Hd; vm_compute; reflexivity|].
  split; [rewrite Hl; vm_compute; reflexivity|].
  split; [rewrite Ho; vm_compute; reflexivity|].
  split; [rewrite Hfd; vm_compute; reflexivity|].
  rewrite Hid. reflexivity.
Defined.

End Uploads.

Section Rejections.

Lemma validate_too_long (d : Document) :
  (2000 < String.length (description (fields d)))%nat
  \/ (exists s, letterReferenceNumber (fields d) = Some s
                /\ (255 < String.length s)%nat) ->
  Schema.validate d = false.
Proof.
  intros H. destruct (Schema.validate d) eqn:V; [|reflexivity].
  apply validate_spec in V as (_ & _ & V1 & _ & _ & _ & V2).
  destruct H as [H|(s & Hs & H)]; [lia|]. specialize (V2 s Hs). lia.
Qed.

Lemma difference_absent (X : gset string) (p : string) : p ∉ X -> X ∖ {[p]} = X.
Proof.
  intros H. apply set_eq. intros x. rewrite elem_of_difference, elem_of_singleton.
  split; [now intros [? _]|]. intros Hx. split; [exact Hx|]. congruence.
Qed.

Lemma union_difference_fresh (X : gset string) (p : string) :
  p ∉ X -> (X ∪ {[p]}) ∖ {[p]} = X.
Proof.
  intros H. apply set_eq. intros x.
  rewrite elem_of_difference, elem_of_union, elem_of_singleton.
  split; [intros [[?|?] ?]; [assumption|contradiction]|].
  intros Hx. split; [now left|]. congruence.
Qed.

(** The clean-up of the catch blocks on a file that may be removed. *)
Lemma cleanUp_free (file : Req.File) (w : World) :
  Req.path file ∉ locked w ->
  Controller.cleanUp (Some file) w
  = (Ok tt, withDisk (disk w ∖ {[Req.path file]}) w).
Proof.
  intros Hfree. destruct (decide (Req.path file ∈ disk w)) as [Hin|Hout].
  - now apply cleanUp_removes.
  - rewrite (cleanUp_nothing _ _ Hout), (difference_absent _ _ Hout).
    now rewrite withDisk_same.
Qed.

(** X10. A description longer than 2000 characters after trimming, or a
    reference number longer than 255, is refused by the schema when the
    document is saved, and the handlers answer that with 500, not with
    400: the upload removes the blob it was given and stores nothing, the
    update without a file leaves the record as it was.  Description and
    reference number are taken in the ASCII range, where the characters
    the schema counts are the characters of the embedding. *)
Theorem schema_rejection_is_answered_500 (id : nat) (user : string)
    (body : Req.Body) (file : Req.File) (r0 : FileRecord) (w : World)
    (Hascii : JS.isAsciiOpt (Req.description body) = true
              /\ JS.isAsciiOpt (Req.letterReferenceNumber body) = true)
    (Hnotblank : Controller.isBlank (Req.description body) = false)
    (Hlong : (2000 < String.length (JS.trim (default "" (Req.description body))))%nat
             \/ exists s, Req.letterReferenceNumber body = Some s
                          /\ (255 < String.length (JS.trim s))%nat)
    (Hfree : Req.path file ∉ locked w)
    (Hexists : Store.lookup id (collection w) = Some r0) :
  (exists w',
     Controller.createFileRecord (Req.mkReq 0 body (Some file) user Routes.noQuery) w
     = (Ok (Json 500 false (Some "Error uploading file") NoData), w')
     /\ collection w' = collection w
     /\ disk w' = disk w ∖ {[Req.path file]}
     /\ emitted w' = emitted w)
  /\ (exists w',
        Controller.updateFileRecord (Req.mkReq id body None user Routes.noQuery) w
        = (Ok (Json 500 false (Some "Error updating file record") NoData), w')
        /\ untouched w w').
Proof.
  assert (Hlr : forall s, Req.letterReferenceNumber body = Some s ->
                  (255 < String.length (JS.trim s))%nat ->
                  s <> "" /\ JS.orNull (Req.letterReferenceNumber body) = Some s).
  { intros s Hs Hl. assert (s <> "") as Hne.
    { intros ->. cbn in Hl. lia. }
    split; [exact Hne|]. rewrite Hs. cbn.
    now rewrite (proj2 (truthyStr_true s) Hne). }
  split.
  - unfold Controller.createFileRecord. unfoldM.
    cbn [Req.body Req.file Req.user]. rewrite Hnotblank.
    destruct (Store.create _ _ _ _ _ _ _ _ _ w) as [[doc|e] w1] eqn:Hc;
      [|discriminate Hc].
    apply create_fields in Hc as (Hfields & _ & _ & ->).
    rewrite save_invalid.
    2:{ apply validate_too_long. rewrite Hfields.
        cbn [description letterReferenceNumber]. rewrite trim_idem.
        destruct Hlong as [H|(s & Hs & H)]; [now left|right].
        destruct (Hlr s Hs H) as [_ ->]. exists (JS.trim s). split; [reflexivity|exact H]. }
    rewrite cleanUp_free by exact Hfree.
    eexists. split; [reflexivity|]. repeat split.
  - unfold Controller.updateFileRecord. unfoldM.
    cbn [Req.body Req.file Req.user Req.id].
    destruct (findById_cases id w) as [[_ ->]|(_ & w1 & -> & U & _)].
    { eexists. split; [reflexivity|]. apply untouched_refl. }
    rewrite Hexists. cbn [fmap option_fmap option_map].
    pose proof (scalar_updates (Req.description body) (Req.fileDate body)
                  (Req.letterReferenceNumber body) (mkDocument r0 false [])) as S.
    cbv zeta in S. destruct S as (_ & _ & _ & _ & _ & _ & _ & _ & _ & _ & Sd & _ & _ & _ & _ & Sl).
    rewrite save_invalid.
    2:{ apply validate_too_long.
        assert (JS.truthy (Req.description body) = true) as T.
        { unfold Controller.isBlank in Hnotblank.
          apply orb_false_iff in Hnotblank as [H _]. now apply negb_false_iff in H. }
        destruct Hlong as [H|(s & Hs & H)]; [left; now rewrite Sd, T|right].
        destruct (Hlr s Hs H) as [Hne _]. exists (JS.trim s).
        split; [|exact H]. now apply Sl. }
    eexists. split; [reflexivity|]. exact U.
Qed.

Lemma schema_rejection_is_answered_500_witness :
  let body := Req.mkBody (Some (JS.repeatChar "x" 2001)) None None in
  let file := Req.mkFile "1705400000000_long_77aa.pdf" "long.pdf"
                "/app/uploads/1705400000000_long_77aa.pdf" 10 "application/pdf" in
  (JS.isAsciiOpt (Req.description body) = true
   /\ JS.isAsciiOpt (Req.letterReferenceNumber body) = true)
  /\ Controller.isBlank (Req.description body) = false
  /\ (2000 < String.length (JS.trim (default "" (Req.description body))))%nat
  /\ exists w',
       Controller.createFileRecord
         (Req.mkReq 0 body (Some file) "admin" Routes.noQuery) Sample.world0
       = (Ok (Json 500 false (Some "Error uploading file") NoData), w')
       /\ collection w' = collection Sample.world0.
Proof.
  intros body file.
  assert (H0 : JS.isAsciiOpt (Req.description body) = true
               /\ JS.isAsciiOpt (Req.letterReferenceNumber body) = true)
    by (split; vm_compute; reflexivity).
  split; [exact H0|].
  assert (H1 : Controller.isBlank (Req.description body) = false)
    by (vm_compute; reflexivity).
  assert (H2 : (2000 < String.length (JS.trim (default "" (Req.description body))))%nat)
    by (apply Nat.ltb_lt; vm_compute; reflexivity).
  assert (H3 : Req.path file ∉ locked Sample.world0)
    by (apply absent_by_computation; vm_compute; reflexivity).
  split; [exact H1|]. split; [exact H2|].
  destruct (schema_rejection_is_answered_500 1 "admin" body file Sample.record1
              Sample.world0 H0 H1 (or_introl H2) H3 eq_refl)
    as [(w' & Hrun & Hc & _) _].
  exists w'. split; [exact Hrun|exact Hc].
Defined.

End Rejections.

Section Replacements.

Lemma single_rejects {P : Platform} (part : option Upload.Part) (w w1 : World)
    (err : Upload.UploadError) :
  Upload.single part w = (inl err, w1) -> w1 = w.
Proof.
  unfold Upload.single. destruct part as [f|]; [|intros [=]].
  destruct (negb (JS.truthyStr (Upload.originalname f))); [intros [=]|].
  destruct (Upload.fileFilter f); [now intros [= _ <-]|].
  destruct (Upload.fileSizeLimit <=? Upload.size f); [now intros [= _ <-]|].
  destruct (Upload.writeFails f); [now intros [= _ <-]|intros [=]].
Qed.

(** X11. An update that brings a file for an identifier the collection
    does not hold leaves no trace: it is answered 400, 404 or 500, never
    200, the blob the middleware wrote is removed again, and the
    collection and the events are as before. *)
Theorem update_of_unknown_record {P : Platform} (id : nat) (user : string)
    (body : Req.Body) (part : Upload.Part) (w : World)
    (Hnone : Store.lookup id (collection w) = None)
    (Hfresh : Path.join uploadsDir (Upload.filename (now w) part) ∉ disk w)
    (Hfree : Path.join uploadsDir (Upload.filename (now w) part) ∉ locked w) :
  exists resp w',
    Routes.putFile id user body (Some part) w = (Ok resp, w')
    /\ (statusOf resp = 400 \/ statusOf resp = 404 \/ statusOf resp = 500)
    /\ disk w' = disk w /\ collection w' = collection w
    /\ emitted w' = emitted w.
Proof.
  unfold Routes.putFile.
  destruct (Upload.single (Some part) w) as [[err|file] w1] eqn:E.
  { pose proof (single_rejects _ _ _ _ E) as ->.
    destruct (handleMulterError_status err) as (msg & Hm).
    do 2 eexists. split; [reflexivity|]. rewrite Hm.
    split; [now left|]. repeat split. }
  apply single_accepts in E as [(-> & -> & _)|(f & [= <-] & _ & _ & _ & _ & -> & ->)].
  { destruct (updateFileRecord_refused (Req.mkReq id body None user Routes.noQuery) w
                Hnone eq_refl) as (resp & w' & Hr & Hs & U).
    exists resp, w'. split; [exact Hr|].
    split; [destruct Hs as [->|Hs]; auto|].
    destruct U as (Ud & _ & Uc & _ & _ & _ & Ue). auto. }
  set (dest := Path.join uploadsDir (Upload.filename (now w) part)) in *.
  set (file := Req.mkFile _ _ dest _ _).
  set (w1 := withDisk (disk w ∪ {[dest]}) w).
  assert (Hin : dest ∈ disk w1) by (apply elem_of_union_r, elem_of_singleton_2; reflexivity).
  unfold Controller.updateFileRecord. unfoldM. cbn [Req.id Req.file].
  destruct (findById_cases id w1) as [[F ->]|(F & w2 & -> & U & _)].
  - rewrite (cleanUp_removes file w1 Hin Hfree).
    do 2 eexists. split; [reflexivity|]. split; [auto|]. world.
    split; [now apply union_difference_fresh|]. split; reflexivity.
  - change (collection w1) with (collection w). rewrite Hnone.
    cbn [fmap option_fmap option_map Controller.unlinkUploaded].
    destruct U as (Ud & Ul & Uc & _ & _ & _ & Ue).
    rewrite (unlinkSync_removes (Req.path file) w2)
      by (rewrite ?Ud, ?Ul; assumption).
    do 2 eexists. split; [reflexivity|]. split; [auto|]. world.
    split; [rewrite Ud; now apply union_difference_fresh|].
    split; [exact Uc|exact Ue].
Qed.

Lemma update_of_unknown_record_witness :
  let dest := Path.join (@uploadsDir Sample.utc)
                (Upload.filename (now Sample.world0) Sample.replacement) in
  Store.lookup 9 (collection Sample.world0) = None
  /\ (dest ∉ disk Sample.world0) /\ (dest ∉ locked Sample.world0)
  /\ exists resp w',
       Routes.putFile (P:=Sample.utc) 9 "admin" Sample.noBody
         (Some Sample.replacement) Sample.world0
       = (Ok resp, w')
       /\ statusOf resp <> 200
       /\ disk w' = disk Sample.world0.
Proof.
  intros dest.
  assert (H1 : dest ∉ disk Sample.world0)
    by (apply absent_by_computation; vm_compute; reflexivity).
  assert (H2 : dest ∉ locked Sample.world0)
    by (apply absent_by_computation; vm_compute; reflexivity).
  split; [reflexivity|]. split; [exact H1|]. split; [exact H2|].
  destruct (update_of_unknown_record (P:=Sample.utc) 9 "admin" Sample.noBody
              Sample.replacement Sample.world0 eq_refl H1 H2)
    as (resp & w' & Hrun & Hs & Hd & _).
  exists resp, w'. split; [exact Hrun|]. split; [|exact Hd].
  destruct Hs as [->|[->| ->]]; discriminate.
Defined.

End Replacements.

Section Blobs.

(** What an update answered 200 has done to the uploads directory. *)
Lemma updateFileRecord_disk (req : Req.t) (w w' : World) (resp : Response) :
  Controller.updateFileRecord req w = (Ok resp, w') ->
  statusOf resp = 200 ->
  exists r0,
    Store.lookup (Req.id req) (collection w) = Some r0
    /\ locked w' = locked w
    /\ disk w' = match Req.file req with
                 | Some _ => if decide (filePath r0 = "") then disk w
                             else disk w ∖ {[filePath r0]}
                 | None => disk w
                 end.
Proof.
  intros H Hok. unfold Controller.updateFileRecord in H.
  apply tryCatch_inv in H as [(a & H & [= <-])|(e & w1 & _ & H)].
  2:{ apply bind_inv in H as [(u & w2 & _ & H)|(e' & _ & [=])].
      apply mret_inv in H as [[= ->] _]. discriminate Hok. }
  apply bind_inv in H as [(found & w1 & H1 & H)|(e & _ & [=])].
  destruct (findById_cases (Req.id req) w) as [[_ E]|(_ & w1' & E & U & _)];
    rewrite E in H1; [discriminate H1|]. injection H1 as <- <-.
  destruct U as (Ud & Ul & _).
  destruct (Store.lookup (Req.id req) (collection w)) as [r0|] eqn:L;
    cbn [fmap option_fmap option_map] in H.
  2:{ apply bind_inv in H as [(u & w2 & _ & H)|(e' & _ & [=])].
      apply mret_inv in H as [[= ->] _]. discriminate Hok. }
  destruct (scalar_updates (Req.description (Req.body req)) (Req.fileDate (Req.body req))
              (Req.letterReferenceNumber (Req.body req)) (mkDocument r0 false []))
    as (_ & _ & _ & _ & Hpath & _).
  cbn [fields] in Hpath.
  apply bind_inv in H as [(record & w2 & H2 & H)|(e & _ & [=])].
  apply bind_inv in H as [(saved & w3 & H3 & H)|(e & _ & [=])].
  apply bind_inv in H as [(u & w4 & H4 & H)|(e & _ & [=])].
  apply mret_inv in H as [_ ->].
  apply emit_ok in H4 as (Ed & El & _).
  pose proof (save_spec record w2) as S. rewrite H3 in S.
  destruct S as (_ & _ & Sd & Sl & _).
  exists r0. split; [reflexivity|].
  destruct (Req.file req) as [file|].
  - apply bind_inv in H2 as [(u2 & w5 & H2 & H5)|(e & _ & [=])].
    apply mret_inv in H5 as [_ ->].
    apply unlinkIfExists_ok in H2 as [H2 _]. rewrite Hpath in H2.
    rewrite H2 in Sd, Sl. revert Sd Sl. world. intros Sd Sl.
    split; [rewrite El, Sl; exact Ul|].
    rewrite Ed, Sd. now rewrite Ud.
  - apply mret_inv in H2 as [_ ->].
    split; [now rewrite El, Sl|now rewrite Ed, Sd].
Qed.

(** X12. An update answered 200 that brought a file, a part that names
    one, has swapped the blobs: the stored record points at the new blob
    and carries its size, and the uploads directory holds what it held
    before plus the new blob minus the old one.  The original name is
    taken in the ASCII range, where the generated name is the one of the
    runtime. *)
Theorem successful_replace_swaps_blobs {P : Platform} (id : nat) (user : string)
    (body : Req.Body) (part : Upload.Part) (w w' : World) (resp : Response)
    (Hnamed : Upload.originalname part <> "")
    (Hplain : plainPart (Some part))
    (Hrun : Routes.putFile id user body (Some part) w = (Ok resp, w'))
    (Hok : statusOf resp = 200) :
  exists r0 r',
    Store.lookup id (collection w) = Some r0
    /\ Store.lookup id (collection w') = Some r'
    /\ resp = Json 200 true (Some "File record updated successfully") (OneRecord r')
    /\ filePath r' = Path.join uploadsDir (Upload.filename (now w) part)
    /\ fileSize r' = Upload.size part
    /\ (forall p, p ∈ disk w'
          <-> (p ∈ disk w \/ p = filePath r')
              /\ (p <> filePath r0 \/ filePath r0 = ""))
    /\ (filePath r0 <> filePath r' -> filePath r' ∈ disk w')
    /\ (filePath r0 <> "" -> filePath r0 ∉ disk w').
Proof.
  unfold Routes.putFile in Hrun.
  destruct (Upload.single (Some part) w) as [[err|file] w1] eqn:E.
  { injection Hrun as <- <-.
    destruct (handleMulterError_status err) as (msg & Hm). rewrite Hm in Hok.
    discriminate Hok. }
  apply single_accepts in E
    as [(_ & _ & [[=]|(f & [= <-] & N)])|(f & [= <-] & _ & _ & _ & _ & -> & ->)];
    [contradiction|].
  destruct (updateFileRecord_success _ _ _ _ Hrun Hok)
    as (r0 & r' & L0 & L' & -> & _ & _ & _ & _ & _ & _ & _ & _ & _ & _ & _ & _ & Hf).
  destruct (updateFileRecord_disk _ _ _ _ Hrun Hok) as (r0' & L0' & _ & Hd).
  cbn [Req.id Req.file Req.path Req.originalname Req.size
       disk collection withDisk] in *.
  rewrite L0 in L0'. injection L0' as <-.
  destruct Hf as (_ & _ & Hp & Hs & _).
  assert (Hmem : forall p, p ∈ disk w'
            <-> (p ∈ disk w \/ p = filePath r')
                /\ (p <> filePath r0 \/ filePath r0 = "")).
  { intros p. rewrite Hd, Hp. destruct (decide (filePath r0 = "")) as [E0|E0].
    - rewrite elem_of_union, elem_of_singleton. tauto.
    - rewrite elem_of_difference, elem_of_union, !elem_of_singleton. tauto. }
  exists r0, r'. split; [exact L0|]. split; [exact L'|]. split; [reflexivity|].
  split; [exact Hp|]. split; [exact Hs|].
  split; [exact Hmem|]. split.
  - intros Hne. apply Hmem. split; [now right|]. left. congruence.
  - intros Hne Hin. apply Hmem in Hin as [_ [N|N]]; [now apply N|contradiction].
Qed.

Lemma successful_replace_swaps_blobs_witness :
  let run := Routes.putFile (P:=Sample.utc) 1 "admin" Sample.noBody
               (Some Sample.replacement) Sample.world0 in
  Upload.originalname Sample.replacement <> ""
  /\ plainPart (Some Sample.replacement)
  /\ exists r',
       run = (Ok (Json 200 true (Some "File record updated successfully") (OneRecord r')),
              run.2)
       /\ Store.lookup 1 (collection run.2) = Some r'
       /\ (filePath r' ∈ disk run.2)
       /\ (filePath Sample.record1 ∉ disk run.2).
Proof.
  intros run. split; [discriminate|]. split; [reflexivity|].
  assert (Hout : exists r, run.1 = Ok (Json 200 true
                                         (Some "File record updated successfully")
                                         (OneRecord r))).
  { eexists. vm_compute. reflexivity. }
  destruct Hout as (r1 & Hout).
  assert (Hrun : run = (Ok (Json 200 true (Some "File record updated successfully")
                             (OneRecord r1)), run.2)).
  { rewrite <- Hout. destruct run; reflexivity. }
  destruct (successful_replace_swaps_blobs (P:=Sample.utc) 1 "admin" Sample.noBody
              Sample.replacement Sample.world0 run.2 _ ltac:(discriminate) eq_refl
              Hrun eq_refl)
    as (r0 & r' & L0 & L' & [= <-] & Hp & _ & _ & Hnew & Hold).
  injection L0 as <-.
  exists r1. split; [exact Hrun|]. split; [exact L'|]. split.
  - apply Hnew. rewrite Hp. vm_compute. discriminate.
  - apply Hold. discriminate.
Defined.

End Blobs.

Section RoundTrips.

(** X13. An update that brings no file never touches the uploads
    directory, whatever it answers. *)
Theorem metadata_update_keeps_files {P : Platform} (id : nat) (user : string)
    (body : Req.Body) (w : World) :
  disk (Routes.putFile id user body None w).2 = disk w
  /\ locked (Routes.putFile id user body None w).2 = locked w.
Proof.
  unfold Routes.putFile, Upload.single.
  apply (run_preserves (fun w w' => disk w' = disk w /\ locked w' = locked w)).
  apply preserves_updateFileRecord_nofile with (target := id);
    try reflexivity; try (intros; split; reflexivity).
  intros w1 w2 w3 [A1 A2] [B1 B2]. split; congruence.
Qed.

Lemma lookup_app_fresh (c : list FileRecord) (r : FileRecord) :
  Forall (fun x => _id x <> _id r) c ->
  Store.lookup (_id r) (c ++ [r]) = Some r.
Proof.
  unfold Store.lookup. induction 1 as [|x c Hx _ IH]; cbn [app List.find].
  - now rewrite Nat.eqb_refl.
  - destruct (Nat.eqb_spec (_id x) (_id r)); [contradiction|exact IH].
Qed.

(** X14. What an upload answered 201 has stored can be read back: when
    the store never fails and no stored document carries the next
    identifier, the single-record read that follows answers 200 with a
    record that agrees with the one of the upload's answer on every path
    but the uploader, which the read replaces by the user document, and
    the download sends the blob the upload wrote, which is on disk, under
    the original name that was stored. *)
Theorem upload_then_read {P : Platform} (user : string) (body : Req.Body)
    (part : option Upload.Part) (later : Req.t) (w w' : World) (resp : Response)
    (Hrun : Routes.postFiles user body part w = (Ok resp, w'))
    (Hok : statusOf resp = 201)
    (Hup : faultAfter w = None)
    (Hfresh : Forall (fun x => _id x <> nextId w) (collection w))
    (Hlater : Req.id later = nextId w) :
  exists r,
    resp = Json 201 true (Some "File uploaded successfully") (OneRecord r)
    /\ filePath r ∈ disk w'
    /\ (exists r',
          Reads.getFileRecord later w' = (Ok (Json 200 true None (OneRecord r')), w')
          /\ agreeButUploader r r')
    /\ Reads.downloadFile later w'
       = (Ok (Download (filePath r) (originalName r)), w').
Proof.
  assert (Hup' : faultAfter w' = None).
  { assert (S : staysUp w w').
    { eapply (preserves_postFiles staysUp) with (target := nextId w);
        [..|exact Hrun]; eauto with frames. }
    exact (S Hup). }
  unfold Routes.postFiles in Hrun.
  destruct (Upload.single part w) as [[err|file] w1] eqn:E.
  { injection Hrun as <- <-.
    destruct (handleMulterError_status err) as (msg & Hm). rewrite Hm in Hok.
    discriminate Hok. }
  destruct (createFileRecord_created _ _ _ _ Hrun Hok)
    as (file' & doc & Hf & _ & Hc & Hv & -> & Hcol & Hd & _).
  cbn [Req.file Req.body Req.user] in *. subst file.
  apply single_accepts in E as [([=] & _)|(f & -> & _ & _ & _ & _ & [= ->] & ->)].
  cbn [Req.filename Req.originalname Req.path Req.size Req.mimetype] in Hc.
  apply create_fields in Hc as (Hfields & _ & _ & _).
  destruct (preSave_frame (fields doc)) as (F1 & _ & _ & F4 & F5 & _).
  set (r := Schema.preSave (fields doc)) in *.
  rewrite Hfields in F1, F4, F5. cbn [_id originalName filePath] in F1, F4, F5.
  revert F1 Hcol Hd. world. intros F1 Hcol Hd.
  assert (L : Store.lookup (Req.id later) (collection w') = Some r).
  { rewrite Hlater, Hcol, <- F1. apply lookup_app_fresh. now rewrite F1. }
  assert (Hne : filePath r <> "").
  { rewrite F5. unfold Path.join. destruct uploadsDir; discriminate. }
  assert (Hin : filePath r ∈ disk w').
  { rewrite Hd, F5. apply elem_of_union_r, elem_of_singleton_2. reflexivity. }
  exists r. split; [reflexivity|]. split; [exact Hin|]. split.
  - exists r. split; [|repeat split].
    unfold Reads.getFileRecord. unfoldM.
    now rewrite (findById_up _ _ Hup'), L.
  - unfold Reads.downloadFile. unfoldM.
    rewrite (findById_up _ _ Hup'), L. cbn [fmap option_fmap option_map fields].
    rewrite (proj2 (truthyStr_true _) Hne). unfold Fs.existsSync.
    rewrite bool_decide_eq_true_2 by exact Hin.
    reflexivity.
Qed.

Lemma upload_then_read_witness :
  let body := Req.mkBody (Some "Second version") None None in
  let later := Sample.request 3 Sample.noBody None Routes.noQuery in
  let run := Routes.postFiles (P:=Sample.utc) "admin" body (Some Sample.replacement)
               Sample.world0 in
  exists r,
    run = (Ok (Json 201 true (Some "File uploaded successfully") (OneRecord r)), run.2)
    /\ faultAfter Sample.world0 = None
    /\ Forall (fun x => _id x <> nextId Sample.world0) (collection Sample.world0)
    /\ Reads.downloadFile later run.2
       = (Ok (Download (filePath r) (originalName r)), run.2).
Proof.
  intros body later run.
  assert (Hout : exists r, run.1 = Ok (Json 201 true (Some "File uploaded successfully")
                                         (OneRecord r))).
  { eexists. vm_compute. reflexivity. }
  destruct Hout as (r0 & Hout).
  assert (Hrun : run = (Ok (Json 201 true (Some "File uploaded successfully")
                             (OneRecord r0)), run.2)).
  { rewrite <- Hout. destruct run; reflexivity. }
  assert (Hfresh : Forall (fun x => _id x <> nextId Sample.world0)
                     (collection Sample.world0)).
  { repeat constructor; discriminate. }
  destruct (upload_then_read (P:=Sample.utc) "admin" body (Some Sample.replacement)
              later Sample.world0 run.2 _ Hrun eq_refl eq_refl Hfresh eq_refl)
    as (r & [= <-] & _ & _ & Hdl).
  exists r0. auto.
Defined.

End RoundTrips.

Section Statistics.

Lemma ofType_app t c1 c2 : ofType t (c1 ++ c2) = ofType t c1 ++ ofType t c2.
Proof. apply filter_app. Qed.

Lemma ofType_one_same r : ofType (fileTypeName (fileType r)) [r] = [r].
Proof. unfold ofType. now rewrite filter_cons_True. Qed.

Lemma ofType_one_other t r : fileTypeName (fileType r) <> t -> ofType t [r] = [].
Proof. intros H. unfold ofType. now rewrite filter_cons_False. Qed.

Lemma sizeSum_app c1 c2 : sizeSum (c1 ++ c2) = sizeSum c1 + sizeSum c2.
Proof.
  unfold sizeSum. induction c1 as [|r c1 IH]; cbn [app foldr]; [reflexivity|lia].
Qed.

Lemma addToGroups_ids (r : FileRecord) (gs : list StatGroup) :
  map stat_id (Aggregate.addToGroups r gs)
  = if decide (fileTypeName (fileType r) ∈ map stat_id gs)
    then map stat_id gs
    else map stat_id gs ++ [fileTypeName (fileType r)].
Proof.
  induction gs as [|g gs IH]; cbn [Aggregate.addToGroups map].
  - destruct (decide _) as [H|_]; [|reflexivity]. now apply elem_of_nil in H.
  - destruct (String.eqb_spec (stat_id g) (fileTypeName (fileType r))) as [E|E].
    + cbn [map stat_id].
      destruct (decide (fileTypeName (fileType r) ∈ stat_id g :: map stat_id gs))
        as [_|N]; [reflexivity|].
      destruct N. rewrite <- E. apply list_elem_of_here.
    + cbn [map]. rewrite IH.
      destruct (decide (fileTypeName (fileType r) ∈ map stat_id gs)) as [H|H];
        destruct (decide (fileTypeName (fileType r) ∈ stat_id g :: map stat_id gs))
          as [H'|H']; try reflexivity.
      * destruct H'. now apply list_elem_of_further.
      * apply elem_of_cons in H' as [H'|H']; [congruence|contradiction].
Qed.

(** One document more: the group of its type is bumped or opened, the
    others stay. *)
Lemma addToGroups_counts (c : list FileRecord) (r : FileRecord)
    (gs : list StatGroup) :
  NoDup (map stat_id gs) ->
  (fileTypeName (fileType r) ∉ map stat_id gs ->
   ofType (fileTypeName (fileType r)) c = []) ->
  (forall g, g ∈ gs ->
     stat_count g = Z.of_nat (length (ofType (stat_id g) c))
     /\ stat_totalSize g = sizeSum (ofType (stat_id g) c)
     /\ 0 < stat_count g) ->
  forall g, g ∈ Aggregate.addToGroups r gs ->
    stat_count g = Z.of_nat (length (ofType (stat_id g) (c ++ [r])))
    /\ stat_totalSize g = sizeSum (ofType (stat_id g) (c ++ [r]))
    /\ 0 < stat_count g.
Proof.
  assert (Hother : forall g : StatGroup,
            stat_id g <> fileTypeName (fileType r) ->
            ofType (stat_id g) (c ++ [r]) = ofType (stat_id g) c).
  { intros g Hne. rewrite ofType_app, ofType_one_other by congruence.
    apply app_nil_r. }
  induction gs as [|g0 gs IH]; cbn [Aggregate.addToGroups map];
    intros Hnd Hnew Hall g Hin.
  - apply list_elem_of_singleton in Hin as ->. cbn [stat_id stat_count stat_totalSize].
    rewrite ofType_app, ofType_one_same, Hnew by apply not_elem_of_nil.
    cbn. repeat split; lia.
  - apply NoDup_cons in Hnd as [Hg0 Hnd].
    destruct (String.eqb_spec (stat_id g0) (fileTypeName (fileType r))) as [E|E].
    + apply elem_of_cons in Hin as [->|Hin].
      * cbn [stat_id stat_count stat_totalSize].
        destruct (Hall g0 (list_elem_of_here _ _)) as (H1 & H2 & H3).
        rewrite E, ofType_app, ofType_one_same, length_app, sizeSum_app.
        rewrite <- E, <- H2. cbn. split; [lia|]. split; lia.
      * rewrite Hother.
        { apply Hall. now apply list_elem_of_further. }
        intros Hid. apply Hg0. rewrite E, <- Hid.
        apply list_elem_of_fmap. eauto.
    + apply elem_of_cons in Hin as [->|Hin].
      * rewrite Hother by exact E. apply Hall, list_elem_of_here.
      * apply IH; [exact Hnd| |intros g' Hg'; apply Hall; now apply list_elem_of_further|exact Hin].
        intros Hn. apply Hnew. intros Hc. apply elem_of_cons in Hc as [Hc|Hc];
          [congruence|contradiction].
Qed.

Lemma ofType_empty (t : string) (c : list FileRecord) :
  (forall r, r ∈ c -> fileTypeName (fileType r) <> t) -> ofType t c = [].
Proof.
  induction c as [|x c IH]; intros H; [reflexivity|]. unfold ofType.
  rewrite filter_cons_False by (apply H, list_elem_of_here).
  apply IH. intros r Hr. apply H. now apply list_elem_of_further.
Qed.

Lemma addToGroups_summarises (c : list FileRecord) (r : FileRecord)
    (gs : list StatGroup) :
  summarises gs c -> summarises (Aggregate.addToGroups r gs) (c ++ [r]).
Proof.
  intros (Hnd & Hall & Hcov).
  assert (Hnew : fileTypeName (fileType r) ∉ map stat_id gs ->
                 ofType (fileTypeName (fileType r)) c = []).
  { intros Hn. apply ofType_empty. intros x Hx E. apply Hn. rewrite <- E.
    now apply Hcov. }
  split; [|split].
  - rewrite addToGroups_ids. destruct (decide _) as [_|Hn]; [exact Hnd|].
    apply NoDup_app. split; [exact Hnd|]. split; [|apply NoDup_singleton].
    intros x Hx Hx'. apply list_elem_of_singleton in Hx' as ->. contradiction.
  - now apply addToGroups_counts.
  - intros x Hx. rewrite addToGroups_ids. apply elem_of_app in Hx as [Hx|Hx].
    + destruct (decide _); [now apply Hcov|]. apply elem_of_app. left. now apply Hcov.
    + apply list_elem_of_singleton in Hx as ->.
      destruct (decide _) as [Hin|_]; [exact Hin|].
      apply elem_of_app. right. apply list_elem_of_here.
Qed.

Lemma group_summarises (c : list FileRecord) : summarises (Aggregate.group c) c.
Proof.
  unfold Aggregate.group.
  assert (G : forall rest gs done,
            summarises gs done ->
            summarises (fold_left (fun groups r => Aggregate.addToGroups r groups) rest gs)
              (done ++ rest)).
  { induction rest as [|r rest IH]; intros gs done H; cbn [fold_left].
    - now rewrite app_nil_r.
    - replace (done ++ r :: rest) with ((done ++ [r]) ++ rest)
        by (now rewrite <- app_assoc).
      apply IH. now apply addToGroups_summarises. }
  apply (G c [] []). split; [apply NoDup_nil_2|].
  split; [intros g Hg; now apply elem_of_nil in Hg|].
  intros r Hr. now apply elem_of_nil in Hr.
Qed.

Lemma summarises_perm (gs gs' : list StatGroup) (c : list FileRecord) :
  gs ≡ₚ gs' -> summarises gs c -> summarises gs' c.
Proof.
  intros Hp (Hnd & Hall & Hcov). split; [|split].
  - now rewrite <- Hp.
  - intros g Hg. apply Hall. now rewrite Hp.
  - intros r Hr. rewrite <- Hp. now apply Hcov.
Qed.

Lemma fold_sizes (gs : list StatGroup) (a : Z) :
  fold_left (fun acc s => acc + stat_totalSize s) gs a
  = a + foldr (fun s acc => stat_totalSize s + acc) 0 gs.
Proof.
  revert a. induction gs as [|g gs IH]; intros a; cbn [fold_left foldr]; [lia|].
  rewrite IH. lia.
Qed.

Lemma sizes_perm (gs gs' : list StatGroup) :
  gs ≡ₚ gs' ->
  foldr (fun s acc => stat_totalSize s + acc) 0 gs
  = foldr (fun s acc => stat_totalSize s + acc) 0 gs'.
Proof.
  induction 1 as [|x l l' _ IH|x y l|l l' l'' _ IH1 _ IH2]; cbn [foldr];
    [reflexivity|now rewrite IH|lia|congruence].
Qed.

Lemma addToGroups_sizes (r : FileRecord) (gs : list StatGroup) :
  foldr (fun s acc => stat_totalSize s + acc) 0 (Aggregate.addToGroups r gs)
  = foldr (fun s acc => stat_totalSize s + acc) 0 gs + fileSize r.
Proof.
  induction gs as [|g gs IH]; cbn [Aggregate.addToGroups foldr stat_totalSize];
    [lia|].
  destruct (String.eqb _ _); cbn [foldr stat_totalSize]; lia.
Qed.

Lemma group_sizes (c : list FileRecord) :
  foldr (fun s acc => stat_totalSize s + acc) 0 (Aggregate.group c) = sizeSum c.
Proof.
  unfold Aggregate.group.
  assert (G : forall rest gs,
            foldr (fun s acc => stat_totalSize s + acc) 0
              (fold_left (fun groups r => Aggregate.addToGroups r groups) rest gs)
            = foldr (fun s acc => stat_totalSize s + acc) 0 gs + sizeSum rest).
  { induction rest as [|r rest IH]; intros gs; cbn [fold_left sizeSum foldr]; [lia|].
    rewrite IH, addToGroups_sizes. fold (sizeSum rest). lia. }
  rewrite G. cbn [foldr]. lia.
Qed.

Lemma countDocuments_all {P : Platform} (w : World) :
  faultAfter w <> Some O ->
  exists w1, Store.countDocuments (mkQuery None None None) w
             = (Ok (Z.of_nat (length (collection w))), w1).
Proof.
  intros Hup. unfold Store.countDocuments, Store.dbOp, Store.select. unfoldM.
  assert (F : forall c : list FileRecord,
            filter (fun _ : FileRecord => true = true) c = c).
  { induction c as [|x c IH]; [reflexivity|].
    rewrite filter_cons_True by reflexivity. now rewrite IH. }
  destruct (faultAfter w) as [[|n]|]; [contradiction| |]; cbn; rewrite F; eauto.
Qed.

(** X15. The statistics summarise the collection: the total is the number
    of documents, the total size is the sum of their sizes, there is
    exactly one group for each file type that occurs, each group carries
    the number of documents of its type and the sum of their sizes, and
    no group has fewer documents than the one after it.  The only other
    answer is the 500 of a store that fails within the two queries. *)
Theorem stats_summarise_collection {P : Platform} (w : World) :
  match (Reads.getStats w).1 with
  | Ok (Statistics total size groups) =>
      total = Z.of_nat (length (collection w))
      /\ size = sizeSum (collection w)
      /\ summarises groups (collection w)
      /\ ordered (fun a b => stat_count b <=? stat_count a) groups = true
  | Ok (Answer resp) =>
      resp = Json 500 false (Some "Error fetching statistics") NoData
      /\ (faultAfter w = Some 0%nat \/ faultAfter w = Some 1%nat)
  | _ => False
  end.
Proof.
  unfold Reads.getStats, Aggregate.byFileType. unfoldM.
  unfold Store.dbOp at 1.
  destruct (faultAfter w) as [[|[|n]]|] eqn:F.
  - cbn. auto.
  - cbn. auto.
  - set (w1 := withFaultAfter (Some (S n)) w).
    destruct (countDocuments_all w1) as (w2 & ->); [discriminate|].
    cbn [fst]. change (collection w1) with (collection w).
    split; [reflexivity|]. split; [|split].
    + rewrite fold_sizes. unfold Aggregate.sortByCount.
      rewrite (sizes_perm _ _ (sort_perm _ _)), group_sizes. lia.
    + apply (summarises_perm (Aggregate.group (collection w)));
        [symmetry; apply sort_perm|apply group_summarises].
    + apply sort_ordered. intros a b. rewrite !Z.leb_le. lia.
  - destruct (countDocuments_all w) as (w2 & ->); [congruence|].
    cbn [fst].
    split; [reflexivity|]. split; [|split].
    + rewrite fold_sizes. unfold Aggregate.sortByCount.
      rewrite (sizes_perm _ _ (sort_perm _ _)), group_sizes. lia.
    + apply (summarises_perm (Aggregate.group (collection w)));
        [symmetry; apply sort_perm|apply group_summarises].
    + apply sort_ordered. intros a b. rewrite !Z.leb_le. lia.
Qed.

End Statistics.

Section Listings.

Context {P : Platform}.

Lemma find_castable (q : Query) (s : string * Z) (window : option (Z * Z))
    (w w' : World) (records : list FileRecord) :
  Store.find q s window w = (Ok records, w') -> Store.castable q = true.
Proof.
  unfold Store.find, Store.dbOp, Store.select. unfoldM.
  destruct (String.eqb s.1 ""); [discriminate|].
  destruct (Store.castable q); [reflexivity|].
  destruct (faultAfter w) as [[|n]|]; cbn; discriminate.
Qed.

Lemma find_up (q : Query) (s : string * Z) (window : option (Z * Z))
    (w : World) (test : string -> bool) :
  s.1 <> "" ->
  faultAfter w = None -> Store.castable q = true -> Store.compile q = Some test ->
  Store.find q s window w
  = let sorted :=
      Store.sortDocs s (filter (fun r => Store.matches test q r = true) (collection w)) in
    match window with
    | None => (Ok sorted, w)
    | Some (skip, limit) =>
        if skip <? 0 then (Throw MongoError, w)
        else (Ok (if limit =? 0 then drop (Z.to_nat skip) sorted
                  else take (Z.to_nat (Z.abs limit)) (drop (Z.to_nat skip) sorted)), w)
    end.
Proof.
  intros Hs Hup Hc Ht. unfold Store.find.
  rewrite (proj2 (String.eqb_neq _ _) Hs). rewrite dbOp_up by exact Hup.
  unfold Store.select. unfoldM. rewrite Hc, Ht. cbn [negb].
  destruct window as [[skip limit]|]; [|reflexivity].
  destruct (skip <? 0); reflexivity.
Qed.

Lemma countDocuments_up (q : Query) (w : World) (test : string -> bool) :
  faultAfter w = None -> Store.castable q = true -> Store.compile q = Some test ->
  Store.countDocuments q w
  = (Ok (Z.of_nat (length (filter (fun r => Store.matches test q r = true)
                             (collection w)))), w).
Proof.
  intros Hup Hc Ht. unfold Store.countDocuments. rewrite dbOp_up by exact Hup.
  unfold Store.select. unfoldM. now rewrite Hc, Ht.
Qed.

(** The listing never sorts by an empty field. *)
Lemma listSort_nonempty (q : Req.Query) : (Controller.listSortOptions q).1 <> "".
Proof.
  unfold Controller.listSortOptions. cbn [fst].
  destruct (JS.includes _ _) eqn:E; [|discriminate].
  intros H. rewrite H in E. discriminate E.
Qed.

(** What a listing that was sent went through. *)
Lemma getFileRecords_listing (req : Req.t) (w : World)
    (records : list FileRecord) (pg : Pagination) (types : list string) :
  (Controller.getFileRecords req w).1
  = Ok (Json 200 true None (Listing records pg types)) ->
  let q := Req.query req in
  exists test,
    Store.castable (Controller.listQuery q) = true
    /\ Store.compile (Controller.listQuery q) = Some test
    /\ let matching :=
         filter (fun r => Store.matches test (Controller.listQuery q) r = true)
           (collection w) in
       0 <= (Controller.pageNum q - 1) * Controller.limitNum q
       /\ records
          = take (Z.to_nat (Z.abs (Controller.limitNum q)))
              (drop (Z.to_nat ((Controller.pageNum q - 1) * Controller.limitNum q))
                 (Store.sortDocs (Controller.listSortOptions q) matching))
       /\ pg = mkPagination (Controller.pageNum q)
                 (JS.ceilDiv (Z.of_nat (length matching)) (Controller.limitNum q))
                 (Z.of_nat (length matching)) (Controller.limitNum q)
                 (Controller.pageNum q
                  <? JS.ceilDiv (Z.of_nat (length matching)) (Controller.limitNum q))
                 (1 <? Controller.pageNum q).
Proof.
  intros H q. revert H. unfold Controller.getFileRecords. unfoldM. fold q.
  destruct (Store.find _ _ _ w) as [[recs|e] w1] eqn:Hf; [|discriminate].
  destruct (Store.countDocuments _ w1) as [[n|e] w2] eqn:Hc; [|discriminate].
  cbn [fst]. intros [= <- <- <-].
  pose proof (find_castable _ _ _ _ _ _ Hf) as Hcast.
  apply find_spec in Hf as ((_ & _ & Hcol & _) & test & Ht & Hskip & Hrecs).
  apply countDocuments_spec in Hc as (_ & test' & Ht' & ->).
  rewrite Ht in Ht'. injection Ht' as <-. rewrite Hcol.
  assert (Hl : (Controller.limitNum q =? 0) = false).
  { apply Z.eqb_neq, orNum_nonzero. discriminate. }
  rewrite Hl in Hrecs.
  exists test. split; [exact Hcast|]. split; [exact Ht|]. cbv zeta.
  split; [exact Hskip|]. split; [exact Hrecs|reflexivity].
Qed.

(** What the export sends for a query that the listing would sort the
    same way, when the store answers. *)
Lemma exportToExcel_up (req : Req.t) (w : World) (test : string -> bool) :
  faultAfter w = None ->
  Store.castable (Controller.listQuery (Req.query req)) = true ->
  Store.compile (Controller.listQuery (Req.query req)) = Some test ->
  JS.includes ["uploadDateTime"; "description"; "fileType"; "fileDate"]
    (default "uploadDateTime" (Req.sortBy (Req.query req))) = true ->
  exists files,
    Controller.exportToExcel req w
    = (Ok (Zip (Appended "records.xlsx"
                  (imap Controller.addRow
                     (Store.sortDocs (Controller.listSortOptions (Req.query req))
                        (selected test (Req.query req) w)))
                :: files)), w).
Proof.
  intros Hup Hc Ht Hsort. set (q := Req.query req) in *.
  destruct (addFiles_spec (Store.sortDocs (Controller.listSortOptions q)
                             (selected test q w)) 0 w) as (files & Hfiles & _).
  exists files. unfold Controller.exportToExcel. unfoldM. fold q.
  rewrite exportQuery_listQuery, (proj2 (exportSort_listSort q) Hsort).
  rewrite (find_up _ _ None w test (listSort_nonempty q) Hup Hc Ht). cbv zeta.
  fold (selected test q w). cbv beta iota. now rewrite Hfiles.
Qed.

End Listings.



(** X17. The export holds every matching record exactly once and in the
    order asked for: for a sort field among the scalar paths of the
    schema ([scalarPaths]) and date bounds given as calendar dates, the
    worksheet rows are the rows of a list of records that is a
    permutation of the documents the filter selects, each record standing
    before the next one in the order of the requested field and
    direction. *)
Theorem export_lists_matching_records_in_order {P : Platform} (req : Req.t)
    (w w' : World) (rows : list Row) (files : list ZipEntry)
    (Hdates : plainDates (Req.query req))
    (Hsort : JS.includes scalarPaths
               (default "uploadDateTime" (Req.sortBy (Req.query req))) = true)
    (Hrun : Controller.exportToExcel req w
            = (Ok (Zip (Appended "records.xlsx" rows :: files)), w')) :
  let q := Req.query req in
  exists test all,
    Store.compile (Controller.exportQuery q) = Some test
    /\ rows = imap Controller.addRow all
    /\ all ≡ₚ filter (fun r => Store.matches test (Controller.exportQuery q) r = true)
                (collection w)
    /\ ordered (sortLeb (Controller.exportSortOptions q)) all = true
    /\ (forall r, r ∈ all <->
          r ∈ collection w /\ Store.matches test (Controller.exportQuery q) r = true).
Proof.
  intros q. revert Hrun. unfold Controller.exportToExcel. unfoldM. fold q.
  destruct (Store.find _ _ None w) as [[records|e] w1] eqn:Hf; [|discriminate].
  destruct (addFiles_spec records 0 w1) as (files' & -> & _).
  intros [= <- <- <-].
  apply find_spec in Hf as (_ & test & Ht & ->).
  exists test. eexists. split; [exact Ht|]. split; [reflexivity|].
  rewrite sortDocs_sortLeb.
  split; [apply sort_perm|]. split; [apply sort_ordered, sortLeb_total|].
  intros r. rewrite sort_perm, list_elem_of_filter. tauto.
Qed.

Lemma export_lists_matching_records_in_order_witness :
  let req := Sample.request 0 Sample.noBody None
               (Req.mkQuery None None None None (Some "fileSize") (Some "asc")
                  None None) in
  let run := Controller.exportToExcel (P:=Sample.utc) req Sample.world0 in
  plainDates (Req.query req)
  /\ exists rows files all,
       run = (Ok (Zip (Appended "records.xlsx" rows :: files)), run.2)
       /\ rows = imap Controller.addRow all
       /\ all ≡ₚ [Sample.record1; Sample.record2]
       /\ ordered (fun a b => fileSize a <=? fileSize b) all = true.
Proof.
  intros req run.
  assert (Hd : plainDates (Req.query req)) by plain_dates.
  split; [exact Hd|].
  assert (Hout : exists rows files,
            run.1 = Ok (Zip (Appended "records.xlsx" rows :: files))).
  { do 2 eexists. vm_compute. reflexivity. }
  destruct Hout as (rows & files & Hout).
  assert (Hrun : run = (Ok (Zip (Appended "records.xlsx" rows :: files)), run.2)).
  { rewrite <- Hout. destruct run; reflexivity. }
  destruct (export_lists_matching_records_in_order (P:=Sample.utc) req Sample.world0
              run.2 rows files Hd eq_refl Hrun) as (test & all & Ht & Hrows & Hp & Ho & _).
  injection Ht as <-.
  exists rows, files, all. split; [exact Hrun|]. split; [exact Hrows|].
  split; [exact Hp|]. exact Ho.
Defined.

(** X18. On a server whose local time is UTC the date filter covers whole
    days: a listing with a start and an end date holds only documents of
    the collection uploaded from 00:00:00.000 of the start date up to, and
    not including, 00:00:00.000 of the day after the end date, and with
    no other filter the reported total is the number of such documents. *)
Theorem utc_date_filter_covers_whole_days {P : Platform} (req : Req.t) (w : World)
    (s e : string) (ts te : Z)
    (records : list FileRecord) (pg : Pagination) (types : list string)
    (Hutc : tzOffset = 0)
    (Hs : Req.startDate (Req.query req) = Some s)
    (He : Req.endDate (Req.query req) = Some e)
    (Hts : JSDate.parse s = Some ts)
    (Hte : JSDate.parse e = Some te)
    (Hlist : (Controller.getFileRecords req w).1
             = Ok (Json 200 true None (Listing records pg types))) :
  (forall r, r ∈ records ->
     r ∈ collection w /\ ts <= uploadDateTime r < te + JSDate.msPerDay)
  /\ (Req.search (Req.query req) = None -> Req.fileType (Req.query req) = None ->
      totalRecords pg
      = Z.of_nat (length (filter
                            (fun r => ts <= uploadDateTime r < te + JSDate.msPerDay)
                            (collection w)))).
Proof.
  apply getFileRecords_listing in Hlist as (test & _ & Ht & _ & -> & ->).
  set (q := Req.query req) in *.
  destruct (date_filter_inclusive_in_utc q s e ts te Hutc Hs He Hts Hte)
    as (rg & Hrg & Hin).
  split.
  - intros r Hr. apply in_take, in_drop in Hr.
    rewrite sortDocs_sortLeb, sort_perm in Hr.
    apply list_elem_of_filter in Hr as [Hm Hr]. split; [exact Hr|].
    apply Hin. unfold Store.matches in Hm. rewrite Hrg in Hm.
    apply andb_true_iff in Hm as [_ Hm]. exact Hm.
  - intros Hsearch Htype. cbn [totalRecords]. f_equal. f_equal.
    apply list_filter_iff. intros r. rewrite <- Hin.
    unfold Store.matches. rewrite Hrg.
    assert (q_description (Controller.listQuery q) = None) as ->.
    { unfold Controller.listQuery. rewrite Hsearch, Htype, Hs, He.
      destruct (JS.truthy (Some s) || JS.truthy (Some e)); reflexivity. }
    assert (q_fileType (Controller.listQuery q) = None) as ->.
    { unfold Controller.listQuery. rewrite Hsearch, Htype, Hs, He.
      destruct (JS.truthy (Some s) || JS.truthy (Some e)); reflexivity. }
    reflexivity.
Qed.

Lemma utc_date_filter_covers_whole_days_witness :
  let req := Sample.request 0 Sample.noBody None
               (Req.mkQuery None None (Some "2024-01-15") (Some "2024-01-15")
                  None None None None) in
  @tzOffset Sample.utc = 0
  /\ JSDate.parse "2024-01-15" = Some 1705276800000
  /\ (Controller.getFileRecords (P:=Sample.utc) req Sample.datedWorld).1
     = Ok (Json 200 true None
             (Listing [Sample.record1] (mkPagination 1 1 1 10 false false)
                FILE_TYPE_CHOICES))
  /\ 1705276800000 <= uploadDateTime Sample.record1 < 1705276800000 + JSDate.msPerDay.
Proof.
  intros req.
  assert (Hlist : (Controller.getFileRecords (P:=Sample.utc) req Sample.datedWorld).1
     = Ok (Json 200 true None
             (Listing [Sample.record1] (mkPagination 1 1 1 10 false false)
                FILE_TYPE_CHOICES))) by (vm_compute; reflexivity).
  split; [reflexivity|]. split; [vm_compute; reflexivity|]. split; [exact Hlist|].
  destruct (utc_date_filter_covers_whole_days (P:=Sample.utc) req Sample.datedWorld
              "2024-01-15" "2024-01-15" 1705276800000 1705276800000 _ _ _
              eq_refl eq_refl eq_refl ltac:(vm_compute; reflexivity)
              ltac:(vm_compute; reflexivity) Hlist) as [H _].
  apply H, list_elem_of_here.
Defined.

Section Pages.

Lemma digitsPrefix_uint_end (d : Decimal.uint) (a : nat) :
  JS.digitsPrefix (NilEmpty.string_of_uint d) (Some (Z.of_nat a))
  = Some (Z.of_nat (Nat.of_uint_acc d a)).
Proof.
  revert a.
  induction d as [|d IH|d IH|d IH|d IH|d IH|d IH|d IH|d IH|d IH|d IH]; intros a;
    cbn [NilEmpty.string_of_uint Nat.of_uint_acc];
    try (rewrite digitsPrefix_digit by reflexivity;
         rewrite <- IH; f_equal; f_equal; rewrite Nat.tail_mul_spec;
         match goal with
         | |- context [JS.digitVal ?c] =>
             let v := eval vm_compute in (JS.digitVal c) in
             change (JS.digitVal c) with v
         end;
         change (default 0 (Some (Z.of_nat a))) with (Z.of_nat a); lia).
  reflexivity.
Qed.

(** [parseInt] reads back what [String] writes. *)
Lemma parseInt_String (n : nat) : JS.parseInt (JS.String_ n) = Some (Z.of_nat n).
Proof.
  rewrite String_digits.
  pose proof (DecimalNat.Unsigned.of_to n) as Hn.
  pose proof (to_uint_nonnil n) as Hnil.
  unfold Nat.of_uint in Hn.
  destruct (Nat.to_uint n) as [|d|d|d|d|d|d|d|d|d|d]; [contradiction|..];
    cbn [NilEmpty.string_of_uint]; unfold JS.parseInt;
    cbn [JS.trimStart JS.isWhiteSpace];
    cbv beta iota;
    rewrite digitsPrefix_digit by reflexivity;
    match goal with
    | |- context [JS.digitVal ?c] =>
        let v := eval vm_compute in (JS.digitVal c) in
        change (JS.digitVal c) with v
    end;
    cbn [Nat.of_uint_acc] in Hn; rewrite Nat.tail_mul_spec in Hn;
    rewrite <- Hn;
    match goal with
    | |- JS.digitsPrefix _ (Some ?z) = Some (Z.of_nat (Nat.of_uint_acc _ ?k)) =>
        replace z with (Z.of_nat k) by (cbn [from_option id]; lia)
    end;
    apply digitsPrefix_uint_end.
Qed.

Lemma concat_pages {A} (l : list A) (size pages : nat) :
  concat ((fun i => take size (drop (i * size) l)) <$> seq 0 pages)
  = take (pages * size) l.
Proof.
  induction pages as [|k IH]; [reflexivity|].
  rewrite seq_S, fmap_app, concat_app, IH. cbn [fmap list_fmap concat plus].
  rewrite app_nil_r, take_take_drop. f_equal. lia.
Qed.

End Pages.

(** X19. The pages of a listing partition what the export sends.  For a
    query whose dates are calendar dates and whose pattern compiles, a
    positive page size that is a safe integer, a store that answers and
    matching documents with pairwise different sort keys, let [all] be
    any arrangement of the matching documents in the order the listing
    asks for: the records of pages 1 to [totalPages], one after the
    other, are [all], every later page is empty, and with a sort field
    from the allow-list the export lists [all]. *)
Theorem pages_cover_export {P : Platform} (q : Req.Query) (user : string)
    (w : World) (test : string -> bool) (all : list FileRecord)
    (Hup : faultAfter w = None)
    (Hdates : plainDates q)
    (Hcast : Store.castable (Controller.listQuery q) = true)
    (Hre : Store.compile (Controller.listQuery q) = Some test)
    (Hascii : JS.isAsciiOpt (Req.limit q) = true)
    (Hlimit : 0 < Controller.limitNum q <= JS.MAX_SAFE_INTEGER)
    (Hkeys : distinctKeys test q w)
    (Hall : arranged test q w all) :
  let pageRecords (p : nat) :=
    listedRecords
      (Controller.getFileRecords
         (Req.mkReq 0 Router.noBody None user (withPage (Some (JS.String_ p)) q)) w).1 in
  exists pages,
    Z.of_nat pages = JS.ceilDiv (Z.of_nat (length all)) (Controller.limitNum q)
    /\ concat (map pageRecords (seq 1 pages)) = all
    /\ (forall p, (pages < p)%nat -> pageRecords p = [])
    /\ (JS.includes ["uploadDateTime"; "description"; "fileType"; "fileDate"]
          (default "uploadDateTime" (Req.sortBy q)) = true ->
        exists files,
          Controller.exportToExcel (Req.mkReq 0 Router.noBody None user q) w
          = (Ok (Zip (Appended "records.xlsx" (imap Controller.addRow all) :: files)),
             w)).
Proof.
  intros pageRecords.
  destruct Hall as [Hperm Hord].
  pose proof (sorted_is_sortDocs _ _ _ Hkeys Hperm Hord) as Eall.
  set (matching := selected test q w) in *.
  set (size := Z.to_nat (Controller.limitNum q)).
  assert (Hsize : (0 < size)%nat) by (unfold size; lia).
  assert (Hpage : forall i, pageRecords (S i) = take size (drop (i * size) all)).
  { intros i. unfold pageRecords, Controller.getFileRecords. unfoldM.
    cbn [Req.query].
    change (Controller.listQuery (withPage (Some (JS.String_ (S i))) q))
      with (Controller.listQuery q).
    change (Controller.listSortOptions (withPage (Some (JS.String_ (S i))) q))
      with (Controller.listSortOptions q).
    change (Controller.limitNum (withPage (Some (JS.String_ (S i))) q))
      with (Controller.limitNum q).
    assert (Hp : Controller.pageNum (withPage (Some (JS.String_ (S i))) q)
                 = Z.of_nat (S i)).
    { unfold Controller.pageNum. cbn [withPage Req.page].
      rewrite parseInt_String. unfold JS.orNum.
      destruct (Z.eqb_spec (Z.of_nat (S i)) 0); [lia|reflexivity]. }
    rewrite Hp, (find_up _ _ _ w test (listSort_nonempty q) Hup Hcast Hre). cbv zeta.
    fold (selected test q w). fold matching. rewrite <- Eall.
    destruct (Z.ltb_spec ((Z.of_nat (S i) - 1) * Controller.limitNum q) 0); [nia|].
    destruct (Z.eqb_spec (Controller.limitNum q) 0); [lia|].
    rewrite (countDocuments_up _ w test Hup Hcast Hre). cbn [fst listedRecords].
    f_equal; [unfold size; lia|]. f_equal. unfold size. nia. }
  assert (Hl : 0 < Controller.limitNum q) by lia.
  pose proof (ceilDiv_spec (Z.of_nat (length all)) (Controller.limitNum q) Hl)
    as [Hlow Hhigh].
  set (total := JS.ceilDiv (Z.of_nat (length all)) (Controller.limitNum q)) in *.
  assert (Htotal : 0 <= total) by nia.
  exists (Z.to_nat total).
  split; [lia|]. split; [|split].
  - change (map pageRecords (seq 1 (Z.to_nat total)))
      with (pageRecords <$> seq 1 (Z.to_nat total)).
    rewrite <- (fmap_S_seq 0), <- list_fmap_compose.
    rewrite (list_fmap_ext _ (fun i => take size (drop (i * size) all)))
      by (intros i x _; apply Hpage).
    rewrite (concat_pages all size (Z.to_nat total)).
    apply take_ge. unfold size. nia.
  - intros [|i] Hp; [lia|]. rewrite Hpage.
    rewrite drop_ge; [apply take_nil|]. unfold size. nia.
  - intros Hsort.
    destruct (exportToExcel_up (Req.mkReq 0 Router.noBody None user q) w test
                Hup Hcast Hre Hsort) as (files & Hrun).
    exists files. cbn [Req.query] in Hrun. fold matching in Hrun.
    now rewrite <- Eall in Hrun.
Qed.

Lemma pages_cover_export_witness :
  let q := Req.mkQuery None None None None (Some "description") (Some "asc")
             None (Some "1") in
  let all := [Sample.record1; Sample.record2] in
  let pageRecords (p : nat) :=
    listedRecords
      (Controller.getFileRecords (P:=Sample.utc)
         (Req.mkReq 0 Router.noBody None "admin" (withPage (Some (JS.String_ p)) q))
         Sample.world0).1 in
  faultAfter Sample.world0 = None
  /\ plainDates q
  /\ 0 < Controller.limitNum q <= JS.MAX_SAFE_INTEGER
  /\ distinctKeys (P:=Sample.utc) (fun _ => true) q Sample.world0
  /\ arranged (P:=Sample.utc) (fun _ => true) q Sample.world0 all
  /\ exists pages, concat (map pageRecords (seq 1 pages)) = all.
Proof.
  intros q all pageRecords.
  assert (Hd : plainDates q) by plain_dates.
  assert (Hl : 0 < Controller.limitNum q <= JS.MAX_SAFE_INTEGER)
    by (vm_compute; split; [reflexivity|discriminate]).
  assert (Hk : distinctKeys (P:=Sample.utc) (fun _ => true) q Sample.world0).
  { unfold distinctKeys. vm_compute.
    apply NoDup_cons_2; [|apply NoDup_singleton].
    intros H. apply list_elem_of_singleton in H. discriminate H. }
  assert (Ha : arranged (P:=Sample.utc) (fun _ => true) q Sample.world0 all).
  { split; [reflexivity|vm_compute; reflexivity]. }
  split; [reflexivity|]. split; [exact Hd|]. split; [exact Hl|].
  split; [exact Hk|]. split; [exact Ha|].
  destruct (pages_cover_export (P:=Sample.utc) q "admin" Sample.world0
              (fun _ => true) all eq_refl Hd eq_refl eq_refl eq_refl Hl Hk Ha)
    as (pages & _ & Hcat & _).
  exists pages. exact Hcat.
Defined.

Section Authentication.

Lemma protect_denies {K : Auth.Keys} (authorization cookieToken : option string)
    (resp : Response) :
  Auth.protect authorization cookieToken = inl resp ->
  exists message, resp = Json 401 false (Some message) NoData.
Proof.
  unfold Auth.protect, Auth.denied.
  destruct (negb (JS.truthy _)); [intros [= <-]; eauto|].
  destruct (Auth.jwtVerify _); try (intros [= <-]; eauto).
  destruct (Auth.findUser _) as [u| |]; try (intros [= <-]; eauto).
  destruct (negb (Auth.isActive u)); [intros [= <-]; eauto|discriminate].
Qed.

Lemma protect_passes {K : Auth.Keys} (authorization cookieToken : option string)
    (user : Auth.User) :
  Auth.protect authorization cookieToken = inr user ->
  exists token id,
    Auth.tokenOf authorization cookieToken = Some token /\ token <> ""
    /\ Auth.jwtVerify token = Auth.Decoded id
    /\ Auth.findUser id = Auth.FoundUser user
    /\ Auth.isActive user = true.
Proof.
  unfold Auth.protect.
  destruct (Auth.tokenOf authorization cookieToken) as [token|]; [|discriminate].
  cbn [JS.truthy from_option id].
  destruct (JS.truthyStr token) eqn:T; [|discriminate]. cbn [negb].
  destruct (Auth.jwtVerify token) as [id| | |] eqn:V; try discriminate.
  destruct (Auth.findUser id) as [u| |] eqn:F; try discriminate.
  destruct (Auth.isActive u) eqn:A; [|discriminate]. cbn [negb].
  intros [= <-]. exists token, id. apply truthyStr_true in T. auto.
Qed.

Lemma beforeChar_absent (c : ascii) (s : string) :
  hasChar c s = false -> JS.beforeChar c s = s.
Proof.
  induction s as [|x s IH]; [reflexivity|]. cbn [hasChar JS.beforeChar].
  intros H. apply orb_false_iff in H as [-> H]. now rewrite IH.
Qed.

Lemma afterChar_absent (c : ascii) (s : string) :
  hasChar c s = false -> Auth.afterChar c s = None.
Proof.
  induction s as [|x s IH]; [reflexivity|]. cbn [hasChar Auth.afterChar].
  intros H. apply orb_false_iff in H as [-> H]. now apply IH.
Qed.

End Authentication.

(** X20. No route of the file router runs without an authenticated, active
    user: either the request carries a non-empty token that verifies,
    whose user exists and is active, or the answer is a 401 and the
    world is left as it was, whatever the route. *)
Theorem routes_require_active_user {P : Platform} {K : Auth.Keys}
    (authorization cookieToken : option string) (route : Router.Route) (w : World) :
  (exists token id user,
     Auth.tokenOf authorization cookieToken = Some token /\ token <> ""
     /\ Auth.jwtVerify token = Auth.Decoded id
     /\ Auth.findUser id = Auth.FoundUser user
     /\ Auth.isActive user = true)
  \/ (exists message,
        Router.fileRoutes authorization cookieToken route w
        = (Ok (Answer (Json 401 false (Some message) NoData)), w)).
Proof.
  unfold Router.fileRoutes.
  destruct (Auth.protect authorization cookieToken) as [resp|user] eqn:E.
  - right. apply protect_denies in E as (message & ->). eauto.
  - left. apply protect_passes in E as (token & id & H). eauto.
Qed.

(** X21. The token is read from the header the client sends,
    [Bearer <token>], whatever the cookie holds; and a header that starts
    with [Bearer] but carries no token hides a cookie that would have
    been accepted: the request is answered 401. *)
Theorem bearer_header_takes_precedence {K : Auth.Keys} (token authorization : string)
    (cookieToken : option string)
    (Htoken : hasChar " " token = false)
    (Hbearer : String.prefix "Bearer" authorization = true)
    (Hbare : hasChar " " authorization = false) :
  Auth.tokenOf (Some ("Bearer " +:+ token)) cookieToken = Some token
  /\ Auth.tokenOf (Some authorization) cookieToken = None
  /\ Auth.protect (Some authorization) cookieToken
     = inl (Json 401 false
              (Some "Not authorized to access this route. Please login.") NoData).
Proof.
  assert (H2 : Auth.tokenOf (Some authorization) cookieToken = None).
  { unfold Auth.tokenOf. cbn [JS.truthy from_option id]. rewrite Hbearer.
    destruct authorization as [|c rest]; [discriminate Hbearer|].
    cbn [JS.truthyStr String.eqb negb andb]. unfold Auth.splitSecond.
    now rewrite afterChar_absent. }
  split; [|split; [exact H2|]].
  - assert (E : "Bearer " +:+ token
                = String "B" (String "e" (String "a" (String "r" (String "e"
                    (String "r" (String " " token))))))) by reflexivity.
    rewrite E. unfold Auth.tokenOf, Auth.splitSecond.
    cbn [JS.truthy JS.truthyStr String.eqb negb andb String.prefix from_option id
         Auth.afterChar Ascii.eqb Bool.eqb fmap option_fmap option_map].
    now rewrite beforeChar_absent.
  - unfold Auth.protect. now rewrite H2.
Qed.

Lemma bearer_header_takes_precedence_witness :
  hasChar " " "eyJhbGciOi.eyJpZCI6MX0.c2ln" = false
  /\ String.prefix "Bearer" "Bearer" = true
  /\ Auth.tokenOf (Some "Bearer eyJhbGciOi.eyJpZCI6MX0.c2ln")
       (Some "eyJhbGciOi.eyJpZCI6MX0.c2ln")
     = Some "eyJhbGciOi.eyJpZCI6MX0.c2ln"
  /\ Auth.protect (K:=SampleAuth.keys) None (Some "eyJhbGciOi.eyJpZCI6MX0.c2ln")
     = inr SampleAuth.admin
  /\ Auth.protect (K:=SampleAuth.keys) (Some "Bearer")
       (Some "eyJhbGciOi.eyJpZCI6MX0.c2ln")
     = inl (Json 401 false
              (Some "Not authorized to access this route. Please login.") NoData).
Proof.
  split; [reflexivity|]. split; [reflexivity|].
  destruct (bearer_header_takes_precedence (K:=SampleAuth.keys)
              "eyJhbGciOi.eyJpZCI6MX0.c2ln" "Bearer"
              (Some "eyJhbGciOi.eyJpZCI6MX0.c2ln") eq_refl eq_refl eq_refl)
    as (H1 & _ & H3).
  split; [exact H1|]. split; [reflexivity|exact H3].
Defined.

(** X22. The error handler answers with the status the response had when
    it was entered, 500 standing in for 200, whatever the error is: the
    400 of a duplicate key or a validation error and the 404 of a cast
    error are set and then overwritten, only their messages are sent.  An
    unknown URL, passed on by [notFound], is answered 404 with its own
    message. *)
Theorem error_handler_status_ignores_error_type (err : ErrorMiddleware.Err)
    (status : Z) (url : string) :
  (ErrorMiddleware.errorHandler err status).1 = (if status =? 200 then 500 else status)
  /\ (ErrorMiddleware.err_name err = "CastError" ->
      (ErrorMiddleware.errorHandler err status).2
      = "Resource not found with id: " +:+ ErrorMiddleware.err_value err)
  /\ (ErrorMiddleware.err_name err = "ValidationError" ->
      (ErrorMiddleware.errorHandler err status).2
      = ErrorMiddleware.join ", " (ErrorMiddleware.err_errors err))
  /\ (ErrorMiddleware.err_name err <> "CastError" -> ErrorMiddleware.err_name err <> "ValidationError" ->
      (ErrorMiddleware.errorHandler err status).2
      = if bool_decide (ErrorMiddleware.err_code err = Some 11000)
        then "Duplicate field value entered" else ErrorMiddleware.err_message err)
  /\ ErrorMiddleware.errorHandler (ErrorMiddleware.notFound url).2
       (ErrorMiddleware.notFound url).1
     = (404, "Not Found - " +:+ url).
Proof.
  unfold ErrorMiddleware.errorHandler.
  split; [|split; [|split; [|split; [|reflexivity]]]].
  - destruct (bool_decide _), (String.eqb _ "ValidationError"),
      (String.eqb _ "CastError"); reflexivity.
  - intros ->. cbn [String.eqb Ascii.eqb Bool.eqb].
    destruct (bool_decide _); reflexivity.
  - intros ->. cbn [String.eqb Ascii.eqb Bool.eqb].
    destruct (bool_decide _); reflexivity.
  - intros H1 H2. apply String.eqb_neq in H1, H2. rewrite H1, H2.
    destruct (bool_decide _); reflexivity.
Qed.

Section Answers.

Lemma cleanUp_throws (f : option Req.File) (w w' : World) (e : Error) :
  Controller.cleanUp f w = (Throw e, w') ->
  w' = w /\ exists file, f = Some file /\ e = EPERM (Req.path file)
                         /\ Req.path file ∈ disk w /\ Req.path file ∈ locked w.
Proof.
  destruct f as [file|]; [|discriminate].
  unfold Controller.cleanUp, Fs.existsSync, Fs.unlinkSync. unfoldM.
  destruct (bool_decide (Req.path file ∈ disk w)) eqn:D; [|discriminate].
  rewrite D. destruct (bool_decide (Req.path file ∈ locked w)) eqn:L; [|discriminate].
  intros [= <- <-]. split; [reflexivity|]. exists file.
  apply present_by_computation in D, L. auto.
Qed.

Lemma locked_kept_by_create (req : Req.t) (w w' : World) (out : Outcome Response) :
  Controller.createFileRecord req w = (out, w') -> locked w' = locked w.
Proof.
  apply (preserves_createFileRecord (fun w w' => locked w' = locked w))
    with (target := nextId w); try reflexivity; try (intros; reflexivity).
  intros w1 w2 w3. congruence.
Qed.

Lemma locked_kept_by_update (req : Req.t) (w w' : World) (out : Outcome Response) :
  Controller.updateFileRecord req w = (out, w') -> locked w' = locked w.
Proof.
  apply (preserves_updateFileRecord (fun w w' => locked w' = locked w))
    with (target := Req.id req); try reflexivity; try (intros; reflexivity).
  intros w1 w2 w3. congruence.
Qed.

End Answers.

(** X23. The handlers that write answer every request but one kind: an
    exception leaves the upload or the update handler only when the
    clean-up of its catch block fails to remove the uploaded file, which
    is then on disk and protected; the deletion handler always answers. *)
Theorem handlers_answer_unless_cleanup_fails (req : Req.t) (w : World) :
  (exists resp, (Controller.deleteFileRecord req w).1 = Ok resp)
  /\ (forall e, (Controller.createFileRecord req w).1 = Throw e ->
        exists file, Req.file req = Some file /\ e = EPERM (Req.path file)
                     /\ Req.path file ∈ locked w)
  /\ (forall e, (Controller.updateFileRecord req w).1 = Throw e ->
        exists file, Req.file req = Some file /\ e = EPERM (Req.path file)
                     /\ Req.path file ∈ locked w).
Proof.
  split; [apply tryCatch_answers|split].
  - intros e He.
    destruct (Controller.createFileRecord req w) as [out w'] eqn:E.
    cbn [fst] in He. subst out.
    pose proof (locked_kept_by_create _ _ _ _ E) as Hl.
    unfold Controller.createFileRecord in E.
    apply tryCatch_inv in E as [(a & _ & [=])|(e0 & w1 & _ & H)].
    apply bind_inv in H as [(u & w2 & _ & H)|(e' & H & [= <-])].
    { apply mret_inv in H as [[=] _]. }
    apply cleanUp_throws in H as (-> & file & Hf & -> & _ & Hlocked).
    exists file. rewrite <- Hl. auto.
  - intros e He.
    destruct (Controller.updateFileRecord req w) as [out w'] eqn:E.
    cbn [fst] in He. subst out.
    pose proof (locked_kept_by_update _ _ _ _ E) as Hl.
    unfold Controller.updateFileRecord in E.
    apply tryCatch_inv in E as [(a & _ & [=])|(e0 & w1 & _ & H)].
    apply bind_inv in H as [(u & w2 & _ & H)|(e' & H & [= <-])].
    { apply mret_inv in H as [[=] _]. }
    apply cleanUp_throws in H as (-> & file & Hf & -> & _ & Hlocked).
    exists file. rewrite <- Hl. auto.
Qed.

(** X24. A filter that is sent empty is no filter, and neither is the
    file type [All]: the listing and the export answer a query exactly as
    they answer the query with those parameters left out. *)
Theorem blank_filters_are_no_filters {P : Platform} (rid : nat) (body : Req.Body)
    (file : option Req.File) (user : string) (q : Req.Query) (w : World) :
  Controller.listQuery (withoutBlanks q) = Controller.listQuery q
  /\ Controller.getFileRecords (Req.mkReq rid body file user (withoutBlanks q)) w
     = Controller.getFileRecords (Req.mkReq rid body file user q) w
  /\ Controller.exportToExcel (Req.mkReq rid body file user (withoutBlanks q)) w
     = Controller.exportToExcel (Req.mkReq rid body file user q) w.
Proof.
  assert (Hnull : forall o, JS.truthy (JS.orNull o) = JS.truthy o).
  { intros [s|]; [|reflexivity]. cbn. destruct (JS.truthyStr s) eqn:T; cbn; now rewrite ?T. }
  assert (Hval : forall o, JS.truthy o = true -> JS.orNull o = o).
  { intros [s|]; [|discriminate]. cbn. now intros ->. }
  assert (Hq : Controller.listQuery (withoutBlanks q) = Controller.listQuery q).
  { unfold Controller.listQuery, withoutBlanks.
    cbn [Req.search Req.fileType Req.startDate Req.endDate].
    rewrite !Hnull.
    assert (Ht : (JS.truthy
                    match Req.fileType q with
                    | Some t => if String.eqb t "All" then None else JS.orNull (Some t)
                    | None => None
                    end
                  && negb (String.eqb
                             (default ""
                                match Req.fileType q with
                                | Some t => if String.eqb t "All" then None
                                            else JS.orNull (Some t)
                                | None => None
                                end) "All"))
                 = (JS.truthy (Req.fileType q)
                    && negb (String.eqb (default "" (Req.fileType q)) "All"))).
    { destruct (Req.fileType q) as [t|]; [|reflexivity].
      destruct (String.eqb t "All") eqn:A; cbn [JS.truthy from_option id].
      - rewrite A. now rewrite andb_false_r.
      - cbn [JS.orNull]. destruct (JS.truthyStr t) eqn:T; cbn [JS.truthy from_option id];
          rewrite ?T, ?A; reflexivity. }
    rewrite Ht.
    destruct (JS.truthy (Req.search q)) eqn:S1;
      destruct (JS.truthy (Req.fileType q)
                && negb (String.eqb (default "" (Req.fileType q)) "All")) eqn:S2;
      destruct (JS.truthy (Req.startDate q)) eqn:S3;
      destruct (JS.truthy (Req.endDate q)) eqn:S4;
      cbn [orb q_description q_fileType q_uploadDateTime gte lte];
      rewrite ?(Hval _ S1), ?(Hval _ S3), ?(Hval _ S4); try reflexivity;
      apply andb_true_iff in S2 as [S2 S2']; apply negb_true_iff in S2';
      destruct (Req.fileType q) as [t|]; try discriminate;
      cbn [from_option id] in S2'; rewrite S2'; cbn [JS.truthy] in S2;
      cbn [JS.orNull]; rewrite S2; reflexivity. }
  split; [exact Hq|]. split.
  - unfold Controller.getFileRecords. cbn [Req.query]. now rewrite Hq.
  - unfold Controller.exportToExcel. cbn [Req.query].
    now rewrite !exportQuery_listQuery, Hq.
Qed.

Section Characters.

Lemma hasChar_append (c : ascii) (a b : string) :
  hasChar c (a +:+ b) = hasChar c a || hasChar c b.
Proof.
  induction a as [|x a IH]; [reflexivity|].
  rewrite append_cons. cbn [hasChar]. rewrite IH. now rewrite orb_assoc.
Qed.

Lemma length_append (a b : string) :
  String.length (a +:+ b) = (String.length a + String.length b)%nat.
Proof.
  induction a as [|x a IH]; [reflexivity|].
  rewrite append_cons. cbn [String.length]. now rewrite IH.
Qed.

Lemma charAt_cons (x : ascii) (s : string) (i : nat) :
  JS.charAt (String x s) (S i) = JS.charAt s i.
Proof. reflexivity. Qed.

(** A character that does not occur is at no index. *)
Lemma hasChar_charAt (c : ascii) (s : string) (i : nat) :
  hasChar c s = false -> (i < String.length s)%nat -> JS.charAt s i <> c.
Proof.
  revert i. induction s as [|x s IH]; intros i H Hi; cbn [String.length] in Hi; [lia|].
  cbn [hasChar] in H. apply orb_false_iff in H as [Hx H].
  destruct i as [|i].
  - unfold JS.charAt. cbn. now apply Ascii.eqb_neq.
  - rewrite charAt_cons. apply IH; [exact H|lia].
Qed.

Lemma charAt_append_l (a b : string) (i : nat) :
  (i < String.length a)%nat -> JS.charAt (a +:+ b) i = JS.charAt a i.
Proof.
  revert i. induction a as [|x a IH]; intros i Hi; cbn [String.length] in Hi; [lia|].
  rewrite append_cons. destruct i as [|i]; [reflexivity|].
  rewrite !charAt_cons. apply IH. lia.
Qed.

Lemma charAt_append_r (a b : string) (i : nat) :
  JS.charAt (a +:+ b) (String.length a + i) = JS.charAt b i.
Proof.
  induction a as [|x a IH]; [reflexivity|].
  rewrite append_cons. cbn [String.length plus]. now rewrite charAt_cons.
Qed.

Lemma charAt_inside (s : string) (i : nat) (c : ascii) :
  JS.charAt s i = c -> c <> "000"%char -> (i < String.length s)%nat.
Proof.
  revert i. induction s as [|x s IH]; intros i H Hc.
  - unfold JS.charAt in H. destruct i; cbn in H; congruence.
  - destruct i as [|i]; cbn [String.length]; [lia|].
    rewrite charAt_cons in H. specialize (IH i H Hc). lia.
Qed.

Lemma substring_head (s : string) (a k : nat) :
  (a < String.length s)%nat ->
  String.substring a (S k) s = String (JS.charAt s a) (String.substring (S a) k s).
Proof.
  revert a. induction s as [|x s IH]; intros a Ha; cbn [String.length] in Ha; [lia|].
  destruct a as [|a].
  - reflexivity.
  - cbn [String.substring]. rewrite charAt_cons. apply IH. lia.
Qed.

Lemma substring_whole (s : string) : String.substring 0 (String.length s) s = s.
Proof.
  induction s as [|x s IH]; [reflexivity|].
  cbn [String.length String.substring]. now rewrite IH.
Qed.

Lemma substring_append_r (a b : string) :
  String.substring (String.length a) (String.length b) (a +:+ b) = b.
Proof.
  induction a as [|x a IH].
  - apply substring_whole.
  - rewrite append_cons. cbn [String.length String.substring]. exact IH.
Qed.

(** A stretch of a string without a character. *)
Lemma hasChar_substring (c : ascii) (s : string) (a k : nat) :
  (forall j, (a <= j < a + k)%nat -> JS.charAt s j <> c) ->
  hasChar c (String.substring a k s) = false.
Proof.
  revert a k. induction s as [|x s IH]; intros a k H.
  - destruct a, k; reflexivity.
  - destruct a as [|a].
    + destruct k as [|k]; [reflexivity|]. cbn [String.substring hasChar].
      apply orb_false_iff. split.
      * apply Ascii.eqb_neq. apply (H 0%nat). lia.
      * apply IH. intros j Hj. rewrite <- charAt_cons with (x := x). apply H. lia.
    + cbn [String.substring]. apply IH. intros j Hj.
      rewrite <- charAt_cons with (x := x). apply H. lia.
Qed.

Lemma hasChar_substring_of (c : ascii) (s : string) (a k : nat) :
  hasChar c s = false -> hasChar c (String.substring a k s) = false.
Proof.
  revert a k. induction s as [|x s IH]; intros a k H.
  - destruct a, k; reflexivity.
  - cbn [hasChar] in H. apply orb_false_iff in H as [Hx H].
    destruct a as [|a].
    + destruct k as [|k]; [reflexivity|]. cbn [String.substring hasChar].
      rewrite Hx. now apply IH.
    + cbn [String.substring]. now apply IH.
Qed.

Lemma hasChar_sanitize (c : ascii) (s : string) :
  JS.isAlnum c = false -> c <> "_"%char -> hasChar c (JS.sanitize s) = false.
Proof.
  intros Hc Hu. induction s as [|x s IH]; [reflexivity|].
  cbn [JS.sanitize hasChar]. rewrite IH, orb_false_r.
  destruct (JS.isAlnum x) eqn:A.
  - apply Ascii.eqb_neq. intros ->. congruence.
  - apply Ascii.eqb_neq. congruence.
Qed.

Lemma hasChar_uint (c : ascii) (d : Decimal.uint) :
  JS.isDigit c = false -> hasChar c (NilEmpty.string_of_uint d) = false.
Proof.
  intros Hc. induction d; cbn [NilEmpty.string_of_uint hasChar]; [reflexivity|..];
    rewrite IHd, orb_false_r; apply Ascii.eqb_neq; intros <-; discriminate Hc.
Qed.

Lemma hasChar_StringZ (c : ascii) (z : Z) :
  JS.isDigit c = false -> c <> "-"%char -> hasChar c (JS.StringZ z) = false.
Proof.
  intros Hc Hm. unfold JS.StringZ, NilZero.string_of_int.
  assert (U : forall d, hasChar c (NilZero.string_of_uint d) = false).
  { intros d. unfold NilZero.string_of_uint.
    destruct d; try apply (hasChar_uint c _ Hc).
    cbn [hasChar]. rewrite orb_false_r. apply Ascii.eqb_neq. intros <-. discriminate Hc. }
  destruct (Z.to_int z) as [d|d]; [apply U|].
  cbn [hasChar]. rewrite U, orb_false_r. apply Ascii.eqb_neq. congruence.
Qed.

End Characters.

Section ExtnameShape.

Lemma scan_invariant (p : string) (n : nat) (st : Path.ExtState) :
  scanned p n st -> exists m, scanned p m (Path.extnameScan p n st).
Proof.
  revert st. induction n as [|i IH]; intros st H; [now exists 0%nat|].
  cbn [Path.extnameScan].
  destruct H as (J1 & J2 & J3 & J5).
  destruct (Ascii.eqb_spec (JS.charAt p i) "/") as [Hs|Hs].
  - destruct (Path.matchedSlash st) eqn:M; cbn [negb].
    + assert (E : Path.extEnd st = -1).
      { destruct (Z.eq_dec (Path.extEnd st) (-1)) as [E|E]; [exact E|].
        destruct (J2 E) as [N _]. congruence. }
      apply IH. split; [exact J1|]. split; [congruence|].
      split; [intros N; now destruct (N (J1 E))|]. intros _ j _ Hj. lia.
    + exists (S i). cbn [Path.extEnd Path.startDot Path.matchedSlash].
      repeat split; auto; try (apply J2; assumption); try (apply J3; assumption).
      all: try (intros; now apply J3).
      all: try (intros; now apply J5).
      all: try (intros; now apply (proj2 (proj2 (J2 ltac:(assumption))))).
  - apply IH. clear IH.
    destruct (Z.eqb_spec (Path.extEnd st) (-1)) as [E|E].
    + (* the first character of the last component *)
      pose proof (J1 E) as D. cbn [Path.startDot].
      rewrite D. cbn [Z.eqb].
      destruct (Ascii.eqb_spec (JS.charAt p i) ".") as [Hd|Hd];
        cbn [negb Z.eqb Pos.eqb Path.extEnd Path.startDot Path.matchedSlash
             Path.startPart Path.preDotState];
        unfold scanned; cbn [Path.extEnd Path.startDot Path.matchedSlash].
      * split; [lia|]. split.
        { intros _. split; [reflexivity|]. split; [lia|].
          intros j Hj1 Hj2. assert (j = i) as -> by lia. exact Hs. }
        split.
        { intros _. split; [lia|]. rewrite Nat2Z.id. split; [exact Hd|].
          intros j Hj. lia. }
        intros N. lia.
      * split; [lia|]. split.
        { intros _. split; [reflexivity|]. split; [lia|].
          intros j Hj1 Hj2. assert (j = i) as -> by lia. exact Hs. }
        split; [intros N; now destruct N|].
        intros _ j Hj1 Hj2. assert (j = i) as -> by lia. exact Hd.
    + destruct (J2 E) as (M & B & S).
      assert (S' : forall j : nat, (i <= j)%nat -> Z.of_nat j < Path.extEnd st ->
                     JS.charAt p j <> "/"%char).
      { intros j Hj1 Hj2. destruct (decide (j = i)) as [->|Hne]; [exact Hs|].
        apply S; [lia|exact Hj2]. }
      destruct (Ascii.eqb_spec (JS.charAt p i) ".") as [Hd|Hd].
      * destruct (Z.eqb_spec (Path.startDot st) (-1)) as [D|D].
        { unfold scanned; cbn [Path.extEnd Path.startDot Path.matchedSlash].
          split; [congruence|]. split; [intros _; split; [exact M|split; [lia|exact S']]|].
          split.
          - intros _. split; [lia|]. rewrite Nat2Z.id. split; [exact Hd|].
            intros j Hj. apply (J5 D); lia.
          - intros N. lia. }
        { destruct (J3 D) as (B3 & C3 & F3).
          assert (K : forall pd, scanned p i
                        (Path.mkExt (Path.startDot st) (Path.startPart st)
                           (Path.extEnd st) (Path.matchedSlash st) pd)).
          { intros pd. unfold scanned; cbn [Path.extEnd Path.startDot Path.matchedSlash].
            split; [congruence|].
            split; [intros _; split; [exact M|split; [lia|exact S']]|].
            split; [intros _; split; [lia|split; [exact C3|exact F3]]|].
            intros N. congruence. }
          destruct (negb (Path.preDotState st =? 1)); [apply K|].
          destruct st as [sd sp ee ms pd]. apply K. }
      * assert (K : forall pd, scanned p i
                      (Path.mkExt (Path.startDot st) (Path.startPart st)
                         (Path.extEnd st) (Path.matchedSlash st) pd)).
        { intros pd. unfold scanned; cbn [Path.extEnd Path.startDot Path.matchedSlash].
          split; [congruence|].
          split; [intros _; split; [exact M|split; [lia|exact S']]|].
          split.
          - intros D. destruct (J3 D) as (B3 & C3 & F3).
            split; [lia|split; [exact C3|exact F3]].
          - intros D j Hj1 Hj2. destruct (decide (j = i)) as [->|Hne]; [exact Hd|].
            apply (J5 D); [lia|exact Hj2]. }
        destruct (negb (Path.startDot st =? -1)); [apply K|].
        destruct st as [sd sp ee ms pd]. apply K.
Qed.

(** The extension is empty, or a dot followed by characters that are
    neither dots nor separators. *)
Lemma extname_shape (p : string) :
  Path.extname p = ""
  \/ exists e, Path.extname p = String "." e
               /\ hasChar "." e = false /\ hasChar "/" e = false.
Proof.
  unfold Path.extname.
  destruct (scan_invariant p (String.length p) (Path.mkExt (-1) 0 (-1) true 0))
    as (m & J1 & J2 & J3 & _).
  { unfold scanned. cbn [Path.extEnd Path.startDot Path.matchedSlash].
    split; [reflexivity|]. split; [intros N; now destruct N|].
    split; [intros N; now destruct N|]. intros _ j _ Hj. lia. }
  set (st := Path.extnameScan p _ _) in *.
  destruct (Z.eqb_spec (Path.startDot st) (-1)) as [D|D]; [now left|].
  destruct (Z.eqb_spec (Path.extEnd st) (-1)) as [E|E]; [now left|].
  cbn [orb].
  match goal with |- (if ?c then _ else _) = _ \/ _ => destruct c end; [now left|].
  right. destruct (J3 D) as (B & C & F). destruct (J2 E) as (_ & _ & S).
  unfold JS.slice.
  assert (Ha : (Z.to_nat (Path.startDot st) < String.length p)%nat).
  { apply (charAt_inside _ _ _ C). discriminate. }
  destruct (Z.to_nat (Path.extEnd st - Path.startDot st)) as [|k] eqn:K; [lia|].
  rewrite substring_head by exact Ha. rewrite C.
  eexists. split; [reflexivity|]. split.
  - apply hasChar_substring. intros j Hj. apply F. lia.
  - apply hasChar_substring. intros j Hj. apply S; lia.
Qed.

End ExtnameShape.

Section ExtnameOfStoredNames.

Lemma one_plain (p : string) (i : nat) (st : Path.ExtState) :
  JS.charAt p i <> "/"%char -> JS.charAt p i <> "."%char ->
  Path.extnameScan p (S i) st = Path.extnameScan p i (afterPlain (S i) st).
Proof.
  intros Hs Hd. cbn [Path.extnameScan].
  apply Ascii.eqb_neq in Hs, Hd. rewrite Hs. f_equal.
  unfold afterPlain. destruct st as [sd sp ee ms pd].
  cbn [Path.extEnd Path.startDot Path.startPart Path.matchedSlash Path.preDotState].
  replace (Z.of_nat i + 1) with (Z.of_nat (S i)) by lia.
  destruct (ee =? -1);
    cbn [Path.extEnd Path.startDot Path.startPart Path.matchedSlash Path.preDotState];
    rewrite Hd; destruct (sd =? -1); reflexivity.
Qed.

Lemma afterPlain_again (t t' : nat) (st : Path.ExtState) :
  afterPlain t' (afterPlain t st) = afterPlain t st.
Proof.
  unfold afterPlain. destruct st as [sd sp ee ms pd].
  cbn [Path.extEnd Path.startDot Path.startPart Path.matchedSlash Path.preDotState].
  destruct (Z.eqb_spec ee (-1)) as [E|E].
  - destruct (Z.eqb_spec (Z.of_nat t) (-1)); [lia|].
    destruct (sd =? -1) eqn:D; [reflexivity|]. reflexivity.
  - destruct (Z.eqb_spec ee (-1)); [contradiction|].
    destruct (sd =? -1) eqn:D; reflexivity.
Qed.

Lemma scan_plain (p : string) (a k : nat) (st : Path.ExtState) :
  (forall j, (a <= j < a + S k)%nat ->
     JS.charAt p j <> "/"%char /\ JS.charAt p j <> "."%char) ->
  Path.extnameScan p (a + S k) st = Path.extnameScan p a (afterPlain (a + S k) st).
Proof.
  revert st. induction k as [|k IH]; intros st H.
  - replace (a + 1)%nat with (S a) by lia.
    destruct (H a ltac:(lia)) as [Hs Hd]. now apply one_plain.
  - replace (a + S (S k))%nat with (S (a + S k)) by lia.
    destruct (H (a + S k)%nat ltac:(lia)) as [Hs Hd].
    rewrite (one_plain p _ st Hs Hd), IH by (intros j Hj; apply H; lia).
    now rewrite afterPlain_again.
Qed.

Lemma one_dot (p : string) (i : nat) (st : Path.ExtState) :
  JS.charAt p i = "."%char -> Path.startDot st = -1 ->
  Path.extnameScan p (S i) st
  = Path.extnameScan p i
      (Path.mkExt (Z.of_nat i) (Path.startPart st)
         (if Path.extEnd st =? -1 then Z.of_nat (S i) else Path.extEnd st)
         (if Path.extEnd st =? -1 then false else Path.matchedSlash st)
         (Path.preDotState st)).
Proof.
  intros Hd D. cbn [Path.extnameScan]. rewrite Hd. cbn [Ascii.eqb Bool.eqb andb].
  f_equal. destruct st as [sd sp ee ms pd].
  cbn [Path.extEnd Path.startDot Path.startPart Path.matchedSlash Path.preDotState] in *.
  subst sd. replace (Z.of_nat i + 1) with (Z.of_nat (S i)) by lia.
  destruct (ee =? -1); reflexivity.
Qed.

Lemma plain_chars (s : string) (j : nat) :
  hasChar "." s = false -> hasChar "/" s = false -> (j < String.length s)%nat ->
  JS.charAt s j <> "/"%char /\ JS.charAt s j <> "."%char.
Proof. intros Hd Hs Hj. split; now apply hasChar_charAt. Qed.

(** A name without dots and separators has no extension. *)
Lemma extname_plain (s : string) :
  hasChar "." s = false -> hasChar "/" s = false -> Path.extname s = "".
Proof.
  intros Hd Hs. unfold Path.extname.
  destruct (String.length s) as [|k] eqn:L; [reflexivity|].
  rewrite (scan_plain s 0 k) by (intros j Hj; apply plain_chars; auto; lia).
  reflexivity.
Qed.

(** An extension put behind such a name is the extension of the whole. *)
Lemma extname_append (pre e : string) :
  pre <> "" ->
  hasChar "." pre = false -> hasChar "/" pre = false ->
  hasChar "." e = false -> hasChar "/" e = false ->
  Path.extname (pre +:+ String "." e) = String "." e.
Proof.
  intros Hne Hd Hs Hde Hse. unfold Path.extname.
  set (p := pre +:+ String "." e).
  assert (Lp : String.length p = (String.length pre + S (String.length e))%nat)
    by (unfold p; now rewrite length_append).
  assert (Cpre : forall j, (j < String.length pre)%nat ->
                   JS.charAt p j <> "/"%char /\ JS.charAt p j <> "."%char).
  { intros j Hj. unfold p. rewrite charAt_append_l by exact Hj.
    now apply plain_chars. }
  assert (Cdot : JS.charAt p (String.length pre) = "."%char).
  { unfold p. rewrite <- (Nat.add_0_r (String.length pre)).
    now rewrite charAt_append_r. }
  assert (Ce : forall j, (S (String.length pre) <= j < String.length p)%nat ->
                 JS.charAt p j <> "/"%char /\ JS.charAt p j <> "."%char).
  { intros j Hj. unfold p.
    replace j with (String.length pre + S (j - S (String.length pre)))%nat by lia.
    rewrite charAt_append_r, charAt_cons. apply plain_chars; auto. lia. }
  assert (Hscan : Path.extnameScan p (String.length p) (Path.mkExt (-1) 0 (-1) true 0)
                  = Path.mkExt (Z.of_nat (String.length pre)) 0
                      (Z.of_nat (String.length p)) false (-1)).
  { assert (H1 : Path.extnameScan p (String.length p) (Path.mkExt (-1) 0 (-1) true 0)
                 = Path.extnameScan p (String.length pre)
                     (Path.mkExt (Z.of_nat (String.length pre)) 0
                        (Z.of_nat (String.length p)) false 0)).
    { destruct (String.length e) as [|k] eqn:Le.
      - rewrite Lp. replace (String.length pre + 1)%nat with (S (String.length pre)) by lia.
        rewrite (one_dot p _ (Path.mkExt (-1) 0 (-1) true 0) Cdot eq_refl).
        cbn [Path.extEnd Path.startDot Path.startPart Path.matchedSlash
             Path.preDotState Z.eqb Pos.eqb].
        first [reflexivity|do 2 f_equal; lia].
      - rewrite Lp.
        replace (String.length pre + S (S k))%nat
          with (S (String.length pre) + S k)%nat by lia.
        rewrite (scan_plain p (S (String.length pre)) k)
          by (intros j Hj; apply Ce; lia).
        rewrite (one_dot p _ (afterPlain _ (Path.mkExt (-1) 0 (-1) true 0)) Cdot eq_refl).
        unfold afterPlain.
        cbn [Path.extEnd Path.startDot Path.startPart Path.matchedSlash
             Path.preDotState Z.eqb Pos.eqb].
        first [reflexivity|do 2 f_equal; lia]. }
    rewrite H1.
    destruct (String.length pre) as [|k] eqn:Lpre.
    { destruct pre; [contradiction|discriminate Lpre]. }
    rewrite (scan_plain p 0 k) by (intros j Hj; apply Cpre; lia).
    cbn [Path.extnameScan plus]. unfold afterPlain.
    cbn [Path.extEnd Path.startDot Path.startPart Path.matchedSlash Path.preDotState].
    destruct (Z.eqb_spec (Z.of_nat (String.length p)) (-1)); [lia|].
    destruct (Z.eqb_spec (Z.of_nat (S k)) (-1)); [lia|]. reflexivity. }
  rewrite Hscan.
  cbn [Path.extEnd Path.startDot Path.startPart Path.matchedSlash Path.preDotState].
  destruct (Z.eqb_spec (Z.of_nat (String.length pre)) (-1)); [lia|].
  destruct (Z.eqb_spec (Z.of_nat (String.length p)) (-1)); [lia|].
  cbn [orb Z.eqb andb]. unfold JS.slice. rewrite Nat2Z.id.
  replace (Z.to_nat (Z.of_nat (String.length p) - Z.of_nat (String.length pre)))
    with (String.length (String "." e)) by (cbn [String.length]; lia).
  apply substring_append_r.
Qed.

End ExtnameOfStoredNames.

(** X25. The name that the middleware generates for an upload keeps the
    extension of the original name and never leaves the uploads
    directory: when the random suffix holds no dot and no separator, the
    generated name has exactly the extension of the original name, as
    [path.extname] reads it, and it holds no separator, whatever the
    original name holds. *)
Theorem stored_name_keeps_extension (time : Z) (part : Upload.Part)
    (Hdot : hasChar "." (Upload.uuid part) = false)
    (Hsep : hasChar "/" (Upload.uuid part) = false) :
  Path.extname (Upload.filename time part) = Path.extname (Upload.originalname part)
  /\ hasChar "/" (Upload.filename time part) = false.
Proof.
  unfold Upload.filename.
  set (ext := Path.extname (Upload.originalname part)).
  set (base := String.substring 0 50 _).
  set (pre := JS.StringZ time +:+ "_" +:+ base +:+ "_" +:+ Upload.uuid part).
  assert (E : JS.StringZ time +:+ "_" +:+ base +:+ "_" +:+ Upload.uuid part +:+ ext
              = pre +:+ ext).
  { unfold pre. now rewrite !append_assoc. }
  rewrite E. clear E.
  assert (Hbase : forall c, JS.isAlnum c = false -> c <> "_"%char ->
                    hasChar c base = false).
  { intros c H1 H2. unfold base. apply hasChar_substring_of.
    now apply hasChar_sanitize. }
  assert (Hpre : forall c, JS.isAlnum c = false -> JS.isDigit c = false ->
                   c <> "_"%char -> c <> "-"%char ->
                   hasChar c (Upload.uuid part) = false -> hasChar c pre = false).
  { intros c H1 H2 H3 H4 H5. unfold pre.
    rewrite !hasChar_append, hasChar_StringZ, Hbase, H5 by assumption.
    cbn [hasChar orb]. apply Ascii.eqb_neq in H3.
    rewrite Ascii.eqb_sym, H3. reflexivity. }
  assert (Pd : hasChar "." pre = false) by (apply Hpre; auto; discriminate).
  assert (Ps : hasChar "/" pre = false) by (apply Hpre; auto; discriminate).
  assert (Pne : pre <> "").
  { unfold pre. intros H. apply (f_equal String.length) in H.
    rewrite !length_append in H. cbn [String.length] in H. lia. }
  assert (Hext : Path.extname (pre +:+ ext) = ext
                 /\ hasChar "/" (pre +:+ ext) = false).
  { destruct (extname_shape (Upload.originalname part)) as [H|(e & H & Hd & Hs)];
      fold ext in H; rewrite H.
    - assert (pre +:+ "" = pre) as ->.
      { clear. induction pre as [|x s IH]; [reflexivity|].
        now rewrite append_cons, IH. }
      split; [now apply extname_plain|exact Ps].
    - split; [now apply extname_append|].
      rewrite hasChar_append, Ps. cbn [hasChar Ascii.eqb Bool.eqb orb]. exact Hs. }
  exact Hext.
Qed.

Lemma stored_name_keeps_extension_witness :
  let part := Upload.mkPart "../../etc/Report.Final.PDF" "application/pdf" 10
                "3f2a-77b1" false in
  hasChar "." (Upload.uuid part) = false
  /\ hasChar "/" (Upload.uuid part) = false
  /\ Path.extname (Upload.filename 1705400000000 part) = ".PDF"
  /\ hasChar "/" (Upload.filename 1705400000000 part) = false.
Proof.
  intros part.
  destruct (stored_name_keeps_extension 1705400000000 part eq_refl eq_refl)
    as (H1 & H2).
  split; [reflexivity|]. split; [reflexivity|]. split; [|exact H2].
  rewrite H1. vm_compute. reflexivity.
Defined.
